(** * Operation merge and conflict-resolution engine of the sync worker

    A shallow embedding of [mergeOperations], [applyOperation] and the
    sixteen operation handlers of the worker, followed by the properties
    of the specification that were checked against them.

    Conventions of the embedding.
    - JavaScript numbers that hold currency, counters and epoch
      milliseconds are integers ([Z]); [Math.floor(price * 0.10)] and
      [Math.floor(price * 0.90)] are the integer quotients [price / 10] and
      [9 * price / 10], with which the double-precision products agree on
      the currency range.  The roll of the roulette is a rational, compared
      exactly with the accumulated probabilities of the prize table.
    - A payload field that is absent is represented by the falsy value of
      its type (the empty string, [0], [false]); the payload object itself
      may be absent ([None]), in which case destructuring it throws.
    - An object obtained with [Array.prototype.find] is a reference into
      the array; it is modelled by the position of the first match, and a
      mutation through the reference by an update at that position, so
      that two references to the same object alias as they do in the code.
    - [generateId()] draws from [Math.random()] and the clock; it is
      modelled by an id source [gen] read at a running position.
    - [Date.now()] is a parameter of the merge pass. *)

From Stdlib Require Import ZArith QArith List String Ascii Bool Lia.
From Stdlib Require Import Permutation Sorted DecimalString Relations.
Import ListNotations.
Open Scope string_scope.
Open Scope list_scope.
Open Scope Z_scope.

(** ** Array helpers *)

Section Arrays.
Context {A : Type}.

(** [find] as a reference: position and value of the first element
    satisfying [p] ([findIndex] together with the element it designates). *)
Fixpoint findRef (p : A -> bool) (l : list A) : option (nat * A) :=
  match l with
  | [] => None
  | x :: r =>
      if p x then Some (0%nat, x)
      else match findRef p r with
           | Some (i, y) => Some (S i, y)
           | None => None
           end
  end.

(** Mutation of the object at position [i]. *)
Fixpoint update (i : nat) (f : A -> A) (l : list A) : list A :=
  match l, i with
  | [], _ => []
  | x :: r, O => f x :: r
  | x :: r, S j => x :: update j f r
  end.

(** [splice(i, 1)]. *)
Fixpoint splice1 (i : nat) (l : list A) : list A :=
  match l, i with
  | [], _ => []
  | _ :: r, O => r
  | x :: r, S j => x :: splice1 j r
  end.
End Arrays.

(** Template-literal rendering of an integer. *)
Definition showZ (z : Z) : string := NilEmpty.string_of_int (Z.to_int z).

(** ** Data model *)

Record User := mkUser {
  u_id : string;
  u_name : string;
  u_passHash : string;
  u_balance : Z;
  u_streakCount : Z;
  (** the [YYYY-MM-DD] string as a day number; [None] is the empty string *)
  u_lastMorningDate : option Z
}.

Record Listing := mkListing {
  l_id : string;
  l_title : string;
  l_price : Z;
  l_desc : string;
  l_sellerId : string;
  l_active : bool;
  l_ts : Z;
  l_qty : Z;
  l_sold : Z
}.

Inductive RightStatus :=
| owned | request | seller_executed | seller_cancel_requested
| seller_reported | buyer_rejected | finalized.

Definition status_eqb (a b : RightStatus) : bool :=
  match a, b with
  | owned, owned | request, request | seller_executed, seller_executed
  | seller_cancel_requested, seller_cancel_requested
  | seller_reported, seller_reported | buyer_rejected, buyer_rejected
  | finalized, finalized => true
  | _, _ => false
  end.

Record Right := mkRight {
  r_id : string;
  r_listingId : string;
  r_title : string;
  r_buyerId : string;
  r_sellerId : string;
  r_ts : Z;
  r_status : RightStatus;
  r_executed : bool;
  r_rejectionCount : option Z
}.

Record Tx := mkTx {
  t_id : string;
  t_ts : Z;
  t_type : string;
  t_from : option string;
  t_to : option string;
  t_amount : option Z;
  t_listingId : option string;
  t_title : option string;
  t_memo : string
}.

Record Notification := mkNotification {
  n_id : string;
  n_timestamp : Z;
  n_recipientId : string;
  n_content : string;
  n_type : string;
  n_isHtml : bool
}.

Record State := mkState {
  users : list User;
  txs : list Tx;
  listings : list Listing;
  rights : list Right;
  notifications : option (list Notification);
  vTick : Z
}.

(** The payload of an operation: every field a handler destructures. *)
Record Data := mkData {
  d_toId : string;
  d_amount : Z;
  d_memo : string;
  d_listingId : string;
  d_title : string;
  d_price : Z;
  d_desc : string;
  d_qty : Z;
  d_name : string;
  d_passHash : string;
  d_roll : Q;
  d_rightId : string;
  d_action : string;
  d_recipientId : string;
  d_content : string;
  d_type : string;
  d_isHtml : bool
}.

Record Operation := mkOperation {
  op_id : string;
  op_type : string;
  op_data : option Data;
  op_timestamp : Z;
  op_userId : string;
  (** [meta?.silent] *)
  op_silent : bool
}.

Record ProcessedOp := mkProcessedOp {
  p_id : string;
  p_timestamp : Z;
  p_type : string;
  p_userId : string
}.

Record Conflict := mkConflict {
  c_operationId : string;
  c_type : string;
  c_message : string;
  c_timestamp : Z;
  c_userId : string
}.

Record Snapshot := mkSnapshot {
  s_state : State;
  s_lastUpdate : Z;
  s_processedOps : list ProcessedOp;
  s_conflicts : list Conflict
}.

(** What a handler returns. *)
Record Outcome := mkOutcome {
  conflict : bool;
  conflictType : string;
  message : string;
  createdUser : option User;
  createdTxs : list Tx;
  createdRight : option Right;
  updatedRight : option Right;
  updatedListing : option Listing;
  deletedListingId : option string;
  payout : option Z
}.

(** A handler call either returns an outcome or throws. *)
Inductive Completion :=
| Returned (o : Outcome)
| Thrown (msg : string).

(** State left by the call, position of the id source, completion. *)
Definition Step : Type := State * nat * Completion.

Definition isConflict (kind msg : string) : Outcome :=
  mkOutcome true kind msg None [] None None None None None.

Definition success : Outcome :=
  mkOutcome false "" "" None [] None None None None None.

(** Text of the engine's [TypeError] on destructuring an absent payload and
    of its [RangeError] on an invalid time value. *)
Definition typeErrorMessage : string := "Cannot destructure 'data' as it is undefined.".
Definition rangeErrorMessage : string := "Invalid time value".

(** ** Field updates *)

Definition addBalance (d : Z) (u : User) : User :=
  mkUser (u_id u) (u_name u) (u_passHash u) (u_balance u + d)
         (u_streakCount u) (u_lastMorningDate u).

Definition setBalance (b : Z) (u : User) : User :=
  mkUser (u_id u) (u_name u) (u_passHash u) b
         (u_streakCount u) (u_lastMorningDate u).

Definition setStreak (s : Z) (day : Z) (u : User) : User :=
  mkUser (u_id u) (u_name u) (u_passHash u) (u_balance u) s (Some day).

Definition setSold (s : Z) (l : Listing) : Listing :=
  mkListing (l_id l) (l_title l) (l_price l) (l_desc l) (l_sellerId l)
            (l_active l) (l_ts l) (l_qty l) s.

Definition setActive (a : bool) (l : Listing) : Listing :=
  mkListing (l_id l) (l_title l) (l_price l) (l_desc l) (l_sellerId l)
            a (l_ts l) (l_qty l) (l_sold l).

Definition setStatus (s : RightStatus) (r : Right) : Right :=
  mkRight (r_id r) (r_listingId r) (r_title r) (r_buyerId r) (r_sellerId r)
          (r_ts r) s (r_executed r) (r_rejectionCount r).

Definition setExecuted (e : bool) (r : Right) : Right :=
  mkRight (r_id r) (r_listingId r) (r_title r) (r_buyerId r) (r_sellerId r)
          (r_ts r) (r_status r) e (r_rejectionCount r).

Definition setRejectionCount (c : option Z) (r : Right) : Right :=
  mkRight (r_id r) (r_listingId r) (r_title r) (r_buyerId r) (r_sellerId r)
          (r_ts r) (r_status r) (r_executed r) c.

Definition setUsers (us : list User) (s : State) : State :=
  mkState us (txs s) (listings s) (rights s) (notifications s) (vTick s).

Definition setListings (ls : list Listing) (s : State) : State :=
  mkState (users s) (txs s) ls (rights s) (notifications s) (vTick s).

Definition setRights (rs : list Right) (s : State) : State :=
  mkState (users s) (txs s) (listings s) rs (notifications s) (vTick s).

Definition setNotifications (ns : option (list Notification)) (s : State) : State :=
  mkState (users s) (txs s) (listings s) (rights s) ns (vTick s).

(** [if (!meta?.silent) state.txs.unshift(tx)] *)
Definition logTx (silent : bool) (tx : Tx) (s : State) : State :=
  if silent then s
  else mkState (users s) (tx :: txs s) (listings s) (rights s)
               (notifications s) (vTick s).

(** [state.vTick = (state.vTick || 0) + 1] *)
Definition bumpVTick (s : State) : State :=
  mkState (users s) (txs s) (listings s) (rights s) (notifications s)
          (vTick s + 1).

(** [!meta?.silent ? [tx] : []] *)
Definition txList (silent : bool) (tx : Tx) : list Tx :=
  if silent then [] else [tx].

Definition balanceAt (i : nat) (us : list User) : Z :=
  match nth_error us i with Some u => u_balance u | None => 0 end.

(** The reserved name of the house account. *)
Definition jackpotName : string := "ジャックポット".

Definition hasId (i : string) (u : User) : bool := (u_id u =? i)%string.
Definition isJackpot (u : User) : bool := (u_name u =? jackpotName)%string.

(** ** The rule engine *)

Section Engine.
Variable gen : nat -> string.

(** [applySendMessage] *)
Definition applySendMessage (state : State) (data : Data) (timestamp : Z)
    (n : nat) : Step :=
  if ((d_recipientId data =? "") || (d_content data =? "")
      || (d_type data =? ""))%string
  then (state, n, Returned (isConflict "bad_request"
          "recipientId, content, and type are required for send_message."))
  else
    let ns := match notifications state with Some l => l | None => [] end in
    let note := mkNotification (gen n) timestamp (d_recipientId data)
                  (d_content data) (d_type data) (d_isHtml data) in
    (setNotifications (Some (ns ++ [note])) state, S n, Returned success).

(** [applyTransfer] *)
Definition applyTransfer (state : State) (data : Data) (timestamp : Z)
    (userId : string) (silent : bool) (n : nat) : Step :=
  let toId := d_toId data in
  let amount := d_amount data in
  match findRef (hasId userId) (users state),
        findRef (hasId toId) (users state) with
  | Some (from, fromUser), Some (to, _) =>
      if u_balance fromUser <? amount
      then (state, n, Returned (isConflict "insufficient_balance" "残高不足"))
      else
        let us := update to (addBalance amount)
                    (update from (addBalance (- amount)) (users state)) in
        let tx := mkTx (gen n) timestamp "transfer" (Some userId) (Some toId)
                    (Some amount) None None (d_memo data) in
        (bumpVTick (logTx silent tx (setUsers us state)), S n,
         Returned (mkOutcome false "" "" None (txList silent tx)
                     None None None None None))
  | _, _ =>
      (state, n, Returned (isConflict "user_not_found"
                             "送信者または受信者が見つかりません"))
  end.

(** [listing.sold = (listing.sold || 0) + 1;
     if (listing.sold >= listing.qty) listing.active = false] *)
Definition sellOne (l : Listing) : Listing :=
  let l1 := setSold (l_sold l + 1) l in
  if l_sold l1 >=? l_qty l1 then setActive false l1 else l1.

(** [applyBuyListing] *)
Definition applyBuyListing (state : State) (data : Data) (timestamp : Z)
    (userId : string) (silent : bool) (n : nat) : Step :=
  let listingId := d_listingId data in
  match findRef (fun l => (l_id l =? listingId)%string && l_active l)
                (listings state) with
  | None => (state, n, Returned (isConflict "listing_not_found"
                                   "出品が見つからないか既に停止中"))
  | Some (li, listing) =>
    match findRef (hasId userId) (users state) with
    | None => (state, n, Returned (isConflict "buyer_not_found"
                                     "購入者が見つかりません"))
    | Some (b, buyer) =>
      if (if l_qty listing =? 0 then 1 else l_qty listing) - l_sold listing <=? 0
      then (state, n, Returned (isConflict "sold_out" "在庫切れ"))
      else if u_balance buyer <? l_price listing
      then (state, n, Returned (isConflict "insufficient_balance" "残高不足"))
      else if (l_sellerId listing =? userId)%string
      then (state, n, Returned (isConflict "self_purchase"
                                  "自分の出品は購入できません"))
      else
        let seller := findRef (hasId (l_sellerId listing)) (users state) in
        let jackpot := findRef isJackpot (users state) in
        let fee := l_price listing / 10 in
        let sellerReceive := l_price listing - fee in
        let us1 := update b (addBalance (- l_price listing)) (users state) in
        let us2 := match seller with
                   | Some (s, _) => update s (addBalance sellerReceive) us1
                   | None => us1
                   end in
        let us3 := match jackpot with
                   | Some (j, _) => update j (addBalance fee) us2
                   | None => us2
                   end in
        let ls := update li sellOne (listings state) in
        let createdRight := mkRight (gen n) (l_id listing) (l_title listing)
                              userId (l_sellerId listing) timestamp owned
                              false None in
        let tx := mkTx (gen (S n)) timestamp "purchase" (Some userId)
                    (Some (l_sellerId listing)) (Some (l_price listing))
                    (Some (l_id listing)) (Some (l_title listing))
                    "権利購入（手数料10%）" in
        (bumpVTick (logTx silent tx
           (setRights (createdRight :: rights state)
              (setListings ls (setUsers us3 state)))),
         S (S n),
         Returned (mkOutcome false "" "" None (txList silent tx)
                     (Some createdRight) None (Some (sellOne listing))
                     None None))
    end
  end.

(** [applyCreateListing] *)
Definition applyCreateListing (state : State) (data : Data) (timestamp : Z)
    (userId : string) (n : nat) : Step :=
  let newListing := mkListing (gen n) (d_title data) (d_price data)
                      (d_desc data) userId true timestamp
                      (if d_qty data =? 0 then 1 else d_qty data) 0 in
  (bumpVTick (setListings (newListing :: listings state) state), S n,
   Returned (mkOutcome false "" "" None [] None None (Some newListing)
               None None)).

(** [applyToggleListing] *)
Definition applyToggleListing (state : State) (data : Data)
    (userId : string) (n : nat) : Step :=
  match findRef (fun l => (l_id l =? d_listingId data)%string)
                (listings state) with
  | None => (state, n, Returned (isConflict "listing_not_found"
                                   "出品が見つかりません"))
  | Some (li, listing) =>
      if negb (l_sellerId listing =? userId)%string
      then (state, n, Returned (isConflict "not_owner"
                                  "自分の出品ではありません"))
      else
        (bumpVTick (setListings
           (update li (fun l => setActive (negb (l_active l)) l)
                   (listings state)) state),
         n, Returned success)
  end.

(** [applyDeleteListing] *)
Definition applyDeleteListing (state : State) (data : Data)
    (userId : string) (n : nat) : Step :=
  match findRef (fun l => (l_id l =? d_listingId data)%string)
                (listings state) with
  | None => (state, n, Returned (isConflict "listing_not_found"
                                   "出品が見つかりません"))
  | Some (idx, listing) =>
      if negb (l_sellerId listing =? userId)%string
      then (state, n, Returned (isConflict "not_owner"
                                  "自分の出品ではありません"))
      else if l_sold listing >? 0
      then (state, n, Returned (isConflict "has_sales"
                                  "購入履歴があるため削除できません"))
      else
        (bumpVTick (setListings (splice1 idx (listings state)) state), n,
         Returned (mkOutcome false "" "" None [] None None None
                     (Some (d_listingId data)) None))
  end.

(** [applyRegisterUser] *)
Definition applyRegisterUser (state : State) (data : Data) (timestamp : Z)
    (silent : bool) (n : nat) : Step :=
  if existsb (fun u => (u_name u =? d_name data)%string) (users state)
  then (state, n, Returned (isConflict "name_taken"
                              "そのユーザー名は既に使用されています"))
  else
    let newUser := mkUser (gen n) (d_name data) (d_passHash data) 10000 0
                     None in
    let mintTx := mkTx (gen (S n)) timestamp "mint" None (Some (u_id newUser))
                    (Some 10000) None None "初期発行" in
    (bumpVTick (logTx silent mintTx
       (setUsers (users state ++ [newUser]) state)),
     S (S n),
     Returned (mkOutcome false "" "" (Some newUser) (txList silent mintTx)
                 None None None None None)).

(** [applyMorningClaim]; [today] is the UTC calendar day of [timestamp],
    and [toISOString] throws outside the range of valid time values. *)
Definition applyMorningClaim (state : State) (timestamp : Z)
    (userId : string) (silent : bool) (n : nat) : Step :=
  match findRef (hasId userId) (users state) with
  | None => (state, n, Returned (isConflict "user_not_found"
                                   "ユーザーが見つかりません"))
  | Some (i, user) =>
      if (timestamp <? - 8640000000000000) || (8640000000000000 <? timestamp)
      then (state, n, Thrown rangeErrorMessage)
      else
        let today := timestamp / 86400000 in
        if match u_lastMorningDate user with
           | Some d => d =? today
           | None => false
           end
        then (state, n, Returned (isConflict "already_claimed"
                                    "本日は既に受取済み"))
        else
          let streak :=
            match u_lastMorningDate user with
            | Some d => if today - d =? 1
                        then Z.min (u_streakCount user + 1) 30 else 1
            | None => 1
            end in
          let bonus := 1000 + 100 * streak in
          let us := update i (fun u => addBalance bonus
                                         (setStreak streak today u))
                      (users state) in
          let tx := mkTx (gen n) timestamp "mint" None (Some userId)
                      (Some bonus) None None
                      ("朝活（連続" ++ showZ streak ++ "日）")%string in
          (bumpVTick (logTx silent tx (setUsers us state)), S n,
           Returned (mkOutcome false "" "" None (txList silent tx)
                       None None None None None))
  end.
(** The tiered prize table of [applyRoulette] and its cumulative scan:
    the first tier whose accumulated probability exceeds [roll]. *)
Definition prizes : list (Q * Z) :=
  [ (0.40%Q, 0); (0.25%Q, 50); (0.18%Q, 100); (0.09%Q, 150);
    (0.05%Q, 200); (0.02%Q, 400); (0.0099%Q, 700) ].

Definition Qltb (a b : Q) : bool := negb (Qle_bool b a).

Fixpoint drawPrize (roll acc : Q) (ps : list (Q * Z)) : option Z :=
  match ps with
  | [] => None
  | (p, v) :: r =>
      let acc' := (acc + p)%Q in
      if Qltb roll acc' then Some v else drawPrize roll acc' r
  end.

(** [applyRoulette] *)
Definition applyRoulette (state : State) (data : Data) (timestamp : Z)
    (userId : string) (silent : bool) (n : nat) : Step :=
  let roll := d_roll data in
  match findRef (hasId userId) (users state),
        findRef isJackpot (users state) with
  | Some (i, user), Some (j, jackpot) =>
      if u_balance user <? 100
      then (state, n, Returned (isConflict "insufficient_balance" "残高不足"))
      else
        let us1 := update j (addBalance 100)
                     (update i (addBalance (- 100)) (users state)) in
        let feeTx := mkTx (gen n) timestamp "jpot-fee" (Some userId)
                       (Some (u_id jackpot)) (Some 100) None None
                       "ルーレット参加費" in
        let st1 := logTx silent feeTx (setUsers us1 state) in
        if Qltb roll 0.01%Q then
          let payout := balanceAt j us1 in
          if payout >? 0 then
            let us2 := update j (setBalance 0)
                         (update i (addBalance payout) us1) in
            let jackpotTx := mkTx (gen (S n)) timestamp "jackpot"
                               (Some (u_id jackpot)) (Some userId)
                               (Some payout) None None
                               "🎉 ジャックポット当選" in
            (bumpVTick (logTx silent jackpotTx (setUsers us2 st1)), S (S n),
             Returned (mkOutcome false "" "" None
                         (txList silent feeTx ++ txList silent jackpotTx)
                         None None None None (Some payout)))
          else
            (bumpVTick st1, S n,
             Returned (mkOutcome false "" "" None (txList silent feeTx)
                         None None None None (Some payout)))
        else
          let payout := match drawPrize roll 0 prizes with
                        | Some v => Z.min (balanceAt j us1) v
                        | None => 0
                        end in
          if payout >? 0 then
            let us2 := update j (addBalance (- payout))
                         (update i (addBalance payout) us1) in
            let payoutTx := mkTx (gen (S n)) timestamp "roulette"
                              (Some (u_id jackpot)) (Some userId)
                              (Some payout) None None
                              "ルーレット払い出し" in
            (bumpVTick (logTx silent payoutTx (setUsers us2 st1)), S (S n),
             Returned (mkOutcome false "" "" None
                         (txList silent feeTx ++ txList silent payoutTx)
                         None None None None (Some payout)))
          else
            (bumpVTick st1, S n,
             Returned (mkOutcome false "" "" None (txList silent feeTx)
                         None None None None (Some payout)))
  | _, _ =>
      (state, n, Returned (isConflict "user_not_found"
                             "ユーザーが見つかりません"))
  end.

Definition hasRightId (i : string) (x : Right) : bool := (r_id x =? i)%string.

(** A transaction record of the escrow workflow. *)
Definition rightTx (i : string) (timestamp : Z) (type : string)
    (from to : string) (r : Right) (memo : string) : Tx :=
  mkTx i timestamp type (Some from) (Some to) None (Some (r_listingId r))
       (Some (r_title r)) memo.

(** Tail shared by the escrow transitions that keep the right: store the
    changed right, log the transaction, bump the version. *)
Definition rightDone (state : State) (k : nat) (r' : Right) (silent : bool)
    (tx : Tx) (n : nat) : Step :=
  (bumpVTick (logTx silent tx
     (setRights (update k (fun _ => r') (rights state)) state)),
   S n,
   Returned (mkOutcome false "" "" None (txList silent tx) None (Some r')
               None None None)).

(** [applyBuyerRequest] *)
Definition applyBuyerRequest (state : State) (data : Data) (timestamp : Z)
    (userId : string) (silent : bool) (n : nat) : Step :=
  match findRef (hasRightId (d_rightId data)) (rights state) with
  | None => (state, n, Returned (isConflict "right_not_found"
                                   "権利が見つかりません"))
  | Some (k, r) =>
      if negb (r_buyerId r =? userId)%string
      then (state, n, Returned (isConflict "not_buyer" "購入者のみ申請可"))
      else if negb (status_eqb (r_status r) owned)
      then (state, n, Returned (isConflict "invalid_state"
                                  "実行申請不可の状態"))
      else
        rightDone state k (setStatus request r) silent
          (rightTx (gen n) timestamp "execute-request" (r_buyerId r)
                   (r_sellerId r) r "購入者が実行を申請") n
  end.

(** [applySellerRespond] *)
Definition applySellerRespond (state : State) (data : Data) (timestamp : Z)
    (userId : string) (silent : bool) (n : nat) : Step :=
  match findRef (hasRightId (d_rightId data)) (rights state) with
  | None => (state, n, Returned (isConflict "right_not_found"
                                   "権利が見つかりません"))
  | Some (k, r) =>
      if negb (r_sellerId r =? userId)%string
      then (state, n, Returned (isConflict "not_seller" "出品者のみ応答可"))
      else if negb (status_eqb (r_status r) request)
      then (state, n, Returned (isConflict "invalid_state" "応答不可の状態"))
      else if (d_action data =? "exec")%string
      then rightDone state k (setStatus seller_executed r) silent
             (rightTx (gen n) timestamp "execute-done" (r_sellerId r)
                      (r_buyerId r) r "販売者が実行") n
      else rightDone state k (setStatus seller_cancel_requested r) silent
             (rightTx (gen n) timestamp "execute-cancel-ask" (r_sellerId r)
                      (r_buyerId r) r "販売者がキャンセル申請") n
  end.

(** [l.sold = Math.max(0, (l.sold || 0) - 1);
     if (l.sold < l.qty) l.active = true] *)
Definition restock (l : Listing) : Listing :=
  let l1 := setSold (Z.max 0 (l_sold l - 1)) l in
  if l_sold l1 <? l_qty l1 then setActive true l1 else l1.

(** [applyBuyerFinalize] *)
Definition applyBuyerFinalize (state : State) (data : Data) (timestamp : Z)
    (userId : string) (silent : bool) (n : nat) : Step :=
  let rightId := d_rightId data in
  match findRef (hasRightId rightId) (rights state) with
  | None => (state, n, Returned (isConflict "right_not_found"
                                   "権利が見つかりません"))
  | Some (k, r) =>
      if negb (r_buyerId r =? userId)%string
      then (state, n, Returned (isConflict "not_buyer" "購入者のみ確定可"))
      else if status_eqb (r_status r) seller_executed
      then rightDone state k (setExecuted true (setStatus finalized r)) silent
             (rightTx (gen n) timestamp "execute-finalize" (r_buyerId r)
                      (r_sellerId r) r "購入者が実行確認（確定）") n
      else if status_eqb (r_status r) seller_cancel_requested
      then
        match findRef (fun x => (l_id x =? r_listingId r)%string)
                      (listings state),
              findRef (hasId (r_sellerId r)) (users state),
              findRef (hasId (r_buyerId r)) (users state) with
        | Some (li, l), Some (s, seller), Some (b, _) =>
            let refund := 9 * l_price l / 10 in
            if u_balance seller <? refund
            then (state, n, Returned (isConflict "seller_insufficient"
                                        "販売者残高不足"))
            else
              let us := update b (addBalance refund)
                          (update s (addBalance (- refund)) (users state)) in
              let ls := update li restock (listings state) in
              let rs := filter (fun x => negb (hasRightId rightId x))
                               (rights state) in
              let tx := mkTx (gen n) timestamp "execute-cancel-ok"
                          (Some (r_buyerId r)) (Some (r_sellerId r))
                          (Some refund) (Some (l_id l)) (Some (r_title r))
                          "キャンセル返金（全額）確定" in
              (bumpVTick (logTx silent tx
                 (setRights rs (setListings ls (setUsers us state)))),
               S n,
               Returned (mkOutcome false "" "" None (txList silent tx)
                           None None (Some (restock l)) None None))
        | _, _, _ =>
            (state, n, Returned (isConflict "missing_entities"
                                   "関連データが不足"))
        end
      else (state, n, Returned (isConflict "invalid_state" "確定不可の状態"))
  end.

(** [applyReportExecution] *)
Definition applyReportExecution (state : State) (data : Data) (timestamp : Z)
    (userId : string) (silent : bool) (n : nat) : Step :=
  match findRef (hasRightId (d_rightId data)) (rights state) with
  | None => (state, n, Returned (isConflict "right_not_found"
                                   "権利が見つかりません"))
  | Some (k, r) =>
      if negb (r_sellerId r =? userId)%string
      then (state, n, Returned (isConflict "not_seller" "出品者のみ報告可"))
      else if negb (status_eqb (r_status r) request)
      then (state, n, Returned (isConflict "invalid_state" "報告不可の状態"))
      else
        rightDone state k
          (setRejectionCount (Some 0) (setStatus seller_reported r)) silent
          (rightTx (gen n) timestamp "execute-reported" (r_sellerId r)
                   (r_buyerId r) r "販売者が実行を報告") n
  end.

(** [applyBuyerConfirm] *)
Definition applyBuyerConfirm (state : State) (data : Data) (timestamp : Z)
    (userId : string) (silent : bool) (n : nat) : Step :=
  match findRef (hasRightId (d_rightId data)) (rights state) with
  | None => (state, n, Returned (isConflict "right_not_found"
                                   "権利が見つかりません"))
  | Some (k, r) =>
      if negb (r_buyerId r =? userId)%string
      then (state, n, Returned (isConflict "not_buyer" "購入者のみ確認可"))
      else if negb (status_eqb (r_status r) seller_reported)
      then (state, n, Returned (isConflict "invalid_state" "確認不可の状態"))
      else
        rightDone state k
          (setRejectionCount None
             (setExecuted true (setStatus finalized r))) silent
          (rightTx (gen n) timestamp "execute-confirm" (r_buyerId r)
                   (r_sellerId r) r "購入者が実行を確認（承諾）") n
  end.

(** [applyBuyerReject] *)
Definition applyBuyerReject (state : State) (data : Data) (timestamp : Z)
    (userId : string) (silent : bool) (n : nat) : Step :=
  match findRef (hasRightId (d_rightId data)) (rights state) with
  | None => (state, n, Returned (isConflict "right_not_found"
                                   "権利が見つかりません"))
  | Some (k, r) =>
      if negb (r_buyerId r =? userId)%string
      then (state, n, Returned (isConflict "not_buyer" "購入者のみ拒否可"))
      else if negb (status_eqb (r_status r) seller_reported)
      then (state, n, Returned (isConflict "invalid_state" "拒否不可の状態"))
      else if match r_rejectionCount r with
              | Some c => c >=? 1
              | None => false
              end
      then (state, n, Returned (isConflict "already_rejected"
                                  "既に拒否済みです"))
      else
        let c := match r_rejectionCount r with Some c => c | None => 0 end in
        rightDone state k
          (setStatus buyer_rejected (setRejectionCount (Some (c + 1)) r))
          silent
          (rightTx (gen n) timestamp "execute-reject" (r_buyerId r)
                   (r_sellerId r) r "購入者が実行を拒否") n
  end.

(** [applySellerRefund] *)
Definition applySellerRefund (state : State) (data : Data) (timestamp : Z)
    (userId : string) (silent : bool) (n : nat) : Step :=
  let rightId := d_rightId data in
  let amount := d_amount data in
  match findRef (hasRightId rightId) (rights state) with
  | None => (state, n, Returned (isConflict "right_not_found"
                                   "権利が見つかりません"))
  | Some (k, r) =>
      if negb (r_sellerId r =? userId)%string
      then (state, n, Returned (isConflict "not_seller" "出品者のみ返金可"))
      else if negb (status_eqb (r_status r) buyer_rejected
                    || status_eqb (r_status r) seller_cancel_requested
                    || status_eqb (r_status r) seller_reported)
      then (state, n, Returned (isConflict "invalid_state" "返金不可の状態"))
      else
        match findRef (fun x => (l_id x =? r_listingId r)%string)
                      (listings state),
              findRef (hasId (r_sellerId r)) (users state),
              findRef (hasId (r_buyerId r)) (users state) with
        | Some (li, listing), Some (s, seller), Some (b, buyer) =>
            let fullAmount := l_price listing in
            let refundAmount := if amount >? 0 then Z.min amount fullAmount
                                else fullAmount in
            if u_balance seller <? refundAmount
            then (state, n, Returned (isConflict "seller_insufficient"
                                        "販売者残高不足"))
            else
              let us := update b (addBalance refundAmount)
                          (update s (addBalance (- refundAmount))
                                  (users state)) in
              let ls := update li restock (listings state) in
              let rs := filter (fun x => negb (hasRightId rightId x))
                               (rights state) in
              let tx := mkTx (gen n) timestamp "seller_refund"
                          (Some (u_id seller)) (Some (u_id buyer))
                          (Some refundAmount) (Some (l_id listing))
                          (Some (r_title r))
                          ("返金: ¥" ++ showZ refundAmount)%string in
              (bumpVTick (logTx silent tx
                 (setRights rs (setListings ls (setUsers us state)))),
               S n,
               Returned (mkOutcome false "" "" None (txList silent tx)
                           None None (Some (restock listing))
                           (Some (l_id listing)) None))
        | _, _, _ =>
            (state, n, Returned (isConflict "missing_entities"
                                   "関連データが不足"))
        end
  end.

(** ** The dispatcher *)

(** [applyOperation]: every handler but [applyMorningClaim] destructures
    the payload first, which throws when the payload is absent. *)
Definition applyOperation (state : State) (operation : Operation) (n : nat)
    : Step :=
  let type := op_type operation in
  let timestamp := op_timestamp operation in
  let userId := op_userId operation in
  let silent := op_silent operation in
  let withData (h : Data -> Step) : Step :=
    match op_data operation with
    | Some data => h data
    | None => (state, n, Thrown typeErrorMessage)
    end in
  if (type =? "transfer")%string then
    withData (fun data => applyTransfer state data timestamp userId silent n)
  else if (type =? "buy_listing")%string then
    withData (fun data => applyBuyListing state data timestamp userId silent n)
  else if (type =? "create_listing")%string then
    withData (fun data => applyCreateListing state data timestamp userId n)
  else if (type =? "toggle_listing")%string then
    withData (fun data => applyToggleListing state data userId n)
  else if (type =? "delete_listing")%string then
    withData (fun data => applyDeleteListing state data userId n)
  else if (type =? "register_user")%string then
    withData (fun data => applyRegisterUser state data timestamp silent n)
  else if (type =? "morning_claim")%string then
    applyMorningClaim state timestamp userId silent n
  else if (type =? "roulette")%string then
    withData (fun data => applyRoulette state data timestamp userId silent n)
  else if (type =? "buyer_request")%string then
    withData (fun data => applyBuyerRequest state data timestamp userId silent n)
  else if (type =? "seller_respond")%string then
    withData (fun data => applySellerRespond state data timestamp userId silent n)
  else if (type =? "report_execution")%string then
    withData (fun data =>
      applyReportExecution state data timestamp userId silent n)
  else if (type =? "buyer_confirm")%string then
    withData (fun data => applyBuyerConfirm state data timestamp userId silent n)
  else if (type =? "buyer_reject")%string then
    withData (fun data => applyBuyerReject state data timestamp userId silent n)
  else if (type =? "seller_refund")%string then
    withData (fun data => applySellerRefund state data timestamp userId silent n)
  else if (type =? "buyer_finalize")%string then
    withData (fun data => applyBuyerFinalize state data timestamp userId silent n)
  else if (type =? "send_message")%string then
    withData (fun data => applySendMessage state data timestamp n)
  else
    (state, n, Returned (isConflict "unknown_operation"
                           ("Unknown operation type: " ++ type)%string)).
(** ** The merge orchestrator *)

Record MergeResult := mkMergeResult {
  state : State;
  processedOps : list ProcessedOp;
  conflicts : list Conflict;
  newConflicts : list Conflict;
  newUsers : list User;
  newTxs : list Tx;
  newRights : list Right;
  updatedListings : list Listing;
  deletedListings : list string
}.

(** [processed => processed.id === op.id] over the log. *)
Definition isProcessed (log : list ProcessedOp) (op : Operation) : bool :=
  existsb (fun processed => (p_id processed =? op_id op)%string) log.

(** [newOperations.filter(op => !result.processedOps.some(...))] *)
Definition unprocessed (log : list ProcessedOp) (ops : list Operation)
    : list Operation :=
  filter (fun op => negb (isProcessed log op)) ops.

(** [unprocessedOps.sort((a, b) => a.timestamp - b.timestamp)]; the sort of
    the language is stable, and so is this insertion sort. *)
Fixpoint insertOp (op : Operation) (l : list Operation) : list Operation :=
  match l with
  | [] => [op]
  | x :: r =>
      if op_timestamp op <=? op_timestamp x then op :: l
      else x :: insertOp op r
  end.

Fixpoint sortByTimestamp (l : list Operation) : list Operation :=
  match l with
  | [] => []
  | op :: r => insertOp op (sortByTimestamp r)
  end.

Definition optList {A : Type} (o : option A) : list A :=
  match o with Some x => [x] | None => [] end.

Definition conflictOf (op : Operation) (kind msg : string) : Conflict :=
  mkConflict (op_id op) kind msg (op_timestamp op) (op_userId op).

Definition processedOf (op : Operation) : ProcessedOp :=
  mkProcessedOp (op_id op) (op_timestamp op) (op_type op) (op_userId op).

(** One turn of the [for] loop: the [try] block and its [catch]. *)
Definition mergeStep (result : MergeResult) (n : nat) (op : Operation)
    : MergeResult * nat :=
  match applyOperation (state result) op n with
  | (st, n', Returned conflictResult) =>
      (mkMergeResult st
         (processedOps result ++ [processedOf op])
         (conflicts result)
         (if conflict conflictResult
          then newConflicts result
                 ++ [conflictOf op (conflictType conflictResult)
                                (message conflictResult)]
          else newConflicts result)
         (newUsers result ++ optList (createdUser conflictResult))
         (newTxs result ++ createdTxs conflictResult)
         (newRights result ++ optList (createdRight conflictResult))
         (updatedListings result ++ optList (updatedListing conflictResult))
         (deletedListings result
            ++ optList (deletedListingId conflictResult)),
       n')
  | (st, n', Thrown msg) =>
      (mkMergeResult st (processedOps result) (conflicts result)
         (newConflicts result ++ [conflictOf op "error" msg])
         (newUsers result) (newTxs result) (newRights result)
         (updatedListings result) (deletedListings result),
       n')
  end.

Fixpoint mergeLoop (result : MergeResult) (n : nat) (ops : list Operation)
    : MergeResult * nat :=
  match ops with
  | [] => (result, n)
  | op :: rest =>
      let '(result', n') := mergeStep result n op in
      mergeLoop result' n' rest
  end.

(** The working copy [mergeOperations] starts from; the deep copy through
    JSON is the identity on the values of the model. *)
Definition initialResult (current : Snapshot) : MergeResult :=
  mkMergeResult (s_state current) (s_processedOps current)
    (s_conflicts current) [] [] [] [] [] [].

(** The retention pruner at the end of [mergeOperations]; [now] and
    [now'] are the two readings of [Date.now()]. *)
Definition prune (now now' : Z) (result : MergeResult) : MergeResult :=
  let cutoff := now - 1000 * 60 * 60 in
  let notifyCutoff := now' - 1000 * 60 in
  mkMergeResult
    (setNotifications
       (option_map (filter (fun x => n_timestamp x >? notifyCutoff))
                   (notifications (state result)))
       (state result))
    (filter (fun op => p_timestamp op >? cutoff) (processedOps result))
    (filter (fun c => c_timestamp c >? cutoff) (conflicts result))
    (newConflicts result) (newUsers result) (newTxs result)
    (newRights result) (updatedListings result) (deletedListings result).

(** [mergeOperations]; [n] is the position of the id source on entry. *)
Definition mergeOperations (now now' : Z) (current : Snapshot)
    (newOperations : list Operation) (n : nat) : MergeResult :=
  let result := initialResult current in
  let unprocessedOps :=
    sortByTimestamp (unprocessed (processedOps result) newOperations) in
  prune now now' (fst (mergeLoop result n unprocessedOps)).

(** What the [PUT] handler persists of a merge result and the next pass
    reads back. *)
Definition toSave (lastUpdate : Z) (r : MergeResult) : Snapshot :=
  mkSnapshot (state r) lastUpdate (processedOps r) (conflicts r).
End Engine.

(** ** Notions used to state the properties *)

(** The order in which a merge pass over [ops] dispatches. *)
Definition batchOrder (current : Snapshot) (ops : list Operation)
    : list Operation :=
  sortByTimestamp (unprocessed (s_processedOps current) ops).

(** The operations of a run of the loop whose handler returned. *)
Fixpoint loggedOps (gen : nat -> string) (result : MergeResult) (n : nat)
    (ops : list Operation) : list Operation :=
  match ops with
  | [] => []
  | op :: rest =>
      let '(result', n') := mergeStep gen result n op in
      match applyOperation gen (state result) op n with
      | (_, _, Returned _) => op :: loggedOps gen result' n' rest
      | (_, _, Thrown _) => loggedOps gen result' n' rest
      end
  end.

(** The working record after the [catch] block has handled [msg]. *)
Definition caught (r : MergeResult) (st : State) (op : Operation)
    (msg : string) : MergeResult :=
  mkMergeResult st (processedOps r) (conflicts r)
    (newConflicts r ++ [conflictOf op "error" msg])
    (newUsers r) (newTxs r) (newRights r) (updatedListings r)
    (deletedListings r).

(** Ascending client timestamps. *)
Definition tsLe (a b : Operation) : Prop := op_timestamp a <= op_timestamp b.

(** The snapshots reached from [s0] by merge passes over batches whose
    operations all satisfy [ok], each pass reading what the previous one
    saved. *)
Inductive Reachable (gen : nat -> string) (ok : Operation -> Prop)
    (s0 : Snapshot) : Snapshot -> Prop :=
| reach_start : Reachable gen ok s0 s0
| reach_merge (s : Snapshot) (now now' lastUpdate : Z)
    (ops : list Operation) (n : nat) :
    Reachable gen ok s0 s ->
    Forall ok ops ->
    Reachable gen ok s0
      (toSave lastUpdate (mergeOperations gen now now' s ops n)).

(** The sum of all user balances, the house account among them. *)
Definition sumBalances (us : list User) : Z :=
  fold_right (fun u acc => u_balance u + acc) 0 us.

(** The position a [find] returned, if any. *)
Definition position {A : Type} (r : option (nat * A)) : option nat :=
  option_map fst r.

(** [amount] when the user at position [k] is the one designated by
    [who], nothing otherwise. *)
Definition credit (who : option nat) (k : nat) (amount : Z) : Z :=
  match who with
  | Some i => if Nat.eqb k i then amount else 0
  | None => 0
  end.

(** The operations of the conservation property. *)
Definition conserving (op : Operation) : Prop :=
  op_type op = "transfer" \/ op_type op = "buy_listing"
  \/ op_type op = "roulette".

(** The house account sits at position [j] and has id [hid]; the seller of
    every listing is among the users; the balances add up to [total]. *)
Definition Ledger (j : nat) (hid : string) (total : Z) (st : State) : Prop :=
  (exists h, findRef isJackpot (users st) = Some (j, h) /\ u_id h = hid) /\
  Forall (fun l => findRef (hasId (l_sellerId l)) (users st) <> None)
         (listings st) /\
  sumBalances (users st) = total.

(** The part of [Ledger] that a change of balances cannot disturb. *)
Definition Shape (j : nat) (hid : string) (us : list User)
    (ls : list Listing) : Prop :=
  (exists h, findRef isJackpot us = Some (j, h) /\ u_id h = hid) /\
  Forall (fun l => findRef (hasId (l_sellerId l)) us <> None) ls.



(** The payload of a [create_listing] operation satisfies [C]. *)
Definition createOk (C : Data -> Prop) (op : Operation) : Prop :=
  op_type op = "create_listing" ->
  forall data, op_data op = Some data -> C data.



(** A balance and a streak that are not negative. *)
Definition userOk (u : User) : Prop :=
  0 <= u_balance u /\ 0 <= u_streakCount u.

Definition priceOk (l : Listing) : Prop := 0 <= l_price l.

Definition Solvent (st : State) : Prop :=
  Forall userOk (users st) /\ Forall priceOk (listings st).

(** The amount of a [transfer] and the price of a [create_listing] are not
    negative. *)
Definition signOk (op : Operation) : Prop :=
  forall data, op_data op = Some data ->
    (op_type op = "transfer" -> 0 <= d_amount data) /\
    (op_type op = "create_listing" -> 0 <= d_price data).

(** ** Sample inputs *)

(** An id source that counts. *)
Definition counterIds (n : nat) : string :=
  ("id" ++ showZ (Z.of_nat n))%string.

(** The snapshot the [PUT] handler starts from when the store is empty. *)
Definition emptyState : State := mkState [] [] [] [] (Some []) 0.
Definition emptySnapshot : Snapshot := mkSnapshot emptyState 0 [] [].

Definition transferOp (i from to : string) (amount ts : Z) : Operation :=
  mkOperation i "transfer"
    (Some (mkData to amount "" "" "" 0 "" 0 "" "" 1%Q "" "" "" "" "" false))
    ts from false.

Definition registerOp (i name : string) (ts : Z) : Operation :=
  mkOperation i "register_user"
    (Some (mkData "" 0 "" "" "" 0 "" 0 name "hash" 1%Q "" "" "" "" "" false))
    ts "" false.

(** An operation sent without a payload. *)
Definition bareOp (i type : string) (ts : Z) : Operation :=
  mkOperation i type None ts "u" false.

Definition messageOp (i to content kind : string) (ts : Z) : Operation :=
  mkOperation i "send_message"
    (Some (mkData "" 0 "" "" "" 0 "" 0 "" "" 1%Q "" "" to content kind false))
    ts "a" false.

Definition listingData (listingId : string) : Data :=
  mkData "" 0 "" listingId "" 0 "" 0 "" "" 1%Q "" "" "" "" "" false.

Definition buyOp (i buyer listingId : string) (ts : Z) : Operation :=
  mkOperation i "buy_listing" (Some (listingData listingId)) ts buyer false.


Definition rouletteOp (i player : string) (roll : Q) (ts : Z) : Operation :=
  mkOperation i "roulette"
    (Some (mkData "" 0 "" "" "" 0 "" 0 "" "" roll "" "" "" "" "" false))
    ts player false.


Definition sampleUser (i name : string) (balance : Z) : User :=
  mkUser i name "hash" balance 0 None.

(** Two users, the first with 1000 units. *)
Definition twoUsers : Snapshot :=
  mkSnapshot
    (mkState [sampleUser "a" "alice" 1000; sampleUser "b" "bob" 0]
             [] [] [] (Some []) 0)
    0 [] [].

(** Three users, the first with 100 units. *)
Definition threeUsers : Snapshot :=
  mkSnapshot
    (mkState [sampleUser "a" "alice" 100; sampleUser "b" "bob" 0;
              sampleUser "c" "carol" 0]
             [] [] [] (Some []) 0)
    0 [] [].

(** A listing of one unit at 100, offered by user "s". *)
Definition sampleListing : Listing :=
  mkListing "L1" "sword" 100 "" "s" true 1 1 0.

(** A buyer and a seller, and no user with the reserved name. *)
Definition marketWithoutHouse : Snapshot :=
  mkSnapshot
    (mkState [sampleUser "b" "buyer" 1000; sampleUser "s" "seller" 0]
             [] [sampleListing] [] (Some []) 0)
    0 [] [].

(** The same market with the house account. *)
Definition market : Snapshot :=
  mkSnapshot
    (mkState [sampleUser "b" "buyer" 1000; sampleUser "s" "seller" 0;
              sampleUser "h" jackpotName 0]
             [] [sampleListing] [] (Some []) 0)
    0 [] [].

(** A market whose only listing names a seller that is not a user. *)
Definition marketWithoutSeller : Snapshot :=
  mkSnapshot
    (mkState [sampleUser "b" "buyer" 1000; sampleUser "h" jackpotName 0]
             [] [sampleListing] [] (Some []) 0)
    0 [] [].

(** A room where only the house account exists, holding 500. *)
Definition houseAlone : Snapshot :=
  mkSnapshot
    (mkState [sampleUser "h" jackpotName 500] [] [] [] (Some []) 0)
    0 [] [].


(** ** Further notions *)

(** What identifies a user: id, name and credential hash. *)
Definition userKey (u : User) : string * string * string :=
  (u_id u, u_name u, u_passHash u).

(** ** The escrow workflow *)






Definition escrowTypes : list string :=
  [ "buyer_request"; "seller_respond"; "report_execution"; "buyer_confirm";
    "buyer_reject"; "seller_refund"; "buyer_finalize" ].

(** ** Listings *)

(** The terms of a listing, which no handler changes. *)
Definition listingKey (l : Listing)
    : string * string * Z * string * string * Z * Z :=
  (l_id l, l_title l, l_price l, l_desc l, l_sellerId l, l_ts l, l_qty l).

(** What an operation can do to the listings. *)
Definition listingsStep (op : Operation) (ls ls' : list Listing) : Prop :=
  Forall (fun l' =>
            In (listingKey l') (map listingKey ls)
            \/ (op_type op = "create_listing" /\ l_sold l' = 0 /\
                l_active l' = true /\ l_sellerId l' = op_userId op))
         ls' /\
  Forall (fun l => 0 < l_sold l -> In (listingKey l) (map listingKey ls')) ls.

(** ** The version counter *)

(** By how much an operation that completed with [c] raises [vTick]. *)
Definition bumps (op : Operation) (c : Completion) : Z :=
  match c with
  | Returned o =>
      if conflict o || (op_type op =? "send_message")%string then 0 else 1
  | Thrown _ => 0
  end.

(** ** The storage keys *)

(** [`room:${room}|${key}`] *)
Definition kvKey (room key : string) : string :=
  ("room:" ++ room ++ "|" ++ key)%string.

(** [`users:room:${room}|${key}`] *)
Definition usersKey (room key : string) : string :=
  ("users:room:" ++ room ++ "|" ++ key)%string.

(** No character of [s] is the separator of the keys. *)
Fixpoint noBar (s : string) : bool :=
  match s with
  | EmptyString => true
  | String c r => negb (Ascii.eqb c "|"%char) && noBar r
  end.

(** ** Further sample inputs *)

(** The listing of [sampleListing] with its only unit sold. *)
Definition soldListing : Listing :=
  mkListing "L1" "sword" 100 "" "s" false 1 1 1.

(** The right a purchase of that unit created, in a given status. *)
Definition sampleRight (status : RightStatus) : Right :=
  mkRight "R1" "L1" "sword" "b" "s" 1 status false None.

(** A buyer, a seller, the sold listing and its right. *)
Definition escrowRoom (status : RightStatus) : State :=
  mkState [sampleUser "b" "buyer" 1000; sampleUser "s" "seller" 1000]
          [] [soldListing] [sampleRight status] (Some []) 0.

Definition rightData (rightId action : string) (amount : Z) : Data :=
  mkData "" amount "" "" "" 0 "" 0 "" "" 1%Q rightId action "" "" "" false.

Definition rightOp (i type user rightId : string) (ts : Z) : Operation :=
  mkOperation i type (Some (rightData rightId "" 0)) ts user false.

Definition nameData (name : string) : Data :=
  mkData "" 0 "" "" "" 0 "" 0 name "hash" 1%Q "" "" "" "" "" false.

Definition transferData (to : string) (amount : Z) : Data :=
  mkData to amount "" "" "" 0 "" 0 "" "" 1%Q "" "" "" "" "" false.

Definition createData (title : string) (price qty : Z) : Data :=
  mkData "" 0 "" "" title price "" qty "" "" 1%Q "" "" "" "" "" false.

Definition rollData (roll : Q) : Data :=
  mkData "" 0 "" "" "" 0 "" 0 "" "" roll "" "" "" "" "" false.

(** A transfer that carries the silent flag. *)
Definition silentTransferOp (i from to : string) (amount ts : Z)
    : Operation :=
  mkOperation i "transfer" (Some (transferData to amount)) ts from true.

(** ** The request handler *)

(** A document of a KV namespace, as the worker writes it: the merge
    result [PUT] saves under the state key of a room, and the users it
    saves under the users key.  The [notify] object, which [PUT] saves and
    [GET] hands back beside the state, is not part of the model, nor are
    the response headers. *)
Inductive Doc :=
| StateDoc (saved : Snapshot)
| UsersDoc (us : list User) (lastUpdate : Z).

(** A KV namespace: [get(k, "json")] answers with the document last put
    under [k], or [null].  The namespace answers every call, and a
    document stays until it is overwritten: a failing store and the expiry
    of a document seven days after its last write are outside the model. *)
Definition Kv : Type := string -> option Doc.

Definition kvEmpty : Kv := fun _ => None.

Definition kvPut (k : string) (d : Doc) (kv : Kv) : Kv :=
  fun k' => if (k' =? k)%string then Some d else kv k'.

(** The bindings of the worker; [USERS_KV] may be unbound. *)
Record Env := mkEnv {
  STATE_KV : Kv;
  USERS_KV : option Kv
}.

(** [env.STATE_KV.put(k, ...)] *)
Definition stateKvPut (k : string) (d : Doc) (env : Env) : Env :=
  mkEnv (kvPut k d (STATE_KV env)) (USERS_KV env).

(** [usersStore.get(k, 'json')], where
    [usersStore = env.USERS_KV || env.STATE_KV]. *)
Definition usersStoreGet (env : Env) (k : string) : option Doc :=
  match USERS_KV env with
  | Some kv => kv k
  | None => STATE_KV env k
  end.

(** [usersStore.put(k, ...)] *)
Definition usersStorePut (k : string) (d : Doc) (env : Env) : Env :=
  match USERS_KV env with
  | Some kv => mkEnv (STATE_KV env) (Some (kvPut k d kv))
  | None => mkEnv (kvPut k d (STATE_KV env)) None
  end.

(** A request: method, path, the query parameters [room] and [key] as
    [searchParams.get] returns them, the value of
    [parseInt(url.searchParams.get("lastSync") || "0", 10)] ([None] when it
    is [NaN]), and the [operations] array of the body ([None] when the body
    is not JSON or has no such array). *)
Record Request := mkRequest {
  rq_method : string;
  rq_pathname : string;
  rq_room : option string;
  rq_key : option string;
  rq_lastSync : option Z;
  rq_operations : option (list Operation)
}.

(** The bodies of the responses. *)
Inductive Body :=
| NoBody
| TextBody (text : string)
| ErrorBody (error : string)
| StateBody (st : option State) (lastUpdate : Z)
    (processed : list ProcessedOp) (cs : list Conflict)
| MergeBody (newState : State) (processed : list (string + ProcessedOp))
    (cs : list Conflict) (lastUpdate : Z).

Record Response := mkResponse {
  rs_status : Z;
  rs_body : Body
}.

(** What a call of [fetch] comes to: a response, or an exception that
    leaves the handler. *)
Inductive Answer :=
| Responded (r : Response)
| Rejected (msg : string).

(** [JSON.parse(JSON.stringify(undefined))] *)
Definition syntaxErrorMessage : string :=
  String "034"%char ("undefined" ++ String "034"%char " is not valid JSON").

(** [usersStore] is declared in the block of the [/state] route and
    referred to outside of it. *)
Definition referenceErrorMessage : string := "usersStore is not defined".

(** [url.searchParams.get(name) || ""] *)
Definition orEmpty (p : option string) : string :=
  match p with
  | Some s => s
  | None => ""
  end.

Definition docLastUpdate (d : Doc) : Z :=
  match d with
  | StateDoc s => s_lastUpdate s
  | UsersDoc _ lastUpdate => lastUpdate
  end.

(** [p => p.id || p] *)
Definition idOrSelf (p : ProcessedOp) : string + ProcessedOp :=
  if (p_id p =? "")%string then inr p else inl (p_id p).

(** The [GET] branch of the [/state] route. *)
Definition stateGet (env : Env) (room key : string)
    (clientLastSync : option Z) : Response :=
  let raw := STATE_KV env (kvKey room key) in
  let usersRaw := usersStoreGet env (usersKey room key) in
  let raw :=
    match usersRaw, raw with
    | Some (UsersDoc us _), Some (StateDoc s) =>
        Some (StateDoc (mkSnapshot (setUsers us (s_state s)) (s_lastUpdate s)
                          (s_processedOps s) (s_conflicts s)))
    | _, _ => raw
    end in
  match raw with
  | None => mkResponse 204 NoBody
  | Some doc =>
      let serverLastUpdate := docLastUpdate doc in
      if match clientLastSync with
         | Some t => serverLastUpdate <=? t
         | None => false
         end
      then mkResponse 204 NoBody
      else
        match doc with
        | StateDoc s =>
            mkResponse 200
              (StateBody (Some (s_state s)) (s_lastUpdate s)
                 (s_processedOps s) (s_conflicts s))
        | UsersDoc _ lastUpdate =>
            mkResponse 200 (StateBody None lastUpdate [] [])
        end
  end.

Section Endpoint.
Variable gen : nat -> string.

(** The [PUT] branch of the [/state] route; [now] and [now'] are the
    readings of the clock in [mergeOperations], [now''] the one that
    becomes [lastUpdate], and [n] the position of the id source. *)
Definition statePut (now now' now'' : Z) (n : nat) (env : Env)
    (room key : string) (operations : option (list Operation))
    : Env * Response :=
  match operations with
  | None => (env, mkResponse 400 (ErrorBody "operations array required"))
  | Some ops =>
      let run current :=
        let mergeResult := mergeOperations gen now now' current ops n in
        let saved := toSave now'' mergeResult in
        let env1 := stateKvPut (kvKey room key) (StateDoc saved) env in
        let env2 :=
          usersStorePut (usersKey room key)
            (UsersDoc (users (state mergeResult)) now'') env1 in
        (env2,
         mkResponse 200
           (MergeBody (s_state saved) (map idOrSelf (s_processedOps saved))
              (newConflicts mergeResult) now'')) in
      match STATE_KV env (kvKey room key) with
      | Some (StateDoc current) => run current
      | None => run emptySnapshot
      | Some (UsersDoc _ _) =>
          (env,
           mkResponse 500
             (ErrorBody ("merge failed: " ++ syntaxErrorMessage)))
      end
  end.

(** [fetch] *)
Definition fetch (now now' now'' : Z) (n : nat) (req : Request) (env : Env)
    : Env * Answer :=
  if (rq_method req =? "OPTIONS")%string
  then (env, Responded (mkResponse 200 NoBody))
  else if (rq_pathname req =? "/state")%string then
    let room := orEmpty (rq_room req) in
    let key := orEmpty (rq_key req) in
    if (room =? "")%string || (key =? "")%string
    then (env, Responded (mkResponse 400 (ErrorBody "room/key required")))
    else if (rq_method req =? "GET")%string
    then (env, Responded (stateGet env room key (rq_lastSync req)))
    else if (rq_method req =? "PUT")%string
    then
      let r := statePut now now' now'' n env room key (rq_operations req) in
      (fst r, Responded (snd r))
    else (env, Responded (mkResponse 405 (ErrorBody "method not allowed")))
  else if (rq_pathname req =? "/export")%string
  then (env, Rejected referenceErrorMessage)
  else if (rq_pathname req =? "/import")%string
  then (env, Rejected referenceErrorMessage)
  else (env, Responded (mkResponse 404 (TextBody "Not Found"))).

(** A call of the handler: the request, the readings of the clock and the
    position of the id source. *)
Record Call := mkCall {
  c_now : Z;
  c_now' : Z;
  c_now'' : Z;
  c_pos : nat;
  c_req : Request
}.

Definition call (c : Call) (env : Env) : Env * Answer :=
  fetch (c_now c) (c_now' c) (c_now'' c) (c_pos c) (c_req c) env.

(** The bindings after a sequence of calls. *)
Definition serve (env : Env) (calls : list Call) : Env :=
  fold_left (fun e c => fst (call c e)) calls env.
End Endpoint.

(** The bindings before the first request: empty namespaces, with or
    without a dedicated namespace for the users. *)
Definition emptyEnv (dedicated : bool) : Env :=
  mkEnv kvEmpty (if dedicated then Some kvEmpty else None).

Definition getRequest (room key : string) (lastSync : Z) : Request :=
  mkRequest "GET" "/state" (Some room) (Some key) (Some lastSync) None.

Definition putRequest (room key : string) (ops : list Operation) : Request :=
  mkRequest "PUT" "/state" (Some room) (Some key) (Some 0) (Some ops).

(** Every saved state of [env] was reached by merge passes from the empty
    snapshot, and its users are the ones saved under the users key. *)
Definition Consistent (gen : nat -> string) (env : Env) : Prop :=
  forall k s,
    STATE_KV env k = Some (StateDoc s) ->
    Reachable gen (fun _ => True) emptySnapshot s /\
    usersStoreGet env ("users:" ++ k)%string
    = Some (UsersDoc (users (s_state s)) (s_lastUpdate s)).
(** The state a response carries, if any. *)
Definition servedState (a : Answer) : option State :=
  match a with
  | Responded (mkResponse _ (StateBody st _ _ _)) => st
  | Responded (mkResponse _ (MergeBody st _ _ _)) => Some st
  | _ => None
  end.
(** A first [PUT] that registers a user. *)
Definition firstPut (room key : string) : Request :=
  putRequest room key [registerOp "o1" "alice" 1].

(** * Properties *)

(** ** Arrays *)

Section ArrayFacts.
Context {A : Type}.

Lemma findRef_Some (p : A -> bool) (l : list A) (i : nat) (x : A) :
  findRef p l = Some (i, x) -> nth_error l i = Some x /\ p x = true.
Proof.
  revert i. induction l as [|y l IH]; simpl; intros i H; [discriminate|].
  destruct (p y) eqn:E.
  - inversion H; subst. simpl. auto.
  - destruct (findRef p l) as [[k z]|]; [|discriminate].
    inversion H; subst. simpl. apply IH. reflexivity.
Qed.

Lemma findRef_lt (p : A -> bool) (l : list A) (i : nat) (x : A) :
  findRef p l = Some (i, x) -> (i < List.length l)%nat.
Proof.
  intros H. apply findRef_Some in H as [H _].
  apply nth_error_Some. congruence.
Qed.

Lemma length_update (i : nat) (f : A -> A) (l : list A) :
  List.length (update i f l) = List.length l.
Proof.
  revert i. induction l as [|x l IH]; intros [|i]; simpl; auto.
Qed.

Lemma nth_error_update (i k : nat) (f : A -> A) (l : list A) :
  nth_error (update i f l) k =
  if Nat.eqb k i then option_map f (nth_error l k) else nth_error l k.
Proof.
  revert i k. induction l as [|x l IH]; intros [|i] [|k]; simpl;
    try reflexivity.
  - now destruct (Nat.eqb k i).
  - apply IH.
Qed.

(** A mutation that does not change what [p] looks at keeps the position
    [find] returns. *)
Lemma findRef_update (p : A -> bool) (f : A -> A) (k : nat) (l : list A) :
  (forall x, p (f x) = p x) ->
  findRef p (update k f l) =
  match findRef p l with
  | Some (i, x) => Some (i, if Nat.eqb i k then f x else x)
  | None => None
  end.
Proof.
  intros Hp. revert k. induction l as [|y l IH]; intros [|k]; simpl; auto.
  - rewrite Hp. destruct (p y); [reflexivity|].
    destruct (findRef p l) as [[i z]|]; reflexivity.
  - destruct (p y); [reflexivity|]. rewrite IH.
    destruct (findRef p l) as [[i z]|]; reflexivity.
Qed.


Lemma In_splice1 (i : nat) (l : list A) (y : A) :
  In y (splice1 i l) -> In y l.
Proof.
  revert i. induction l as [|x l IH]; intros [|i]; simpl; auto.
  intros [H|H]; [auto | right; eapply IH; eauto].
Qed.
End ArrayFacts.

(** ** Balances *)

Lemma sumBalances_update_add (k : nat) (d : Z) (us : list User) :
  (k < List.length us)%nat ->
  sumBalances (update k (addBalance d) us) = sumBalances us + d.
Proof.
  revert k. induction us as [|u us IH]; intros [|k]; simpl; intros H;
    try lia.
  rewrite IH; lia.
Qed.

Lemma sumBalances_update_set (k : nat) (b : Z) (us : list User) :
  (k < List.length us)%nat ->
  sumBalances (update k (setBalance b) us) =
  sumBalances us - balanceAt k us + b.
Proof.
  revert k. induction us as [|u us IH]; intros [|k]; simpl; intros H;
    try lia.
  - unfold balanceAt. simpl. lia.
  - rewrite IH by lia. unfold balanceAt. simpl. lia.
Qed.

Lemma balanceAt_update (i k : nat) (f : User -> User) (us : list User) :
  balanceAt k (update i f us) =
  if Nat.eqb k i
  then match nth_error us k with Some u => u_balance (f u) | None => 0 end
  else balanceAt k us.
Proof.
  unfold balanceAt. rewrite nth_error_update.
  destruct (Nat.eqb k i); [|reflexivity].
  now destruct (nth_error us k).
Qed.

(** ** The loop *)

Section Loop.
Variable gen : nat -> string.

Lemma mergeLoop_app (l1 l2 : list Operation) : forall r n,
  mergeLoop gen r n (l1 ++ l2) =
  mergeLoop gen (fst (mergeLoop gen r n l1)) (snd (mergeLoop gen r n l1)) l2.
Proof.
  induction l1 as [|op l1 IH]; intros r n; simpl.
  - reflexivity.
  - destruct (mergeStep gen r n op) as [r' n']. apply IH.
Qed.

Lemma mergeStep_thrown r n op st n' msg :
  applyOperation gen (state r) op n = (st, n', Thrown msg) ->
  mergeStep gen r n op = (caught r st op msg, n').
Proof. intros H. unfold mergeStep. rewrite H. reflexivity. Qed.

Lemma mergeStep_conflicts r n op :
  conflicts (fst (mergeStep gen r n op)) = conflicts r.
Proof.
  unfold mergeStep.
  destruct (applyOperation gen (state r) op n) as [[st n'] [o|msg]];
    reflexivity.
Qed.

Lemma mergeLoop_conflicts ops : forall r n,
  conflicts (fst (mergeLoop gen r n ops)) = conflicts r.
Proof.
  induction ops as [|op ops IH]; intros r n; simpl.
  - reflexivity.
  - pose proof (mergeStep_conflicts r n op) as H.
    destruct (mergeStep gen r n op) as [r' n']. rewrite IH. exact H.
Qed.



Lemma mergeLoop_processedOps ops : forall r n,
  processedOps (fst (mergeLoop gen r n ops)) =
  processedOps r ++ map processedOf (loggedOps gen r n ops).
Proof.
  induction ops as [|op ops IH]; intros r n; simpl.
  - now rewrite app_nil_r.
  - unfold mergeStep.
    destruct (applyOperation gen (state r) op n) as [[st n'] [o|msg]];
      rewrite IH; simpl.
    + now rewrite <- app_assoc.
    + reflexivity.
Qed.

Lemma loggedOps_incl ops : forall r n op,
  In op (loggedOps gen r n ops) -> In op ops.
Proof.
  induction ops as [|x ops IH]; intros r n op; simpl.
  - tauto.
  - destruct (mergeStep gen r n x) as [r' n'].
    destruct (applyOperation gen (state r) x n) as [[st n''] [o|msg]];
      simpl; intros H.
    + destruct H as [H|H]; [now left | right; eapply IH; eauto].
    + right; eapply IH; eauto.
Qed.
End Loop.

(** ** Deduplication and ordering *)

Lemma insertOp_perm op l : Permutation (op :: l) (insertOp op l).
Proof.
  induction l as [|x l IH]; simpl.
  - apply Permutation_refl.
  - destruct (op_timestamp op <=? op_timestamp x).
    + apply Permutation_refl.
    + eapply Permutation_trans; [apply perm_swap|].
      apply perm_skip. exact IH.
Qed.

Lemma sortByTimestamp_perm l : Permutation l (sortByTimestamp l).
Proof.
  induction l as [|x l IH]; simpl.
  - apply perm_nil.
  - eapply Permutation_trans; [|apply insertOp_perm].
    apply perm_skip. exact IH.
Qed.

Lemma sortByTimestamp_In l op : In op (sortByTimestamp l) <-> In op l.
Proof.
  split; apply Permutation_in;
    [apply Permutation_sym|]; apply sortByTimestamp_perm.
Qed.

Lemma insertOp_sorted op l :
  Sorted tsLe l -> Sorted tsLe (insertOp op l).
Proof.
  induction l as [|x l IH]; simpl; intros Hs.
  - repeat constructor.
  - destruct (op_timestamp op <=? op_timestamp x) eqn:E.
    + constructor; [exact Hs|]. constructor. unfold tsLe. lia.
    + inversion Hs as [|? ? Hs' Hhd]; subst.
      constructor; [apply IH; exact Hs'|].
      destruct l as [|y l]; simpl.
      * constructor. unfold tsLe. lia.
      * destruct (op_timestamp op <=? op_timestamp y).
        -- constructor. unfold tsLe. lia.
        -- inversion Hhd; subst. constructor. assumption.
Qed.

Lemma sortByTimestamp_sorted l : Sorted tsLe (sortByTimestamp l).
Proof.
  induction l as [|x l IH]; simpl.
  - constructor.
  - apply insertOp_sorted. exact IH.
Qed.

Lemma tsLe_trans : Relations_1.Transitive tsLe.
Proof. intros a b c. unfold tsLe. lia. Qed.

(** Two timestamp-sorted arrangements of the same operations coincide when
    operations sharing a timestamp are equal. *)
Lemma sorted_perm_unique l1 : forall l2,
  Permutation l1 l2 ->
  StronglySorted tsLe l1 -> StronglySorted tsLe l2 ->
  (forall a b, In a l1 -> In b l1 -> op_timestamp a = op_timestamp b -> a = b) ->
  l1 = l2.
Proof.
  induction l1 as [|x l1 IH]; intros l2 Hp Hs1 Hs2 Hinj.
  - apply Permutation_nil in Hp. now subst.
  - destruct l2 as [|y l2].
    + apply Permutation_sym, Permutation_nil in Hp. discriminate.
    + inversion Hs1 as [|? ? Hs1' Hall1]; subst.
      inversion Hs2 as [|? ? Hs2' Hall2]; subst.
      assert (Hxy : x = y).
      { assert (Hx : In x (y :: l2))
          by (eapply Permutation_in; [exact Hp | now left]).
        assert (Hy : In y (x :: l1))
          by (eapply Permutation_in;
              [apply Permutation_sym; exact Hp | now left]).
        destruct Hx as [Hx|Hx]; [now subst|].
        destruct Hy as [Hy|Hy]; [now subst|].
        rewrite Forall_forall in Hall1, Hall2.
        specialize (Hall1 y Hy). specialize (Hall2 x Hx).
        apply Hinj; [now left | now right |]. unfold tsLe in *. lia. }
      subst y. f_equal.
      apply IH; auto.
      * eapply Permutation_cons_inv; exact Hp.
      * intros a b Ha Hb. apply Hinj; now right.
Qed.

Lemma unprocessed_perm log l1 l2 :
  Permutation l1 l2 -> Permutation (unprocessed log l1) (unprocessed log l2).
Proof.
  unfold unprocessed. induction 1; simpl.
  - constructor.
  - destruct (negb (isProcessed log x)); [apply perm_skip|]; assumption.
  - destruct (negb (isProcessed log x)), (negb (isProcessed log y));
      try apply Permutation_refl. apply perm_swap.
  - eapply Permutation_trans; eassumption.
Qed.

Lemma isProcessed_In log op :
  isProcessed log op = true <-> In (op_id op) (map p_id log).
Proof.
  unfold isProcessed. rewrite existsb_exists, in_map_iff. split.
  - intros [p [Hin He]]. exists p. split; [|exact Hin].
    now apply String.eqb_eq.
  - intros [p [He Hin]]. exists p. split; [exact Hin|].
    now apply String.eqb_eq.
Qed.

Lemma batchOrder_In current ops op :
  In op (batchOrder current ops) <->
  In op ops /\ ~ In (op_id op) (map p_id (s_processedOps current)).
Proof.
  unfold batchOrder, unprocessed.
  rewrite sortByTimestamp_In, filter_In, <- isProcessed_In.
  destruct (isProcessed (s_processedOps current) op); simpl;
    intuition congruence.
Qed.

(** ** The orchestrator: errors, the log and the retention window *)

Section Orchestrator.
Variable gen : nat -> string.

Lemma mergeOperations_eq now now' current ops n :
  mergeOperations gen now now' current ops n =
  prune now now'
    (fst (mergeLoop gen (initialResult current) n (batchOrder current ops))).
Proof. reflexivity. Qed.

Lemma mergeLoop_thrown_at r n pre op post r1 n1 st n2 msg :
  mergeLoop gen r n pre = (r1, n1) ->
  applyOperation gen (state r1) op n1 = (st, n2, Thrown msg) ->
  mergeLoop gen r n (pre ++ op :: post) =
  mergeLoop gen (caught r1 st op msg) n2 post.
Proof.
  intros Hpre Hop. rewrite mergeLoop_app, Hpre. simpl.
  now rewrite (mergeStep_thrown gen r1 n1 op _ _ _ Hop).
Qed.

Lemma mergeLoop_returned_at r n pre op post r1 n1 :
  mergeLoop gen r n pre = (r1, n1) ->
  mergeLoop gen r n (pre ++ op :: post) =
  mergeLoop gen (fst (mergeStep gen r1 n1 op))
            (snd (mergeStep gen r1 n1 op)) post.
Proof.
  intros Hpre. rewrite mergeLoop_app, Hpre. simpl.
  now destruct (mergeStep gen r1 n1 op).
Qed.

Lemma loop_log_ids r n ops i :
  In i (map p_id (processedOps (fst (mergeLoop gen r n ops)))) ->
  In i (map p_id (processedOps r)) \/ In i (map op_id ops).
Proof.
  rewrite mergeLoop_processedOps, map_app, in_app_iff.
  intros [H|H]; [now left | right].
  rewrite map_map in H. apply in_map_iff in H as [o [Hi Ho]].
  apply in_map_iff. exists o. split; [exact Hi|].
  eapply loggedOps_incl; eauto.
Qed.

(** C5: the retention pruner keeps of the ProcessedOp log (the log read
    from the snapshot, extended by the operations whose handler returned in
    this pass) exactly the entries whose recorded timestamp lies less than
    one hour before [now], the clock reading taken when the merge pass
    executes, and likewise of the Conflict log; the window is anchored at
    the clock of the pass and at no timestamp of the batch. *)
Theorem retention_window_anchored_at_merge_time
    (now now' : Z) (current : Snapshot) (ops : list Operation) (n : nat) :
  let r := mergeOperations gen now now' current ops n in
  processedOps r =
    filter (fun e => now - p_timestamp e <? 1000 * 60 * 60)
           (s_processedOps current
            ++ map processedOf
                 (loggedOps gen (initialResult current) n
                            (batchOrder current ops))) /\
  conflicts r =
    filter (fun c => now - c_timestamp c <? 1000 * 60 * 60)
           (s_conflicts current).
Proof.
  cbv zeta. rewrite mergeOperations_eq. unfold prune.
  cbn [processedOps conflicts].
  rewrite mergeLoop_processedOps, mergeLoop_conflicts.
  cbn [processedOps conflicts initialResult].
  split; apply filter_ext; intros x;
    rewrite Z.gtb_ltb; apply eq_true_iff_eq;
    rewrite !Z.ltb_lt; lia.
Qed.


(** C10: when the handler of an operation throws at its turn, no entry is
    appended to the ProcessedOp log for it: if no other operation of the
    batch carries its id, the id is absent from the log the pass returns,
    so that in the next pass a batch that contains the operation again
    dispatches it again. *)
Theorem thrown_operation_is_not_logged
    (now now' : Z) (current : Snapshot) (ops : list Operation) (n : nat)
    (pre post : list Operation) (op : Operation)
    (r1 : MergeResult) (n1 n2 : nat) (st : State) (msg : string) :
  batchOrder current ops = pre ++ op :: post ->
  mergeLoop gen (initialResult current) n pre = (r1, n1) ->
  applyOperation gen (state r1) op n1 = (st, n2, Thrown msg) ->
  (forall o, In o (pre ++ post) -> op_id o <> op_id op) ->
  let r := mergeOperations gen now now' current ops n in
  processedOps (caught r1 st op msg) = processedOps r1 /\
  ~ In (op_id op) (map p_id (processedOps r)) /\
  forall (lastUpdate : Z) (ops2 : list Operation),
    In op ops2 -> In op (batchOrder (toSave lastUpdate r) ops2).
Proof.
  intros Hord Hpre Hop Hids. cbv zeta.
  assert (Hfresh : ~ In (op_id op) (map p_id (s_processedOps current))).
  { assert (Hin : In op (batchOrder current ops))
      by (rewrite Hord; apply in_or_app; right; now left).
    now apply batchOrder_In in Hin. }
  assert (Hlog : ~ In (op_id op)
            (map p_id (processedOps (mergeOperations gen now now' current ops n)))).
  { rewrite mergeOperations_eq, Hord.
    rewrite (mergeLoop_thrown_at _ _ _ _ post _ _ _ _ _ Hpre Hop). simpl.
    intros Hin. apply in_map_iff in Hin as [e [He Hin]].
    apply filter_In in Hin as [Hin _].
    assert (Hi : In (op_id op)
              (map p_id (processedOps
                 (fst (mergeLoop gen (caught r1 st op msg) n2 post)))))
      by (apply in_map_iff; eauto).
    apply loop_log_ids in Hi. simpl in Hi. destruct Hi as [Hi|Hi].
    - assert (Hr1 : r1 = fst (mergeLoop gen (initialResult current) n pre))
        by now rewrite Hpre.
      rewrite Hr1 in Hi. apply loop_log_ids in Hi. simpl in Hi.
      destruct Hi as [Hi|Hi]; [now apply Hfresh|].
      apply in_map_iff in Hi as [o [Ho Hino]].
      apply (Hids o); [apply in_or_app; now left | exact Ho].
    - apply in_map_iff in Hi as [o [Ho Hino]].
      apply (Hids o); [apply in_or_app; now right | exact Ho]. }
  split; [reflexivity|]. split; [exact Hlog|].
  intros lastUpdate ops2 Hin. apply batchOrder_In. split; [exact Hin|].
  exact Hlog.
Qed.
End Orchestrator.

(** ** Idempotency and order independence *)

Section Batches.
Variable gen : nat -> string.

Lemma filter_absorb {A : Type} (p q : A -> bool) (l : list A) :
  (forall x, In x l -> p x = true -> q x = true) ->
  filter p (filter q l) = filter p l.
Proof.
  induction l as [|x l IH]; simpl; intros H; [reflexivity|].
  destruct (q x) eqn:Eq; simpl.
  - destruct (p x); [f_equal|]; apply IH; intros; apply H; auto.
  - destruct (p x) eqn:Ep.
    + rewrite (H x (or_introl eq_refl) Ep) in Eq. discriminate.
    + apply IH; intros; apply H; auto.
Qed.

(** An id of the log removes every operation carrying it before dispatch. *)
Lemma logged_id_is_filtered now now' current ops n i :
  In i (map p_id (s_processedOps current)) ->
  mergeOperations gen now now' current ops n =
  mergeOperations gen now now' current
    (filter (fun o => negb (op_id o =? i)%string) ops) n.
Proof.
  intros Hi. rewrite !mergeOperations_eq. unfold batchOrder, unprocessed.
  rewrite filter_absorb; [reflexivity|].
  intros x _ Hx. apply negb_true_iff. apply negb_true_iff in Hx.
  destruct (op_id x =? i)%string eqn:E; [|reflexivity].
  apply String.eqb_eq in E. subst i.
  apply isProcessed_In in Hi. congruence.
Qed.

Lemma loop_log_grows ops r n e :
  In e (processedOps r) -> In e (processedOps (fst (mergeLoop gen r n ops))).
Proof.
  intros H. rewrite mergeLoop_processedOps. apply in_or_app. now left.
Qed.

Lemma mergeStep_returned r n op st n' o :
  applyOperation gen (state r) op n = (st, n', Returned o) ->
  In (processedOf op) (processedOps (fst (mergeStep gen r n op))).
Proof.
  intros H. unfold mergeStep. rewrite H. simpl.
  apply in_or_app. right. now left.
Qed.

(** C1 (amended): when the handler of an operation returned at its turn in
    a merge pass and the operation's timestamp is less than one hour behind
    the clock of that pass, its id is in the log the pass returns, and the
    next pass drops every operation carrying that id before dispatch: the
    result is the one of the batch without them, and for a batch that is
    the resubmission alone it is the result of the empty batch, with the
    ledger part of the state untouched and no conflict recorded. *)
Theorem resubmission_in_next_pass_is_dropped
    (now1 now1' now2 now2' : Z) (current : Snapshot)
    (ops1 : list Operation) (n : nat)
    (pre post : list Operation) (op : Operation)
    (r1 : MergeResult) (n1 n2 : nat) (st : State) (o : Outcome)
    (lastUpdate : Z) :
  batchOrder current ops1 = pre ++ op :: post ->
  mergeLoop gen (initialResult current) n pre = (r1, n1) ->
  applyOperation gen (state r1) op n1 = (st, n2, Returned o) ->
  now1 - op_timestamp op < 1000 * 60 * 60 ->
  let r := mergeOperations gen now1 now1' current ops1 n in
  let next := toSave lastUpdate r in
  In (op_id op) (map p_id (processedOps r)) /\
  (forall (ops2 : list Operation) (m : nat),
     mergeOperations gen now2 now2' next ops2 m =
     mergeOperations gen now2 now2' next
       (filter (fun x => negb (op_id x =? op_id op)%string) ops2) m) /\
  (forall m : nat,
     let r2 := mergeOperations gen now2 now2' next [op] m in
     r2 = mergeOperations gen now2 now2' next [] m /\
     users (state r2) = users (state r) /\
     txs (state r2) = txs (state r) /\
     listings (state r2) = listings (state r) /\
     rights (state r2) = rights (state r) /\
     vTick (state r2) = vTick (state r) /\
     newConflicts r2 = []).
Proof.
  intros Hord Hpre Hop Hts. cbv zeta.
  assert (Hin : In (op_id op)
            (map p_id (processedOps
               (mergeOperations gen now1 now1' current ops1 n)))).
  { rewrite mergeOperations_eq, Hord.
    rewrite (mergeLoop_returned_at gen _ _ _ _ post _ _ Hpre).
    apply in_map_iff. exists (processedOf op). split; [reflexivity|].
    unfold prune. cbn [processedOps]. apply filter_In. split.
    - apply loop_log_grows. eapply mergeStep_returned; eauto.
    - simpl. apply Z.gtb_lt. lia. }
  split; [exact Hin|].
  assert (Hgen : forall ops2 m,
     mergeOperations gen now2 now2'
       (toSave lastUpdate (mergeOperations gen now1 now1' current ops1 n))
       ops2 m =
     mergeOperations gen now2 now2'
       (toSave lastUpdate (mergeOperations gen now1 now1' current ops1 n))
       (filter (fun x => negb (op_id x =? op_id op)%string) ops2) m).
  { intros ops2 m. apply logged_id_is_filtered. exact Hin. }
  split; [exact Hgen|].
  intros m. rewrite (Hgen [op] m). simpl. rewrite String.eqb_refl. simpl.
  repeat split; reflexivity.
Qed.

(** C6 (amended): when no two distinct operations awaiting dispatch share a
    timestamp, two batches that hold the same operations in different
    input orders give the same merge result. *)
Theorem merge_is_order_independent
    (now now' : Z) (current : Snapshot) (ops ops' : list Operation)
    (n : nat) :
  Permutation ops ops' ->
  (forall a b,
     In a (unprocessed (s_processedOps current) ops) ->
     In b (unprocessed (s_processedOps current) ops) ->
     op_timestamp a = op_timestamp b -> a = b) ->
  mergeOperations gen now now' current ops n =
  mergeOperations gen now now' current ops' n.
Proof.
  intros Hp Hinj. rewrite !mergeOperations_eq. f_equal. f_equal. f_equal.
  unfold batchOrder. apply sorted_perm_unique.
  - eapply Permutation_trans;
      [apply Permutation_sym, sortByTimestamp_perm|].
    eapply Permutation_trans; [|apply sortByTimestamp_perm].
    apply unprocessed_perm. exact Hp.
  - apply Sorted_StronglySorted;
      [exact tsLe_trans | apply sortByTimestamp_sorted].
  - apply Sorted_StronglySorted;
      [exact tsLe_trans | apply sortByTimestamp_sorted].
  - intros a b Ha Hb. apply Hinj; now apply sortByTimestamp_In.
Qed.
End Batches.

(** ** Concrete batches *)

(** C1, as stated, fails.  Two copies of one transfer in the same batch
    both pass the filter, which reads the log before the loop starts, and
    both are applied.  And a transfer whose timestamp lies more than an
    hour behind the clock of the pass loses its log entry to the pruner at
    the end of that very pass, so that its resubmission in the next pass is
    applied again. *)
Lemma duplicate_in_one_batch_is_applied_twice :
  let op := transferOp "t1" "a" "b" 100 5 in
  let once := mergeOperations counterIds 10 10 twoUsers [op] 0 in
  let twice := mergeOperations counterIds 10 10 twoUsers [op; op] 0 in
  let late := mergeOperations counterIds 4000000 4000000 twoUsers [op] 0 in
  let again := mergeOperations counterIds 4000010 4000010
                 (toSave 4000000 late) [op] 1 in
  map u_balance (users (s_state twoUsers)) = [1000; 0] /\
  map u_balance (users (state once)) = [900; 100] /\
  map u_balance (users (state twice)) = [800; 200] /\
  newConflicts twice = [] /\
  users (state twice) <> users (state once) /\
  map u_balance (users (state late)) = [900; 100] /\
  processedOps late = [] /\
  map u_balance (users (state again)) = [800; 200].
Proof. vm_compute. repeat split; try reflexivity. discriminate. Qed.

Lemma resubmission_in_next_pass_is_dropped_witness :
  let op := transferOp "t1" "a" "b" 100 5 in
  let r := mergeOperations counterIds 10 10 twoUsers [op] 0 in
  let r2 := mergeOperations counterIds 20 20 (toSave 10 r) [op] 1 in
  map u_balance (users (state r)) = [900; 100] /\
  users (state r2) = users (state r) /\ newConflicts r2 = [].
Proof.
  pose proof (resubmission_in_next_pass_is_dropped counterIds
                10 10 20 20 twoUsers [transferOp "t1" "a" "b" 100 5] 0
                [] [] (transferOp "t1" "a" "b" 100 5)
                (initialResult twoUsers) 0 _ _ _ 10
                eq_refl eq_refl eq_refl) as H.
  cbv zeta in H. destruct H as [_ [_ H]]; [vm_compute; reflexivity|].
  destruct (H 1%nat) as [_ [Hu [_ [_ [_ [_ Hc]]]]]].
  split; [vm_compute; reflexivity|]. split; [exact Hu | exact Hc].
Defined.

(** C6, as stated, fails: with equal timestamps the stable sort keeps the
    input order, and a balance that covers only one of two transfers goes
    to whichever was submitted first. *)
Lemma tied_timestamps_depend_on_input_order :
  let x := transferOp "t1" "a" "b" 100 5 in
  let y := transferOp "t2" "a" "c" 100 5 in
  Permutation [x; y] [y; x] /\
  map u_balance
    (users (state (mergeOperations counterIds 10 10 threeUsers [x; y] 0)))
    = [0; 100; 0] /\
  map u_balance
    (users (state (mergeOperations counterIds 10 10 threeUsers [y; x] 0)))
    = [0; 0; 100].
Proof. cbv zeta. split; [apply perm_swap|]. vm_compute. split; reflexivity. Qed.

Lemma merge_is_order_independent_witness :
  let x := transferOp "t1" "a" "b" 100 5 in
  let y := transferOp "t2" "a" "c" 100 6 in
  mergeOperations counterIds 10 10 threeUsers [x; y] 0 =
  mergeOperations counterIds 10 10 threeUsers [y; x] 0.
Proof.
  cbv zeta. apply merge_is_order_independent.
  - apply perm_swap.
  - simpl. intros a b [Ha|[Ha|[]]] [Hb|[Hb|[]]]; subst; simpl;
      intros E; try reflexivity; discriminate E.
Defined.


Lemma thrown_operation_is_not_logged_witness :
  let bad := bareOp "o1" "transfer" 1 in
  let reg := registerOp "o2" "alice" 2 in
  let r := mergeOperations counterIds 10 10 emptySnapshot [reg; bad] 0 in
  ~ In "o1" (map p_id (processedOps r)) /\
  In bad (batchOrder (toSave 10 r) [bad]).
Proof.
  cbv zeta.
  destruct (thrown_operation_is_not_logged counterIds 10 10 emptySnapshot
              [registerOp "o2" "alice" 2; bareOp "o1" "transfer" 1] 0
              [] [registerOp "o2" "alice" 2] (bareOp "o1" "transfer" 1)
              (initialResult emptySnapshot) 0 0 emptyState typeErrorMessage
              eq_refl eq_refl eq_refl) as [_ [H1 H2]].
  - simpl. intros o [Ho|[]]. subst o. discriminate.
  - split; [exact H1|]. apply H2. now left.
Defined.

(** C4, on the failing input: in a room set up from the empty snapshot, a
    transfer of a negative amount passes the balance check of the sender
    and debits the recipient unchecked. *)
Lemma negative_transfer_drives_balance_negative :
  let ops := [registerOp "o1" "alice" 1; registerOp "o2" "bob" 2;
              transferOp "o3" "id0" "id2" (- 20000) 3] in
  let r := mergeOperations counterIds 10 10 emptySnapshot ops 0 in
  newConflicts r = [] /\
  map (fun u => (u_id u, u_balance u)) (users (state r))
  = [("id0", 30000); ("id2", - 10000)].
Proof. vm_compute. split; reflexivity. Qed.

(** C9, on the failing input: a [send_message] that succeeds appends its
    notification and leaves [vTick] where it was. *)
Lemma send_message_leaves_vTick
    (gen : nat -> string) (st : State) (data : Data) (ts : Z) (n : nat) :
  d_recipientId data <> "" -> d_content data <> "" -> d_type data <> "" ->
  exists note,
    applySendMessage gen st data ts n =
      (setNotifications
         (Some (match notifications st with Some l => l | None => [] end
                ++ [note])) st,
       S n, Returned success) /\
    vTick (fst (fst (applySendMessage gen st data ts n))) = vTick st.
Proof.
  intros Hr Hc Ht. unfold applySendMessage.
  apply String.eqb_neq in Hr, Hc, Ht. rewrite Hr, Hc, Ht. simpl.
  eexists. split; reflexivity.
Qed.

Lemma send_message_leaves_vTick_witness :
  let op := messageOp "m1" "b" "hello" "info" 5 in
  let r := mergeOperations counterIds 10 10 twoUsers [op] 0 in
  option_map (@List.length Notification) (notifications (state r)) = Some 1%nat /\
  newConflicts r = [] /\
  vTick (state r) = vTick (s_state twoUsers) /\
  exists note,
    applySendMessage counterIds (s_state twoUsers)
      (mkData "" 0 "" "" "" 0 "" 0 "" "" 1%Q "" "" "b" "hello" "info" false)
      5 0 =
    (setNotifications (Some ([] ++ [note])) (s_state twoUsers), 1%nat,
     Returned success).
Proof.
  cbv zeta. split; [vm_compute; reflexivity|].
  split; [vm_compute; reflexivity|]. split; [vm_compute; reflexivity|].
  destruct (send_message_leaves_vTick counterIds (s_state twoUsers)
              (mkData "" 0 "" "" "" 0 "" 0 "" "" 1%Q "" "" "b" "hello" "info"
                      false) 5 0) as [note [H _]];
    [discriminate | discriminate | discriminate |].
  exists note. exact H.
Defined.

(** ** Projections of the state *)

Create Rewrite HintDb state.

Lemma logTx_users silent tx s : users (logTx silent tx s) = users s.
Proof. now destruct silent. Qed.

Lemma logTx_listings silent tx s : listings (logTx silent tx s) = listings s.
Proof. now destruct silent. Qed.

Lemma logTx_rights silent tx s : rights (logTx silent tx s) = rights s.
Proof. now destruct silent. Qed.

Lemma logTx_vTick silent tx s : vTick (logTx silent tx s) = vTick s.
Proof. now destruct silent. Qed.

Lemma logTx_notifications silent tx s :
  notifications (logTx silent tx s) = notifications s.
Proof. now destruct silent. Qed.

#[local] Hint Rewrite logTx_users logTx_listings logTx_rights logTx_vTick
  logTx_notifications : state.

(** Projections of a state built by the setters. *)
Ltac proj := repeat (cbn [users listings rights vTick notifications txs
                          bumpVTick setUsers setListings setRights
                          setNotifications fst snd];
                     autorewrite with state).

(** ** Purchase of a listing *)

(** C7 (amended): when the listing is found active and in stock, the buyer
    exists, is not the seller and can pay, [applyBuyListing] succeeds; it
    debits the buyer by the full price, credits the price less the fee
    [price / 10] to the seller when the seller is among the users and the
    fee to the house account when a user carries the reserved name (a user
    in two of these roles receives both adjustments, every other balance is
    untouched); it increments [sold] of that listing alone and clears
    [active] exactly when [sold] has reached [qty]; and it puts a new right
    in status [owned] in front of the rights. *)
Theorem buy_listing_effect
    (gen : nat -> string) (st : State) (data : Data) (ts : Z)
    (uid : string) (silent : bool) (n : nat)
    (li : nat) (listing : Listing) (b : nat) (buyer : User) :
  findRef (fun l => (l_id l =? d_listingId data)%string && l_active l)
          (listings st) = Some (li, listing) ->
  findRef (hasId uid) (users st) = Some (b, buyer) ->
  0 < (if l_qty listing =? 0 then 1 else l_qty listing) - l_sold listing ->
  l_price listing <= u_balance buyer ->
  l_sellerId listing <> uid ->
  let price := l_price listing in
  let fee := price / 10 in
  let seller := position (findRef (hasId (l_sellerId listing)) (users st)) in
  let house := position (findRef isJackpot (users st)) in
  exists st' o right,
    applyBuyListing gen st data ts uid silent n
      = (st', S (S n), Returned o) /\
    conflict o = false /\
    List.length (users st') = List.length (users st) /\
    (forall k u, nth_error (users st) k = Some u ->
       nth_error (users st') k =
       Some (setBalance (u_balance u - credit (Some b) k price
                         + credit seller k (price - fee)
                         + credit house k fee) u)) /\
    nth_error (listings st') li =
      Some (setActive (if l_qty listing <=? l_sold listing + 1
                       then false else true)
                      (setSold (l_sold listing + 1) listing)) /\
    (forall k, k <> li ->
       nth_error (listings st') k = nth_error (listings st) k) /\
    right = mkRight (gen n) (l_id listing) (l_title listing) uid
                    (l_sellerId listing) ts owned false None /\
    rights st' = right :: rights st /\
    createdRight o = Some right /\
    vTick st' = vTick st + 1.
Proof.
  intros Hl Hb Hstock Hbal Hself. cbv zeta.
  unfold applyBuyListing. rewrite Hl, Hb.
  apply findRef_Some in Hl as [Hli Hact].
  apply andb_true_iff in Hact as [_ Hact].
  replace ((if l_qty listing =? 0 then 1 else l_qty listing)
           - l_sold listing <=? 0) with false
    by (symmetry; apply Z.leb_gt; lia).
  replace (u_balance buyer <? l_price listing) with false
    by (symmetry; apply Z.ltb_ge; lia).
  replace (l_sellerId listing =? uid)%string with false
    by (symmetry; now apply String.eqb_neq).
  do 3 eexists. split; [reflexivity|].
  split; [reflexivity|]. proj.
  split.
  { destruct (findRef (hasId (l_sellerId listing)) (users st)) as [[s su]|],
             (findRef isJackpot (users st)) as [[j ju]|];
      now rewrite ?length_update. }
  split.
  { intros k u Hk.
    destruct (findRef (hasId (l_sellerId listing)) (users st)) as [[s su]|],
             (findRef isJackpot (users st)) as [[j ju]|];
      unfold position, credit; simpl;
      rewrite ?nth_error_update, Hk;
      repeat match goal with
             | |- context [Nat.eqb ?a ?c] => destruct (Nat.eqb a c)
             end;
      simpl; f_equal; destruct u; unfold addBalance, setBalance; simpl;
      f_equal; lia. }
  split.
  { rewrite nth_error_update, Nat.eqb_refl, Hli. simpl. f_equal.
    unfold sellOne. simpl.
    replace (l_sold listing + 1 >=? l_qty listing)
      with (l_qty listing <=? l_sold listing + 1)
      by (rewrite Z.geb_leb; reflexivity).
    destruct (l_qty listing <=? l_sold listing + 1); [reflexivity|].
    destruct listing; simpl in *; subst; reflexivity. }
  split.
  { intros k Hk. rewrite nth_error_update.
    apply Nat.eqb_neq in Hk. now rewrite Hk. }
  repeat split; reflexivity.
Qed.

(** C7, as stated, fails: every listed precondition holds, yet no user
    carries the reserved name, and the fee is credited to nobody; and in a
    market whose listing names a seller that is not a user, nobody
    receives the seller's share. *)
Lemma buy_listing_without_house_account_drops_fee :
  let st := s_state marketWithoutHouse in
  let st' := fst (fst (applyBuyListing counterIds st (listingData "L1")
                         5 "b" false 0)) in
  let su := s_state marketWithoutSeller in
  let su' := fst (fst (applyBuyListing counterIds su (listingData "L1")
                         5 "b" false 0)) in
  findRef (fun l => (l_id l =? "L1")%string && l_active l) (listings st)
    = Some (0%nat, sampleListing) /\
  findRef (hasId "b") (users st) = Some (0%nat, sampleUser "b" "buyer" 1000) /\
  findRef isJackpot (users st) = None /\
  findRef isJackpot (users st') = None /\
  map u_balance (users st) = [1000; 0] /\
  map u_balance (users st') = [900; 90] /\
  findRef (hasId "s") (users su) = None /\
  map (fun u => (u_id u, u_balance u)) (users su) = [("b", 1000); ("h", 0)] /\
  map (fun u => (u_id u, u_balance u)) (users su') = [("b", 900); ("h", 10)].
Proof. vm_compute. repeat split; reflexivity. Qed.

Lemma buy_listing_effect_witness :
  exists st',
    fst (fst (applyBuyListing counterIds (s_state market) (listingData "L1")
                5 "b" false 0)) = st' /\
    map u_balance (users st') = [900; 90; 10] /\
    map l_sold (listings st') = [1] /\
    map l_active (listings st') = [false] /\
    map r_status (rights st') = [owned].
Proof.
  destruct (buy_listing_effect counterIds (s_state market)
              (listingData "L1") 5 "b" false 0
              0 sampleListing 0 (sampleUser "b" "buyer" 1000)
              eq_refl eq_refl) as (st' & o & right & H & _);
    [reflexivity | simpl; lia | discriminate |].
  exists st'. rewrite H. split; [reflexivity|].
  inversion H; subst st'. vm_compute. repeat split; reflexivity.
Defined.

(** ** Conservation *)

Section Conservation.
Variable gen : nat -> string.

Lemma Forall_update {A : Type} (P : A -> Prop) (f : A -> A) (i : nat)
    (l : list A) :
  (forall x, P x -> P (f x)) -> Forall P l -> Forall P (update i f l).
Proof.
  intros Hf H. revert i. induction H as [|x l Hx Hl IH]; intros [|i]; simpl;
    constructor; auto.
Qed.

Lemma Shape_update j hid us ls k f :
  (forall u, u_id (f u) = u_id u) -> (forall u, u_name (f u) = u_name u) ->
  Shape j hid us ls -> Shape j hid (update k f us) ls.
Proof.
  intros Hid Hname [[h [Hh Hhid]] Hs]. split.
  - rewrite findRef_update, Hh
      by (intros x; unfold isJackpot; now rewrite Hname).
    eexists. split; [reflexivity|].
    destruct (Nat.eqb j k); [now rewrite Hid | exact Hhid].
  - eapply Forall_impl; [|exact Hs]. intros l Hl. cbv beta in *.
    rewrite findRef_update
      by (intros x; unfold hasId; now rewrite Hid).
    destruct (findRef (hasId (l_sellerId l)) us) as [[i x]|];
      [discriminate | exact Hl].
Qed.

Lemma Shape_add j hid us ls k d :
  Shape j hid us ls -> Shape j hid (update k (addBalance d) us) ls.
Proof. apply Shape_update; reflexivity. Qed.

Lemma Shape_set j hid us ls k b :
  Shape j hid us ls -> Shape j hid (update k (setBalance b) us) ls.
Proof. apply Shape_update; reflexivity. Qed.

Lemma Shape_sell j hid us ls li :
  Shape j hid us ls -> Shape j hid us (update li sellOne ls).
Proof.
  intros [Hh Hs]. split; [exact Hh|].
  apply Forall_update; [|exact Hs].
  intros l Hl. unfold sellOne. simpl.
  now destruct (l_sold l + 1 >=? l_qty l).
Qed.

Lemma Ledger_intro j hid total st :
  Shape j hid (users st) (listings st) ->
  sumBalances (users st) = total -> Ledger j hid total st.
Proof. intros [H1 H2] H3. repeat split; assumption. Qed.

Lemma Ledger_shape j hid total st :
  Ledger j hid total st -> Shape j hid (users st) (listings st).
Proof. intros [H1 [H2 _]]. split; assumption. Qed.

Lemma applyTransfer_ledger j hid total st data ts uid silent n :
  Ledger j hid total st ->
  Ledger j hid total (fst (fst (applyTransfer gen st data ts uid silent n))).
Proof.
  intros HL. unfold applyTransfer.
  destruct (findRef (hasId uid) (users st)) as [[from fu]|] eqn:Ef;
    [|exact HL].
  destruct (findRef (hasId (d_toId data)) (users st)) as [[to tu]|] eqn:Et;
    [|exact HL].
  destruct (u_balance fu <? d_amount data); [exact HL|].
  apply findRef_lt in Ef, Et.
  pose proof (Ledger_shape _ _ _ _ HL) as HS. destruct HL as [_ [_ Hsum]].
  apply Ledger_intro; proj.
  - now apply Shape_add, Shape_add.
  - rewrite !sumBalances_update_add; rewrite ?length_update; lia.
Qed.

Lemma applyBuyListing_ledger j hid total st data ts uid silent n :
  Ledger j hid total st ->
  Ledger j hid total
    (fst (fst (applyBuyListing gen st data ts uid silent n))).
Proof.
  intros HL. unfold applyBuyListing.
  destruct (findRef _ (listings st)) as [[li listing]|] eqn:El; [|exact HL].
  destruct (findRef (hasId uid) (users st)) as [[b buyer]|] eqn:Eb;
    [|exact HL].
  destruct (_ <=? 0); [exact HL|].
  destruct (u_balance buyer <? l_price listing); [exact HL|].
  destruct (l_sellerId listing =? uid)%string; [exact HL|].
  pose proof (Ledger_shape _ _ _ _ HL) as HS.
  destruct HL as [[h [Hh _]] [Hsellers Hsum]].
  apply findRef_Some in El as [El _]. apply nth_error_In in El.
  rewrite Forall_forall in Hsellers. specialize (Hsellers _ El).
  destruct (findRef (hasId (l_sellerId listing)) (users st))
    as [[s su]|] eqn:Es; [|congruence].
  rewrite Hh. apply findRef_lt in Eb, Es, Hh.
  apply Ledger_intro; proj.
  - now apply Shape_sell, Shape_add, Shape_add, Shape_add.
  - rewrite !sumBalances_update_add; rewrite ?length_update; lia.
Qed.

Lemma applyRoulette_ledger j hid total st data ts uid silent n :
  uid <> hid ->
  Ledger j hid total st ->
  Ledger j hid total (fst (fst (applyRoulette gen st data ts uid silent n))).
Proof.
  intros Hne HL. unfold applyRoulette.
  destruct (findRef (hasId uid) (users st)) as [[i user]|] eqn:Ei;
    [|exact HL].
  pose proof (Ledger_shape _ _ _ _ HL) as HS.
  pose proof HL as [[h [Hh Hhid]] [_ Hsum]]. rewrite Hh.
  destruct (u_balance user <? 100); [exact HL|].
  assert (Hij : Nat.eqb j i = false).
  { apply Nat.eqb_neq. intros ->.
    apply findRef_Some in Ei as [Ei Hid], Hh as [Hh _].
    unfold hasId in Hid. apply String.eqb_eq in Hid. congruence. }
  apply findRef_lt in Ei, Hh.
  assert (Hsum1 : sumBalances
            (update j (addBalance 100)
               (update i (addBalance (- 100)) (users st))) = total)
    by (rewrite !sumBalances_update_add; rewrite ?length_update; lia).
  destruct (Qltb (d_roll data) 0.01).
  - destruct (_ >? 0) eqn:Ep; apply Ledger_intro; proj;
      try (now repeat first [apply Shape_add | apply Shape_set]);
      try exact Hsum1.
    rewrite sumBalances_update_set by (rewrite !length_update; lia).
    rewrite sumBalances_update_add by (rewrite !length_update; lia).
    rewrite (balanceAt_update i j), Hij. lia.
  - destruct (_ >? 0) eqn:Ep; apply Ledger_intro; proj;
      try (now repeat first [apply Shape_add | apply Shape_set]);
      try exact Hsum1.
    rewrite !sumBalances_update_add; rewrite ?length_update; lia.
Qed.

Lemma applyOperation_ledger j hid total st op n :
  conserving op ->
  (op_type op = "roulette" -> op_userId op <> hid) ->
  Ledger j hid total st ->
  Ledger j hid total (fst (fst (applyOperation gen st op n))).
Proof.
  intros Hc Hr HL. unfold applyOperation.
  destruct Hc as [Ht|[Ht|Ht]]; rewrite Ht in *; cbn [String.eqb Ascii.eqb Bool.eqb];
    destruct (op_data op) as [data|]; try exact HL.
  - now apply applyTransfer_ledger.
  - now apply applyBuyListing_ledger.
  - apply applyRoulette_ledger; auto.
Qed.

Lemma mergeStep_state r n op :
  state (fst (mergeStep gen r n op))
  = fst (fst (applyOperation gen (state r) op n)).
Proof.
  unfold mergeStep.
  now destruct (applyOperation gen (state r) op n) as [[st n'] [o|msg]].
Qed.

Lemma mergeLoop_ledger j hid total ops : forall r n,
  Forall conserving ops ->
  Forall (fun op => op_type op = "roulette" -> op_userId op <> hid) ops ->
  Ledger j hid total (state r) ->
  Ledger j hid total (state (fst (mergeLoop gen r n ops))).
Proof.
  induction ops as [|op ops IH]; intros r n Hc Hr HL; simpl; [exact HL|].
  inversion Hc; subst. inversion Hr; subst.
  pose proof (mergeStep_state r n op) as Hs.
  destruct (mergeStep gen r n op) as [r' n']. simpl in Hs.
  apply IH; auto. rewrite Hs. now apply applyOperation_ledger.
Qed.

Lemma Forall_batchOrder (P : Operation -> Prop) current ops :
  Forall P ops -> Forall P (batchOrder current ops).
Proof.
  rewrite !Forall_forall. intros H op Hin.
  apply batchOrder_In in Hin as [Hin _]. auto.
Qed.

(** C2 (amended): over a merge pass whose batch holds only [transfer],
    [buy_listing] and [roulette] operations, the balances of all users, the
    house account among them, add up to the same total before and after,
    provided that the house account exists, that the seller of every
    listing is among the users, and that no [roulette] operation is issued
    by the house account itself. *)
Theorem merge_conserves_total_balance
    (now now' : Z) (current : Snapshot) (ops : list Operation) (n : nat)
    (j : nat) (house : User) :
  Forall conserving ops ->
  findRef isJackpot (users (s_state current)) = Some (j, house) ->
  Forall (fun l => findRef (hasId (l_sellerId l)) (users (s_state current))
                   <> None)
         (listings (s_state current)) ->
  Forall (fun op => op_type op = "roulette" -> op_userId op <> u_id house)
         ops ->
  sumBalances (users (state (mergeOperations gen now now' current ops n)))
  = sumBalances (users (s_state current)).
Proof.
  intros Hc Hh Hs Hr. rewrite mergeOperations_eq. unfold prune. proj.
  apply (mergeLoop_ledger j (u_id house)
           (sumBalances (users (s_state current)))
           (batchOrder current ops) (initialResult current) n).
  - now apply Forall_batchOrder.
  - now apply Forall_batchOrder.
  - repeat split; eauto.
Qed.
End Conservation.

(** C2, as stated, fails.  Without a user of the reserved name a purchase
    credits the fee to nobody, and the total drops by it; when the seller
    of the listing is not a user, the seller's share is lost likewise; and
    when the house account itself plays the roulette and draws the
    jackpot, its balance is paid to itself and then set to zero. *)
Lemma purchase_without_house_account_loses_fee :
  let buy := buyOp "o1" "b" "L1" 5 in
  let spin := rouletteOp "o2" "h" 0.005%Q 6 in
  let r1 := mergeOperations counterIds 10 10 marketWithoutHouse [buy] 0 in
  let r2 := mergeOperations counterIds 10 10 marketWithoutSeller [buy] 0 in
  let r3 := mergeOperations counterIds 10 10 houseAlone [spin] 0 in
  conserving buy /\ conserving spin /\
  newConflicts r1 = [] /\ newConflicts r2 = [] /\ newConflicts r3 = [] /\
  sumBalances (users (s_state marketWithoutHouse)) = 1000 /\
  sumBalances (users (state r1)) = 990 /\
  sumBalances (users (s_state marketWithoutSeller)) = 1000 /\
  sumBalances (users (state r2)) = 910 /\
  sumBalances (users (s_state houseAlone)) = 500 /\
  sumBalances (users (state r3)) = 0.
Proof.
  cbv zeta. split; [right; left; reflexivity|].
  split; [right; right; reflexivity|].
  vm_compute. repeat split; reflexivity.
Qed.

Lemma merge_conserves_total_balance_witness :
  let ops := [buyOp "o1" "b" "L1" 5; transferOp "o2" "b" "s" 300 6;
              rouletteOp "o3" "b" 0.5%Q 7] in
  let r := mergeOperations counterIds 10 10 market ops 0 in
  map u_balance (users (state r)) = [550; 390; 60] /\
  sumBalances (users (state r)) = sumBalances (users (s_state market)).
Proof.
  cbv zeta. split; [vm_compute; reflexivity|].
  apply (merge_conserves_total_balance counterIds 10 10 market _ 0
           2 (sampleUser "h" jackpotName 0)).
  - repeat apply Forall_cons; try apply Forall_nil;
      unfold conserving; simpl; auto.
  - reflexivity.
  - repeat apply Forall_cons; try apply Forall_nil. discriminate.
  - repeat apply Forall_cons; try apply Forall_nil; simpl;
      intros H; try discriminate H; intros H'; discriminate H'.
Defined.

(** ** What the handlers do to the listings and to the version counter *)

(** Case analysis over every branch of a handler. *)
Ltac handler_cases :=
  repeat match goal with
         | |- context [match ?x with _ => _ end] => destruct x eqn:?
         end.

Section Handlers.
Variable gen : nat -> string.

Lemma applyTransfer_listings st data ts uid silent n :
  listings (fst (fst (applyTransfer gen st data ts uid silent n)))
  = listings st.
Proof. unfold applyTransfer. handler_cases; proj; reflexivity. Qed.

Lemma applyRegisterUser_listings st data ts silent n :
  listings (fst (fst (applyRegisterUser gen st data ts silent n)))
  = listings st.
Proof. unfold applyRegisterUser. handler_cases; proj; reflexivity. Qed.

Lemma applyMorningClaim_listings st ts uid silent n :
  listings (fst (fst (applyMorningClaim gen st ts uid silent n)))
  = listings st.
Proof. unfold applyMorningClaim. handler_cases; proj; reflexivity. Qed.

Lemma applyRoulette_listings st data ts uid silent n :
  listings (fst (fst (applyRoulette gen st data ts uid silent n)))
  = listings st.
Proof. unfold applyRoulette. handler_cases; proj; reflexivity. Qed.

Lemma applyBuyerRequest_listings st data ts uid silent n :
  listings (fst (fst (applyBuyerRequest gen st data ts uid silent n)))
  = listings st.
Proof.
  unfold applyBuyerRequest, rightDone. handler_cases; proj; reflexivity.
Qed.

Lemma applySellerRespond_listings st data ts uid silent n :
  listings (fst (fst (applySellerRespond gen st data ts uid silent n)))
  = listings st.
Proof.
  unfold applySellerRespond, rightDone. handler_cases; proj; reflexivity.
Qed.

Lemma applyReportExecution_listings st data ts uid silent n :
  listings (fst (fst (applyReportExecution gen st data ts uid silent n)))
  = listings st.
Proof.
  unfold applyReportExecution, rightDone. handler_cases; proj; reflexivity.
Qed.

Lemma applyBuyerConfirm_listings st data ts uid silent n :
  listings (fst (fst (applyBuyerConfirm gen st data ts uid silent n)))
  = listings st.
Proof.
  unfold applyBuyerConfirm, rightDone. handler_cases; proj; reflexivity.
Qed.

Lemma applyBuyerReject_listings st data ts uid silent n :
  listings (fst (fst (applyBuyerReject gen st data ts uid silent n)))
  = listings st.
Proof.
  unfold applyBuyerReject, rightDone. handler_cases; proj; reflexivity.
Qed.

Lemma applySendMessage_listings st data ts n :
  listings (fst (fst (applySendMessage gen st data ts n))) = listings st.
Proof. unfold applySendMessage. handler_cases; proj; reflexivity. Qed.

(** No handler lowers [vTick]. *)
Lemma applyOperation_vTick st op n :
  vTick st <= vTick (fst (fst (applyOperation gen st op n))).
Proof.
  unfold applyOperation, applyTransfer, applyBuyListing, applyCreateListing,
    applyToggleListing, applyDeleteListing, applyRegisterUser,
    applyMorningClaim, applyRoulette, applyBuyerRequest, applySellerRespond,
    applyReportExecution, applyBuyerConfirm, applyBuyerReject,
    applySellerRefund, applyBuyerFinalize, applySendMessage, rightDone.
  handler_cases; proj; lia.
Qed.

Lemma mergeLoop_vTick ops : forall r n,
  vTick (state r) <= vTick (state (fst (mergeLoop gen r n ops))).
Proof.
  induction ops as [|op ops IH]; intros r n; simpl; [lia|].
  pose proof (mergeStep_state gen r n op) as Hs.
  pose proof (applyOperation_vTick (state r) op n) as Hv.
  destruct (mergeStep gen r n op) as [r' n']. simpl in Hs.
  specialize (IH r' n'). rewrite Hs in IH. lia.
Qed.

(** [vTick] does not decrease across a merge pass. *)
Lemma mergeOperations_vTick now now' current ops n :
  vTick (s_state current)
  <= vTick (state (mergeOperations gen now now' current ops n)).
Proof.
  rewrite mergeOperations_eq. unfold prune. proj.
  apply (mergeLoop_vTick (batchOrder current ops) (initialResult current) n).
Qed.
End Handlers.

(** ** The stock invariant *)

Section Stock.
Variable gen : nat -> string.

(** A property of listings that a sale with stock left, a restocking and
    the creation of a listing from a payload satisfying [C] preserve. *)
Variable P : Listing -> Prop.
Variable C : Data -> Prop.
Hypothesis P_sell : forall l,
  P l -> 0 < (if l_qty l =? 0 then 1 else l_qty l) - l_sold l ->
  P (sellOne l).
Hypothesis P_restock : forall l, P l -> P (restock l).
Hypothesis P_create : forall i data seller ts,
  C data ->
  P (mkListing i (d_title data) (d_price data) (d_desc data) seller true ts
               (if d_qty data =? 0 then 1 else d_qty data) 0).

Lemma Forall_update_at {A : Type} (Q : A -> Prop) (f : A -> A) (l : list A) :
  forall i x, Forall Q l -> nth_error l i = Some x -> Q (f x) ->
  Forall Q (update i f l).
Proof.
  induction l as [|y l IH]; intros [|i] x Hl Hx Hf; simpl in *;
    try discriminate; inversion Hl; subst; constructor; auto.
  - now inversion Hx; subst.
  - eapply IH; eauto.
Qed.

Lemma Forall_nth {A : Type} (Q : A -> Prop) (l : list A) i x :
  Forall Q l -> nth_error l i = Some x -> Q x.
Proof.
  intros Hl Hx. rewrite Forall_forall in Hl. apply Hl.
  eapply nth_error_In; eauto.
Qed.

Lemma applyBuyListing_stock st data ts uid silent n :
  Forall P (listings st) ->
  Forall P (listings (fst (fst (applyBuyListing gen st data ts uid silent n)))).
Proof.
  intros HP. unfold applyBuyListing.
  destruct (findRef _ (listings st)) as [[li listing]|] eqn:El; [|exact HP].
  destruct (findRef (hasId uid) (users st)) as [[b buyer]|]; [|exact HP].
  destruct (_ <=? 0) eqn:Estock; [exact HP|].
  destruct (u_balance buyer <? l_price listing); [exact HP|].
  destruct (l_sellerId listing =? uid)%string; [exact HP|].
  proj. apply findRef_Some in El as [El _].
  eapply Forall_update_at; eauto.
  apply P_sell; [eapply Forall_nth; eauto|].
  apply Z.leb_gt in Estock. lia.
Qed.

Lemma applyCreateListing_stock st data ts uid n :
  C data ->
  Forall P (listings st) ->
  Forall P (listings (fst (fst (applyCreateListing gen st data ts uid n)))).
Proof.
  intros Hq HP. unfold applyCreateListing. proj.
  constructor; [now apply P_create | exact HP].
Qed.

Lemma applyToggleListing_stock st data uid n :
  (forall l, P l -> P (setActive (negb (l_active l)) l)) ->
  Forall P (listings st) ->
  Forall P (listings (fst (fst (applyToggleListing st data uid n)))).
Proof.
  intros Hflip HP. unfold applyToggleListing.
  destruct (findRef _ (listings st)) as [[li listing]|]; [|exact HP].
  destruct (negb _); [exact HP|].
  proj. now apply Forall_update.
Qed.

Lemma applyDeleteListing_stock st data uid n :
  Forall P (listings st) ->
  Forall P (listings (fst (fst (applyDeleteListing st data uid n)))).
Proof.
  intros HP. unfold applyDeleteListing.
  destruct (findRef _ (listings st)) as [[idx listing]|]; [|exact HP].
  destruct (negb _); [exact HP|].
  destruct (_ >? 0); [exact HP|].
  proj. rewrite Forall_forall in *. intros l Hl.
  apply HP. eapply In_splice1; eauto.
Qed.

Lemma applyBuyerFinalize_stock st data ts uid silent n :
  Forall P (listings st) ->
  Forall P
    (listings (fst (fst (applyBuyerFinalize gen st data ts uid silent n)))).
Proof.
  intros HP. unfold applyBuyerFinalize, rightDone.
  handler_cases; proj; try exact HP.
  all: now apply Forall_update.
Qed.

Lemma applySellerRefund_stock st data ts uid silent n :
  Forall P (listings st) ->
  Forall P
    (listings (fst (fst (applySellerRefund gen st data ts uid silent n)))).
Proof.
  intros HP. unfold applySellerRefund.
  handler_cases; proj; try exact HP.
  all: now apply Forall_update.
Qed.

(** Every handler keeps [P] on all listings; [toggle_listing] does when
    [P] does not depend on the flag it flips. *)
Lemma applyOperation_stock st op n :
  createOk C op ->
  op_type op <> "toggle_listing"
  \/ (forall l, P l -> P (setActive (negb (l_active l)) l)) ->
  Forall P (listings st) ->
  Forall P (listings (fst (fst (applyOperation gen st op n)))).
Proof.
  intros Hq Htoggle HP. unfold applyOperation.
  repeat match goal with
         | |- context [if (?a =? ?b)%string then _ else _] =>
             destruct (String.eqb a b) eqn:?
         end;
    try (destruct (op_data op) as [data|] eqn:Edata; [|exact HP]);
    try exact HP.
  - now rewrite applyTransfer_listings.
  - now apply applyBuyListing_stock.
  - apply applyCreateListing_stock; [|exact HP].
    apply Hq; [now apply String.eqb_eq | exact Edata].
  - destruct Htoggle as [Hno|Hflip].
    + exfalso. apply Hno. now apply String.eqb_eq.
    + now apply applyToggleListing_stock.
  - now apply applyDeleteListing_stock.
  - now rewrite applyRegisterUser_listings.
  - now rewrite applyMorningClaim_listings.
  - now rewrite applyRoulette_listings.
  - now rewrite applyBuyerRequest_listings.
  - now rewrite applySellerRespond_listings.
  - now rewrite applyReportExecution_listings.
  - now rewrite applyBuyerConfirm_listings.
  - now rewrite applyBuyerReject_listings.
  - now apply applySellerRefund_stock.
  - now apply applyBuyerFinalize_stock.
  - now rewrite applySendMessage_listings.
Qed.


End Stock.











(** ** Solvency under payloads of the right sign *)

Section Solvency.
Variable gen : nat -> string.

Lemma Forall_update_nth {A : Type} (Q : A -> Prop) (f : A -> A) (l : list A) :
  forall i, Forall Q l -> (forall x, nth_error l i = Some x -> Q (f x)) ->
  Forall Q (update i f l).
Proof.
  induction l as [|y l IH]; intros [|i] Hl Hf; simpl;
    inversion Hl; subst; constructor; auto.
Qed.

Lemma userOk_credit k d us :
  0 <= d -> Forall userOk us -> Forall userOk (update k (addBalance d) us).
Proof.
  intros Hd. apply Forall_update. intros u [Hb Hs].
  split; simpl; lia.
Qed.

Lemma userOk_debit k d us :
  Forall userOk us ->
  (forall x, nth_error us k = Some x -> d <= u_balance x) ->
  Forall userOk (update k (addBalance (- d)) us).
Proof.
  intros Hus Hd. apply Forall_update_nth; [exact Hus|].
  intros x Hx. pose proof (Forall_nth userOk us k x Hus Hx) as [_ Hs].
  specialize (Hd x Hx). split; simpl; lia.
Qed.

Lemma userOk_set k b us :
  0 <= b -> Forall userOk us -> Forall userOk (update k (setBalance b) us).
Proof.
  intros Hb. apply Forall_update. intros u [_ Hs]. split; simpl; lia.
Qed.

Lemma found_balance (p : User -> bool) us i u x :
  findRef p us = Some (i, u) -> nth_error us i = Some x ->
  u_balance x = u_balance u.
Proof. intros H Hx. apply findRef_Some in H as [H _]. congruence. Qed.

Lemma found_price (p : Listing -> bool) ls i l :
  Forall priceOk ls -> findRef p ls = Some (i, l) -> 0 <= l_price l.
Proof.
  intros Hls H. apply findRef_Some in H as [H _].
  exact (Forall_nth priceOk ls i l Hls H).
Qed.

Lemma applyTransfer_users st data ts uid silent n :
  0 <= d_amount data ->
  Forall userOk (users st) ->
  Forall userOk (users (fst (fst (applyTransfer gen st data ts uid silent n)))).
Proof.
  intros Ha HU. unfold applyTransfer.
  destruct (findRef (hasId uid) (users st)) as [[from fu]|] eqn:Ef;
    [|exact HU].
  destruct (findRef (hasId (d_toId data)) (users st)) as [[to tu]|];
    [|exact HU].
  destruct (u_balance fu <? d_amount data) eqn:E; [exact HU|].
  apply Z.ltb_ge in E. proj.
  apply userOk_credit; [exact Ha|]. apply userOk_debit; [exact HU|].
  intros x Hx. rewrite (found_balance _ _ _ _ _ Ef Hx). exact E.
Qed.

Lemma applyBuyListing_users st data ts uid silent n :
  Solvent st ->
  Forall userOk
    (users (fst (fst (applyBuyListing gen st data ts uid silent n)))).
Proof.
  intros [HU HL]. unfold applyBuyListing.
  destruct (findRef _ (listings st)) as [[li listing]|] eqn:El; [|exact HU].
  destruct (findRef (hasId uid) (users st)) as [[b buyer]|] eqn:Eb;
    [|exact HU].
  destruct (_ <=? 0); [exact HU|].
  destruct (u_balance buyer <? l_price listing) eqn:E; [exact HU|].
  destruct (l_sellerId listing =? uid)%string; [exact HU|].
  apply Z.ltb_ge in E. pose proof (found_price _ _ _ _ HL El) as Hp.
  assert (Hfee : 0 <= l_price listing / 10) by (apply Z.div_pos; lia).
  assert (Hrest : 0 <= l_price listing - l_price listing / 10)
    by (pose proof (Z.mul_div_le (l_price listing) 10); lia).
  assert (H1 : Forall userOk
                 (update b (addBalance (- l_price listing)) (users st))).
  { apply userOk_debit; [exact HU|]. intros x Hx.
    rewrite (found_balance _ _ _ _ _ Eb Hx). exact E. }
  proj.
  destruct (findRef (hasId (l_sellerId listing)) (users st)) as [[s su]|],
           (findRef isJackpot (users st)) as [[j ju]|];
    repeat (apply userOk_credit; [assumption|]); exact H1.
Qed.

Lemma applyRegisterUser_users st data ts silent n :
  Forall userOk (users st) ->
  Forall userOk
    (users (fst (fst (applyRegisterUser gen st data ts silent n)))).
Proof.
  intros HU. unfold applyRegisterUser.
  destruct (existsb _ (users st)); [exact HU|]. proj.
  apply Forall_app. split; [exact HU|].
  constructor; [|constructor]. split; simpl; lia.
Qed.

Lemma applyMorningClaim_users st ts uid silent n :
  Forall userOk (users st) ->
  Forall userOk
    (users (fst (fst (applyMorningClaim gen st ts uid silent n)))).
Proof.
  intros HU. unfold applyMorningClaim.
  destruct (findRef (hasId uid) (users st)) as [[i user]|] eqn:Ei;
    [|exact HU].
  destruct (_ || _); [exact HU|].
  destruct (match u_lastMorningDate user with
            | Some d => d =? ts / 86400000
            | None => false
            end); [exact HU|].
  apply findRef_Some in Ei as [Ei _].
  pose proof (Forall_nth userOk _ _ _ HU Ei) as [_ Hs]. proj.
  apply Forall_update; [|exact HU].
  intros u [Hb _].
  split; cbn [u_balance u_streakCount addBalance setStreak];
    destruct (u_lastMorningDate user) as [d|];
    try destruct (ts / 86400000 - d =? 1); lia.
Qed.

Lemma applyRoulette_users st data ts uid silent n :
  Forall userOk (users st) ->
  Forall userOk (users (fst (fst (applyRoulette gen st data ts uid silent n)))).
Proof.
  intros HU. unfold applyRoulette.
  destruct (findRef (hasId uid) (users st)) as [[i user]|] eqn:Ei;
    [|exact HU].
  destruct (findRef isJackpot (users st)) as [[j jackpot]|]; [|exact HU].
  destruct (u_balance user <? 100) eqn:E; [exact HU|].
  apply Z.ltb_ge in E.
  assert (H1 : Forall userOk
                 (update j (addBalance 100)
                    (update i (addBalance (- 100)) (users st)))).
  { apply userOk_credit; [lia|].
    apply (userOk_debit i 100); [exact HU|].
    intros x Hx. rewrite (found_balance _ _ _ _ _ Ei Hx). exact E. }
  set (us1 := update j (addBalance 100)
                (update i (addBalance (- 100)) (users st))) in *.
  destruct (Qltb (d_roll data) 0.01).
  - destruct (balanceAt j us1 >? 0) eqn:Ep; proj; [|exact H1].
    apply Z.gtb_lt in Ep.
    apply userOk_set; [lia|]. apply userOk_credit; [lia | exact H1].
  - set (payout := match drawPrize (d_roll data) 0 prizes with
                   | Some v => Z.min (balanceAt j us1) v
                   | None => 0
                   end).
    assert (Hle : payout > 0 -> payout <= balanceAt j us1)
      by (unfold payout; destruct (drawPrize (d_roll data) 0 prizes); lia).
    destruct (payout >? 0) eqn:Ep; proj; [|exact H1].
    apply Z.gtb_lt in Ep.
    apply userOk_debit; [apply userOk_credit; [lia | exact H1]|].
    intros x. rewrite nth_error_update.
    destruct (Nat.eqb j i).
    + destruct (nth_error us1 j) as [u|] eqn:Eu; [|discriminate].
      intros Hx. inversion Hx; subst x. simpl.
      pose proof (Forall_nth userOk _ _ _ H1 Eu) as [Hb _]. lia.
    + intros Hx. unfold balanceAt in Hle. rewrite Hx in Hle. lia.
Qed.

(** Refund of [d] from the seller at [s] to the buyer at [b]. *)
Lemma refund_users us s b d (p : User -> bool) seller :
  Forall userOk us -> 0 <= d ->
  findRef p us = Some (s, seller) -> d <= u_balance seller ->
  Forall userOk (update b (addBalance d) (update s (addBalance (- d)) us)).
Proof.
  intros HU Hd Es Hle. apply userOk_credit; [exact Hd|].
  apply userOk_debit; [exact HU|].
  intros x Hx. rewrite (found_balance _ _ _ _ _ Es Hx). exact Hle.
Qed.

Lemma applyBuyerFinalize_users st data ts uid silent n :
  Solvent st ->
  Forall userOk
    (users (fst (fst (applyBuyerFinalize gen st data ts uid silent n)))).
Proof.
  intros [HU HL]. unfold applyBuyerFinalize, rightDone.
  destruct (findRef _ (rights st)) as [[k r]|]; [|exact HU].
  destruct (negb _); [exact HU|].
  destruct (status_eqb (r_status r) seller_executed); [proj; exact HU|].
  destruct (status_eqb (r_status r) seller_cancel_requested); [|exact HU].
  destruct (findRef _ (listings st)) as [[li l]|] eqn:El; [|exact HU].
  destruct (findRef (hasId (r_sellerId r)) (users st)) as [[s seller]|] eqn:Es;
    [|exact HU].
  destruct (findRef (hasId (r_buyerId r)) (users st)) as [[b buyer]|];
    [|exact HU].
  destruct (u_balance seller <? 9 * l_price l / 10) eqn:E; [exact HU|].
  apply Z.ltb_ge in E. pose proof (found_price _ _ _ _ HL El) as Hp. proj.
  eapply refund_users; eauto. apply Z.div_pos; lia.
Qed.

Lemma applySellerRefund_users st data ts uid silent n :
  Solvent st ->
  Forall userOk
    (users (fst (fst (applySellerRefund gen st data ts uid silent n)))).
Proof.
  intros [HU HL]. unfold applySellerRefund.
  destruct (findRef _ (rights st)) as [[k r]|]; [|exact HU].
  destruct (negb (r_sellerId r =? uid)%string); [exact HU|].
  destruct (negb _); [exact HU|].
  destruct (findRef _ (listings st)) as [[li l]|] eqn:El; [|exact HU].
  destruct (findRef (hasId (r_sellerId r)) (users st)) as [[s seller]|] eqn:Es;
    [|exact HU].
  destruct (findRef (hasId (r_buyerId r)) (users st)) as [[b buyer]|];
    [|exact HU].
  pose proof (found_price _ _ _ _ HL El) as Hp.
  set (refundAmount := if d_amount data >? 0
                       then Z.min (d_amount data) (l_price l)
                       else l_price l).
  assert (Hr : 0 <= refundAmount).
  { unfold refundAmount. destruct (d_amount data >? 0) eqn:Ea; [|exact Hp].
    apply Z.gtb_lt in Ea. lia. }
  destruct (u_balance seller <? refundAmount) eqn:E; [exact HU|].
  apply Z.ltb_ge in E. proj.
  eapply refund_users; eauto.
Qed.

(** The handlers that leave the users alone. *)
Lemma other_handlers_users st data ts uid silent n :
  users (fst (fst (applyCreateListing gen st data ts uid n))) = users st /\
  users (fst (fst (applyToggleListing st data uid n))) = users st /\
  users (fst (fst (applyDeleteListing st data uid n))) = users st /\
  users (fst (fst (applyBuyerRequest gen st data ts uid silent n)))
    = users st /\
  users (fst (fst (applySellerRespond gen st data ts uid silent n)))
    = users st /\
  users (fst (fst (applyReportExecution gen st data ts uid silent n)))
    = users st /\
  users (fst (fst (applyBuyerConfirm gen st data ts uid silent n)))
    = users st /\
  users (fst (fst (applyBuyerReject gen st data ts uid silent n)))
    = users st /\
  users (fst (fst (applySendMessage gen st data ts n))) = users st.
Proof.
  unfold applyCreateListing, applyToggleListing, applyDeleteListing,
    applyBuyerRequest, applySellerRespond, applyReportExecution,
    applyBuyerConfirm, applyBuyerReject, applySendMessage, rightDone.
  repeat split; handler_cases; proj; reflexivity.
Qed.

Lemma priceOk_stays st op n :
  signOk op -> Forall priceOk (listings st) ->
  Forall priceOk (listings (fst (fst (applyOperation gen st op n)))).
Proof.
  intros Hs. apply (applyOperation_stock gen priceOk
                      (fun data => 0 <= d_price data)).
  - intros l Hl _. unfold priceOk, sellOne in *. simpl.
    now destruct (l_sold l + 1 >=? l_qty l).
  - intros l Hl. unfold priceOk, restock in *. simpl.
    now destruct (Z.max 0 (l_sold l - 1) <? l_qty l).
  - intros i data seller ts Hd. exact Hd.
  - intros Ht data Hd. now apply (Hs data Hd).
  - right. intros l Hl. exact Hl.
Qed.

Lemma applyOperation_solvent st op n :
  signOk op -> Solvent st ->
  Solvent (fst (fst (applyOperation gen st op n))).
Proof.
  intros Hs HS. split; [|apply priceOk_stays; [exact Hs | apply HS]].
  pose proof HS as [HU _]. unfold applyOperation.
  repeat match goal with
         | |- context [if (?a =? ?b)%string then _ else _] =>
             destruct (String.eqb a b) eqn:?
         end;
    try (destruct (op_data op) as [data|] eqn:Edata; [|exact HU]);
    try exact HU;
    try (destruct (other_handlers_users st data (op_timestamp op)
                     (op_userId op) (op_silent op) n)
           as (H1 & H2 & H3 & H4 & H5 & H6 & H7 & H8 & H9);
         first [rewrite H1 | rewrite H2 | rewrite H3 | rewrite H4
               | rewrite H5 | rewrite H6 | rewrite H7 | rewrite H8
               | rewrite H9]; exact HU).
  - apply applyTransfer_users; [|exact HU].
    apply (Hs data Edata). now apply String.eqb_eq.
  - now apply applyBuyListing_users.
  - now apply applyRegisterUser_users.
  - now apply applyMorningClaim_users.
  - now apply applyRoulette_users.
  - now apply applySellerRefund_users.
  - now apply applyBuyerFinalize_users.
Qed.

Lemma mergeLoop_solvent ops : forall r n,
  Forall signOk ops -> Solvent (state r) ->
  Solvent (state (fst (mergeLoop gen r n ops))).
Proof.
  induction ops as [|op ops IH]; intros r n Hs HS; simpl; [exact HS|].
  inversion Hs; subst.
  pose proof (mergeStep_state gen r n op) as Hst.
  destruct (mergeStep gen r n op) as [r' n']. simpl in Hst.
  apply IH; auto. rewrite Hst. now apply applyOperation_solvent.
Qed.

(** With transfers and listings of non-negative amount, no balance becomes
    negative in a state reached by merge passes from a solvent one. *)
Lemma balances_stay_nonnegative s0 s :
  Solvent (s_state s0) -> Reachable gen signOk s0 s ->
  Forall (fun u => 0 <= u_balance u) (users (s_state s)).
Proof.
  intros H0 Hr.
  assert (HS : Solvent (s_state s)).
  { induction Hr as [|s now now' lastUpdate ops n _ IH Hok]; [exact H0|].
    cbn [toSave s_state]. rewrite mergeOperations_eq. unfold prune.
    destruct (mergeLoop_solvent (batchOrder s ops) (initialResult s) n)
      as [HU HL]; [now apply Forall_batchOrder | exact IH |].
    split; proj; assumption. }
  destruct HS as [HU _]. eapply Forall_impl; [|exact HU].
  now intros u [Hb _].
Qed.
End Solvency.

(** ** Rejected operations *)

(** Every handler unfolded, for case analyses over the whole dispatcher. *)
Ltac unfold_handlers :=
  unfold applyOperation, applyTransfer, applyBuyListing, applyCreateListing,
    applyToggleListing, applyDeleteListing, applyRegisterUser,
    applyMorningClaim, applyRoulette, applyBuyerRequest, applySellerRespond,
    applyReportExecution, applyBuyerConfirm, applyBuyerReject,
    applySellerRefund, applyBuyerFinalize, applySendMessage, rightDone,
    isConflict, success.

Lemma rejected_operation_aux gen st op n st' n' c :
  applyOperation gen st op n = (st', n', c) ->
  match c with
  | Returned o =>
      conflict o = true ->
      st' = st /\ n' = n /\ createdUser o = None /\ createdTxs o = [] /\
      createdRight o = None /\ updatedRight o = None /\
      updatedListing o = None /\ deletedListingId o = None
  | Thrown _ => st' = st /\ n' = n
  end.
Proof.
  unfold_handlers.
  handler_cases; intros H; inversion H; subst;
    cbn [conflict createdUser createdTxs createdRight
         updatedRight updatedListing deletedListingId];
    intros; try discriminate; repeat split; reflexivity.
Qed.

(** X1: an operation that is answered with a conflict, or whose handler
    throws, leaves the whole state and the id source where they were, and
    reports nothing created, updated or deleted. *)
Theorem rejected_operation_changes_nothing
    (gen : nat -> string) (st : State) (op : Operation) (n : nat) :
  match applyOperation gen st op n with
  | (st', n', Returned o) =>
      conflict o = true ->
      st' = st /\ n' = n /\ createdUser o = None /\ createdTxs o = [] /\
      createdRight o = None /\ updatedRight o = None /\
      updatedListing o = None /\ deletedListingId o = None
  | (st', n', Thrown _) => st' = st /\ n' = n
  end.
Proof.
  destruct (applyOperation gen st op n) as [[st' n'] c] eqn:E.
  exact (rejected_operation_aux gen st op n st' n' c E).
Qed.

(** ** The transaction log *)

Section TransactionLog.
Variable gen : nat -> string.

Lemma applyOperation_txs st op n st' n' c :
  applyOperation gen st op n = (st', n', c) ->
  match c with
  | Returned o =>
      txs st' = rev (createdTxs o) ++ txs st /\
      (op_silent op = true -> createdTxs o = [])
  | Thrown _ => txs st' = txs st
  end.
Proof.
  unfold_handlers. unfold logTx, txList.
  handler_cases; intros H; inversion H; subst;
    try reflexivity; (split; [reflexivity|]);
    intros Hs; solve [reflexivity | congruence].
Qed.

Lemma mergeStep_txs r n op base :
  txs (state r) = rev (newTxs r) ++ base ->
  txs (state (fst (mergeStep gen r n op)))
  = rev (newTxs (fst (mergeStep gen r n op))) ++ base.
Proof.
  intros Hr. unfold mergeStep.
  destruct (applyOperation gen (state r) op n) as [[st n'] c] eqn:E.
  pose proof (applyOperation_txs _ _ _ _ _ _ E) as H.
  destruct c as [o|msg]; cbn [fst state newTxs].
  - destruct H as [H _]. rewrite H, Hr, rev_app_distr, app_assoc.
    reflexivity.
  - now rewrite H.
Qed.

Lemma mergeLoop_txs ops base : forall r n,
  txs (state r) = rev (newTxs r) ++ base ->
  txs (state (fst (mergeLoop gen r n ops)))
  = rev (newTxs (fst (mergeLoop gen r n ops))) ++ base.
Proof.
  induction ops as [|op ops IH]; intros r n Hr; simpl; [exact Hr|].
  pose proof (mergeStep_txs r n op base Hr) as Hs.
  destruct (mergeStep gen r n op) as [r' n']. now apply IH.
Qed.

(** X2: the transaction log is only ever extended at its front, and the
    transactions a merge pass reports as new are exactly the ones it put
    there: the log after the pass is the reported list, newest first,
    followed by the log before the pass. *)
Theorem merge_reports_exactly_the_new_transactions
    (now now' : Z) (current : Snapshot) (ops : list Operation) (n : nat) :
  let r := mergeOperations gen now now' current ops n in
  txs (state r) = rev (newTxs r) ++ txs (s_state current).
Proof.
  cbv zeta. rewrite mergeOperations_eq. unfold prune.
  cbn [state newTxs txs setNotifications].
  now apply mergeLoop_txs.
Qed.

Lemma mergeStep_silent r n op :
  op_silent op = true ->
  txs (state (fst (mergeStep gen r n op))) = txs (state r) /\
  newTxs (fst (mergeStep gen r n op)) = newTxs r.
Proof.
  intros Hs. unfold mergeStep.
  destruct (applyOperation gen (state r) op n) as [[st n'] c] eqn:E.
  pose proof (applyOperation_txs _ _ _ _ _ _ E) as H.
  destruct c as [o|msg]; cbn [fst state newTxs].
  - destruct H as [H H']. rewrite H, (H' Hs), app_nil_r. now split.
  - now split.
Qed.

Lemma mergeLoop_silent ops : forall r n,
  Forall (fun op => op_silent op = true) ops ->
  txs (state (fst (mergeLoop gen r n ops))) = txs (state r) /\
  newTxs (fst (mergeLoop gen r n ops)) = newTxs r.
Proof.
  induction ops as [|op ops IH]; intros r n Hs; simpl; [now split|].
  inversion Hs; subst.
  pose proof (mergeStep_silent r n op H1) as [Ht Hn].
  destruct (mergeStep gen r n op) as [r' n']. simpl in Ht, Hn.
  destruct (IH r' n' H2) as [Ht' Hn']. split; congruence.
Qed.

(** X3: a batch of which every operation carries the silent flag leaves
    the transaction log as it was and reports no new transaction, whatever
    the operations do to balances, listings and rights. *)
Theorem silent_batch_logs_no_transaction
    (now now' : Z) (current : Snapshot) (ops : list Operation) (n : nat) :
  Forall (fun op => op_silent op = true) ops ->
  let r := mergeOperations gen now now' current ops n in
  txs (state r) = txs (s_state current) /\ newTxs r = [].
Proof.
  intros Hs. cbv zeta. rewrite mergeOperations_eq. unfold prune.
  cbn [state newTxs txs setNotifications].
  apply (mergeLoop_silent (batchOrder current ops) (initialResult current) n).
  now apply Forall_batchOrder.
Qed.
End TransactionLog.

(** ** The users *)

Section Users.
Variable gen : nat -> string.

Lemma map_update_inv {A B : Type} (g : A -> B) (f : A -> A) (i : nat)
    (l : list A) :
  (forall x, g (f x) = g x) -> map g (update i f l) = map g l.
Proof.
  intros Hg. revert i. induction l as [|x l IH]; intros [|i]; simpl;
    try reflexivity.
  - now rewrite Hg.
  - now rewrite IH.
Qed.

Lemma applyOperation_users st op n st' n' c :
  applyOperation gen st op n = (st', n', c) ->
  map userKey (users st') =
  map userKey (users st)
  ++ map userKey (match c with
                  | Returned o => optList (createdUser o)
                  | Thrown _ => []
                  end).
Proof.
  unfold_handlers. unfold logTx.
  handler_cases; intros H; inversion H; subst;
    cbn [users bumpVTick setUsers setListings setRights setNotifications
         createdUser optList map];
    rewrite ?map_update_inv by (intros; reflexivity);
    rewrite ?map_app, ?app_nil_r; reflexivity.
Qed.

Lemma created_user_name_is_new st op n st' n' o u :
  applyOperation gen st op n = (st', n', Returned o) ->
  createdUser o = Some u ->
  ~ In (u_name u) (map u_name (users st)).
Proof.
  unfold_handlers.
  handler_cases; intros H; inversion H; subst; cbn [createdUser];
    intros Hu; try discriminate Hu.
  inversion Hu; subst u. cbn [u_name]. intros Hin.
  apply in_map_iff in Hin as [x [Hx Hin]].
  match goal with
  | E : existsb ?p ?l = false |- _ =>
      assert (Ht : existsb p l = true)
        by (apply existsb_exists; exists x; split;
            [exact Hin | now apply String.eqb_eq]);
      congruence
  end.
Qed.

Lemma mergeStep_users r n op base :
  map userKey (users (state r)) = base ++ map userKey (newUsers r) ->
  map userKey (users (state (fst (mergeStep gen r n op))))
  = base ++ map userKey (newUsers (fst (mergeStep gen r n op))).
Proof.
  intros Hr. unfold mergeStep.
  destruct (applyOperation gen (state r) op n) as [[st n'] c] eqn:E.
  pose proof (applyOperation_users _ _ _ _ _ _ E) as H.
  destruct c as [o|msg]; cbn [fst state newUsers]; rewrite H, Hr.
  - now rewrite map_app, app_assoc.
  - now rewrite app_nil_r.
Qed.

Lemma mergeLoop_users ops base : forall r n,
  map userKey (users (state r)) = base ++ map userKey (newUsers r) ->
  map userKey (users (state (fst (mergeLoop gen r n ops))))
  = base ++ map userKey (newUsers (fst (mergeLoop gen r n ops))).
Proof.
  induction ops as [|op ops IH]; intros r n Hr; simpl; [exact Hr|].
  pose proof (mergeStep_users r n op base Hr) as Hs.
  destruct (mergeStep gen r n op) as [r' n']. now apply IH.
Qed.

(** X4: no operation removes a user or changes a user's id, name or
    credential hash: after a merge pass the users are, in order, those of
    before the pass followed by the ones the pass reports as new. *)
Theorem merge_keeps_users_and_appends_new_ones
    (now now' : Z) (current : Snapshot) (ops : list Operation) (n : nat) :
  let r := mergeOperations gen now now' current ops n in
  map userKey (users (state r)) =
  map userKey (users (s_state current)) ++ map userKey (newUsers r).
Proof.
  cbv zeta. rewrite mergeOperations_eq. unfold prune.
  cbn [state newUsers users setNotifications].
  apply mergeLoop_users. cbn [initialResult state newUsers map].
  now rewrite app_nil_r.
Qed.

Lemma names_of_keys (l : list User) :
  map u_name l = map (fun k => snd (fst k)) (map userKey l).
Proof. rewrite map_map. reflexivity. Qed.

Lemma applyOperation_names st op n :
  NoDup (map u_name (users st)) ->
  NoDup (map u_name (users (fst (fst (applyOperation gen st op n))))).
Proof.
  intros Hn.
  destruct (applyOperation gen st op n) as [[st' n'] c] eqn:E.
  pose proof (applyOperation_users _ _ _ _ _ _ E) as H.
  cbn [fst]. rewrite (names_of_keys (users st')), H, map_app.
  rewrite <- !names_of_keys.
  destruct c as [o|msg]; [|now rewrite app_nil_r].
  destruct (createdUser o) as [u|] eqn:Eu; cbn [optList map];
    [|now rewrite app_nil_r].
  apply (Permutation_NoDup (Permutation_cons_append _ _)).
  constructor; [|exact Hn].
  eapply created_user_name_is_new; eauto.
Qed.

Lemma mergeLoop_names ops : forall r n,
  NoDup (map u_name (users (state r))) ->
  NoDup (map u_name (users (state (fst (mergeLoop gen r n ops))))).
Proof.
  induction ops as [|op ops IH]; intros r n Hr; simpl; [exact Hr|].
  pose proof (mergeStep_state gen r n op) as Hs.
  destruct (mergeStep gen r n op) as [r' n']. simpl in Hs.
  apply IH. rewrite Hs. now apply applyOperation_names.
Qed.

(** X5: user names stay unique: when no two users of the snapshot share a
    name, no two users share one after the merge pass, whatever the batch
    (only [register_user] adds a user, and it refuses a name in use). *)
Theorem merge_keeps_user_names_unique
    (now now' : Z) (current : Snapshot) (ops : list Operation) (n : nat) :
  NoDup (map u_name (users (s_state current))) ->
  NoDup (map u_name
           (users (state (mergeOperations gen now now' current ops n)))).
Proof.
  intros Hn. rewrite mergeOperations_eq. unfold prune.
  cbn [state users setNotifications].
  now apply mergeLoop_names.
Qed.
End Users.

(** ** The escrow workflow *)

Section Escrow.
Variable gen : nat -> string.






















(** X7: [finalized] is terminal: when the right an escrow operation
    addresses (the first with the id of its payload) is finalized, each of
    the seven escrow operations is answered with a conflict, whoever issues
    it, and the state stays as it is. *)
Theorem finalized_right_is_terminal
    (st : State) (op : Operation) (n : nat) (data : Data)
    (k : nat) (r : Right) :
  In (op_type op) escrowTypes ->
  op_data op = Some data ->
  findRef (hasRightId (d_rightId data)) (rights st) = Some (k, r) ->
  r_status r = finalized ->
  exists o, applyOperation gen st op n = (st, n, Returned o)
            /\ conflict o = true.
Proof.
  intros Ht Hd Hf Hs. unfold applyOperation. rewrite Hd.
  unfold escrowTypes in Ht. simpl in Ht.
  repeat (destruct Ht as [Ht|Ht]; [rewrite <- Ht; clear Ht|]);
    [..|contradiction];
    cbn [String.eqb Ascii.eqb Bool.eqb];
    unfold applyBuyerRequest, applySellerRespond, applyReportExecution,
      applyBuyerConfirm, applyBuyerReject, applySellerRefund,
      applyBuyerFinalize;
    rewrite Hf, Hs; cbn [status_eqb negb orb];
    match goal with
    | |- context [negb (?a =? ?b)%string] =>
        destruct (negb (a =? b)%string)
    end;
    eexists; split; reflexivity.
Qed.

Lemma findRef_replace {A : Type} (p : A -> bool) (l : list A) k r r' :
  findRef p l = Some (k, r) -> p r' = true ->
  findRef p (update k (fun _ => r') l) = Some (k, r').
Proof.
  revert k. induction l as [|x l IH]; intros k Hf Hp; simpl in *;
    [discriminate|].
  destruct (p x) eqn:Ex.
  - inversion Hf; subst. simpl. now rewrite Hp.
  - destruct (findRef p l) as [[i y]|] eqn:El; [|discriminate].
    inversion Hf; subst. simpl. rewrite Ex.
    now rewrite (IH i eq_refl Hp).
Qed.

Lemma update_twice {A : Type} (l : list A) k (x y : A) :
  update k (fun _ => y) (update k (fun _ => x) l) = update k (fun _ => y) l.
Proof.
  revert k. induction l as [|z l IH]; intros [|k]; simpl; try reflexivity.
  now rewrite IH.
Qed.

Lemma rightDone_result st k r' silent tx n :
  let s := rightDone st k r' silent tx n in
  rights (fst (fst s)) = update k (fun _ => r') (rights st) /\
  users (fst (fst s)) = users st /\
  listings (fst (fst s)) = listings st /\
  vTick (fst (fst s)) = vTick st + 1 /\
  snd (fst s) = S n /\
  exists o, snd s = Returned o /\ conflict o = false
            /\ updatedRight o = Some r'.
Proof.
  cbv zeta. unfold rightDone. cbn [fst snd]. proj.
  repeat split; try reflexivity. eexists. repeat split; reflexivity.
Qed.

Lemma applyBuyerRequest_owned st data ts uid silent n k r :
  findRef (hasRightId (d_rightId data)) (rights st) = Some (k, r) ->
  uid = r_buyerId r -> r_status r = owned ->
  applyBuyerRequest gen st data ts uid silent n =
  rightDone st k (setStatus request r) silent
    (rightTx (gen n) ts "execute-request" (r_buyerId r) (r_sellerId r) r
             "購入者が実行を申請") n.
Proof.
  intros Hf -> Hs. unfold applyBuyerRequest.
  now rewrite Hf, Hs, String.eqb_refl.
Qed.

Lemma applySellerRespond_exec st data ts uid silent n k r :
  findRef (hasRightId (d_rightId data)) (rights st) = Some (k, r) ->
  uid = r_sellerId r -> r_status r = request -> d_action data = "exec" ->
  applySellerRespond gen st data ts uid silent n =
  rightDone st k (setStatus seller_executed r) silent
    (rightTx (gen n) ts "execute-done" (r_sellerId r) (r_buyerId r) r
             "販売者が実行") n.
Proof.
  intros Hf -> Hs Ha. unfold applySellerRespond.
  now rewrite Hf, Hs, Ha, String.eqb_refl.
Qed.

Lemma applyBuyerFinalize_executed st data ts uid silent n k r :
  findRef (hasRightId (d_rightId data)) (rights st) = Some (k, r) ->
  uid = r_buyerId r -> r_status r = seller_executed ->
  applyBuyerFinalize gen st data ts uid silent n =
  rightDone st k (setExecuted true (setStatus finalized r)) silent
    (rightTx (gen n) ts "execute-finalize" (r_buyerId r) (r_sellerId r) r
             "購入者が実行確認（確定）") n.
Proof.
  intros Hf -> Hs. unfold applyBuyerFinalize.
  now rewrite Hf, Hs, String.eqb_refl.
Qed.

(** X8: the three steps of an execution compose: from a right in status
    [owned], the buyer's request, the seller's response "exec" and the
    buyer's finalisation each succeed, and together they leave that right
    finalized and executed in its place, change no balance and no listing,
    draw three ids and raise [vTick] by three. *)
Theorem request_execute_finalize_composes
    (st : State) (data : Data) (ts1 ts2 ts3 : Z) (silent : bool) (n : nat)
    (k : nat) (r : Right) :
  findRef (hasRightId (d_rightId data)) (rights st) = Some (k, r) ->
  r_status r = owned ->
  d_action data = "exec" ->
  let s1 := applyBuyerRequest gen st data ts1 (r_buyerId r) silent n in
  let s2 := applySellerRespond gen (fst (fst s1)) data ts2 (r_sellerId r)
              silent (snd (fst s1)) in
  let s3 := applyBuyerFinalize gen (fst (fst s2)) data ts3 (r_buyerId r)
              silent (snd (fst s2)) in
  (exists o1 o2 o3,
     snd s1 = Returned o1 /\ snd s2 = Returned o2 /\ snd s3 = Returned o3 /\
     conflict o1 = false /\ conflict o2 = false /\ conflict o3 = false /\
     updatedRight o3 = Some (setExecuted true (setStatus finalized r))) /\
  rights (fst (fst s3))
    = update k (fun _ => setExecuted true (setStatus finalized r))
             (rights st) /\
  users (fst (fst s3)) = users st /\
  listings (fst (fst s3)) = listings st /\
  vTick (fst (fst s3)) = vTick st + 3 /\
  snd (fst s3) = S (S (S n)).
Proof.
  intros Hf Hs Ha. cbv zeta.
  assert (Hid : hasRightId (d_rightId data) r = true)
    by (apply findRef_Some in Hf; tauto).
  rewrite (applyBuyerRequest_owned st data ts1 _ silent n k r Hf eq_refl Hs).
  destruct (rightDone_result st k (setStatus request r) silent
              (rightTx (gen n) ts1 "execute-request" (r_buyerId r)
                       (r_sellerId r) r "購入者が実行を申請") n)
    as (R1 & U1 & L1 & V1 & N1 & o1 & O1 & C1 & _).
  set (s1 := rightDone st k (setStatus request r) silent _ n) in *.
  assert (F1 : findRef (hasRightId (d_rightId data)) (rights (fst (fst s1)))
               = Some (k, setStatus request r))
    by (rewrite R1; exact (findRef_replace _ _ _ _ (setStatus request r) Hf Hid)).
  rewrite (applySellerRespond_exec (fst (fst s1)) data ts2 (r_sellerId r)
             silent
             (snd (fst s1)) k _ F1 eq_refl eq_refl Ha).
  destruct (rightDone_result (fst (fst s1)) k
              (setStatus seller_executed (setStatus request r)) silent
              (rightTx (gen (snd (fst s1))) ts2 "execute-done"
                 (r_sellerId (setStatus request r))
                 (r_buyerId (setStatus request r)) (setStatus request r)
                 "販売者が実行") (snd (fst s1)))
    as (R2 & U2 & L2 & V2 & N2 & o2 & O2 & C2 & _).
  set (s2 := rightDone (fst (fst s1)) k _ silent _ (snd (fst s1))) in *.
  assert (F2 : findRef (hasRightId (d_rightId data)) (rights (fst (fst s2)))
               = Some (k, setStatus seller_executed (setStatus request r)))
    by (rewrite R2;
        exact (findRef_replace _ _ _ _
                 (setStatus seller_executed (setStatus request r)) F1 Hid)).
  rewrite (applyBuyerFinalize_executed (fst (fst s2)) data ts3 (r_buyerId r)
             silent
             (snd (fst s2)) k _ F2 eq_refl eq_refl).
  destruct (rightDone_result (fst (fst s2)) k
              (setExecuted true (setStatus finalized
                 (setStatus seller_executed (setStatus request r)))) silent
              (rightTx (gen (snd (fst s2))) ts3 "execute-finalize"
                 (r_buyerId (setStatus seller_executed (setStatus request r)))
                 (r_sellerId (setStatus seller_executed (setStatus request r)))
                 (setStatus seller_executed (setStatus request r))
                 "購入者が実行確認（確定）") (snd (fst s2)))
    as (R3 & U3 & L3 & V3 & N3 & o3 & O3 & C3 & D3).
  set (s3 := rightDone (fst (fst s2)) k _ silent _ (snd (fst s2))) in *.
  split; [exists o1, o2, o3; repeat split; assumption|].
  rewrite R3, R2, R1, !update_twice, U3, U2, U1, L3, L2, L1, V3, V2, V1,
    N3, N2, N1.
  repeat split; try reflexivity. lia.
Qed.

(** X9: a rejection is not repeated: once [buyer_reject] has succeeded on
    a right, a further [buyer_reject] addressing the same id is answered
    with a conflict, whoever issues it, and changes nothing. *)
Theorem buyer_reject_succeeds_once
    (st : State) (data : Data) (ts ts' : Z) (uid uid' : string)
    (silent silent' : bool) (n : nat) (o : Outcome) :
  let s1 := applyBuyerReject gen st data ts uid silent n in
  snd s1 = Returned o -> conflict o = false ->
  exists o',
    applyBuyerReject gen (fst (fst s1)) data ts' uid' silent' (snd (fst s1))
    = (fst (fst s1), snd (fst s1), Returned o') /\ conflict o' = true.
Proof.
  cbv zeta.
  remember (applyBuyerReject gen st data ts uid silent n) as s1 eqn:E.
  unfold applyBuyerReject in E.
  destruct (findRef _ (rights st)) as [[k r]|] eqn:Hf;
    [|subst s1; intros H; inversion H; subst; discriminate].
  destruct (negb (r_buyerId r =? uid)%string);
    [subst s1; intros H; inversion H; subst; discriminate|].
  destruct (negb (status_eqb _ _));
    [subst s1; intros H; inversion H; subst; discriminate|].
  destruct (match r_rejectionCount r with Some c => c >=? 1 | None => false end);
    [subst s1; intros H; inversion H; subst; discriminate|].
  intros _ _. subst s1.
  assert (Hid : hasRightId (d_rightId data) r = true)
    by (apply findRef_Some in Hf; tauto).
  destruct (rightDone_result st k
              (setStatus buyer_rejected
                 (setRejectionCount
                    (Some (match r_rejectionCount r with
                           | Some c => c
                           | None => 0
                           end + 1)) r)) silent
              (rightTx (gen n) ts "execute-reject" (r_buyerId r)
                       (r_sellerId r) r "購入者が実行を拒否") n)
    as (R1 & _).
  set (s1 := rightDone st k _ silent _ n) in *.
  unfold applyBuyerReject. rewrite R1.
  rewrite (findRef_replace _ _ _ _
             (setStatus buyer_rejected
                (setRejectionCount
                   (Some (match r_rejectionCount r with
                          | Some c => c
                          | None => 0
                          end + 1)) r)) Hf Hid).
  cbn [r_status setStatus status_eqb negb].
  destruct (negb _); eexists; split; reflexivity.
Qed.
End Escrow.

(** ** Listings *)

Section Listings.
Variable gen : nat -> string.

Lemma In_splice1_other {A : Type} (l : list A) idx x y :
  In y l -> nth_error l idx = Some x -> y <> x -> In y (splice1 idx l).
Proof.
  revert idx. induction l as [|z l IH]; intros [|idx] Hy Hx Hne; simpl in *;
    try contradiction.
  - inversion Hx; subst. destruct Hy as [Hy|Hy]; [congruence | exact Hy].
  - destruct Hy as [Hy|Hy]; [now left | right; eauto].
Qed.

Lemma listingsStep_same op ls : listingsStep op ls ls.
Proof.
  split; apply Forall_forall; intros l Hl; [left|intros _];
    now apply in_map.
Qed.

Lemma listingsStep_update op ls li f :
  (forall l, listingKey (f l) = listingKey l) ->
  listingsStep op ls (update li f ls).
Proof.
  intros Hf.
  split; apply Forall_forall; intros l Hl; [left|intros _];
    rewrite ?map_update_inv by exact Hf.
  - rewrite <- (map_update_inv listingKey f li ls Hf). now apply in_map.
  - now apply in_map.
Qed.

Lemma sellOne_key l : listingKey (sellOne l) = listingKey l.
Proof. unfold sellOne. now destruct (_ >=? _). Qed.

Lemma restock_key l : listingKey (restock l) = listingKey l.
Proof. unfold restock. now destruct (_ <? _). Qed.

Lemma applyDeleteListing_step op st data uid n :
  listingsStep op (listings st)
    (listings (fst (fst (applyDeleteListing st data uid n)))).
Proof.
  unfold applyDeleteListing.
  destruct (findRef _ (listings st)) as [[idx l0]|] eqn:Hf;
    [|apply listingsStep_same].
  destruct (negb _); [apply listingsStep_same|].
  destruct (l_sold l0 >? 0) eqn:Es; [apply listingsStep_same|].
  proj. apply findRef_Some in Hf as [Hf _].
  split; apply Forall_forall; intros l Hl.
  - left. apply in_map. eapply In_splice1; eauto.
  - intros Hpos. apply in_map. eapply In_splice1_other; eauto.
    intros ->. rewrite Z.gtb_ltb in Es. apply Z.ltb_ge in Es. lia.
Qed.

Lemma applyCreateListing_step op st data n :
  op_type op = "create_listing" ->
  listingsStep op (listings st)
    (listings (fst (fst (applyCreateListing gen st data (op_timestamp op)
                           (op_userId op) n)))).
Proof.
  intros Ht. unfold applyCreateListing. proj.
  split; [constructor|]; try apply Forall_forall; try intros l Hl.
  - right. repeat split; assumption.
  - left. now apply in_map.
  - intros _. right. now apply in_map.
Qed.

(** X10: the terms of a listing are fixed and a listing with sales stays:
    after any operation every listing carries the id, title, price,
    description, seller, time and quantity of a listing that was there
    before, or was just created by [create_listing] for its issuer with
    nothing sold; and every listing with [sold > 0] is still there. *)
Theorem operation_keeps_listing_terms
    (st : State) (op : Operation) (n : nat) :
  listingsStep op (listings st)
    (listings (fst (fst (applyOperation gen st op n)))).
Proof.
  unfold applyOperation.
  repeat match goal with
         | |- context [if (?a =? ?b)%string then _ else _] =>
             destruct (String.eqb a b) eqn:?
         end;
    try (destruct (op_data op) as [data|] eqn:Edata;
         [|apply listingsStep_same]);
    try apply listingsStep_same.
  - rewrite applyTransfer_listings. apply listingsStep_same.
  - unfold applyBuyListing. handler_cases; proj;
      solve [apply listingsStep_same
            | apply listingsStep_update, sellOne_key].
  - apply applyCreateListing_step. now apply String.eqb_eq.
  - unfold applyToggleListing. handler_cases; proj;
      solve [apply listingsStep_same
            | apply listingsStep_update; reflexivity].
  - apply applyDeleteListing_step.
  - rewrite applyRegisterUser_listings. apply listingsStep_same.
  - rewrite applyMorningClaim_listings. apply listingsStep_same.
  - rewrite applyRoulette_listings. apply listingsStep_same.
  - rewrite applyBuyerRequest_listings. apply listingsStep_same.
  - rewrite applySellerRespond_listings. apply listingsStep_same.
  - rewrite applyReportExecution_listings. apply listingsStep_same.
  - rewrite applyBuyerConfirm_listings. apply listingsStep_same.
  - rewrite applyBuyerReject_listings. apply listingsStep_same.
  - unfold applySellerRefund. handler_cases; proj;
      solve [apply listingsStep_same
            | apply listingsStep_update, restock_key].
  - unfold applyBuyerFinalize, rightDone. handler_cases; proj;
      solve [apply listingsStep_same
            | apply listingsStep_update, restock_key].
  - rewrite applySendMessage_listings. apply listingsStep_same.
Qed.

Lemma sellOne_fields l :
  l_id (sellOne l) = l_id l /\ l_price (sellOne l) = l_price l /\
  l_sellerId (sellOne l) = l_sellerId l /\ l_qty (sellOne l) = l_qty l /\
  l_sold (sellOne l) = l_sold l + 1 /\
  l_active (sellOne l)
  = if l_qty l <=? l_sold l + 1 then false else l_active l.
Proof.
  unfold sellOne. cbn [l_sold l_qty setSold]. rewrite Z.geb_leb.
  destruct (l_qty l <=? l_sold l + 1); repeat split; reflexivity.
Qed.

(** X11: a listing can be bought under the id it was created with: after
    a [create_listing] with a quantity that is not negative, a
    [buy_listing] of the new id by another user who exists and can pay the
    price succeeds, finds that listing and sells its first unit. *)
Theorem created_listing_can_be_bought
    (st : State) (data : Data) (ts ts' : Z) (seller buyer : string)
    (silent : bool) (n : nat) (b : nat) (bu : User) :
  0 <= d_qty data ->
  seller <> buyer ->
  findRef (hasId buyer) (users st) = Some (b, bu) ->
  d_price data <= u_balance bu ->
  let s1 := applyCreateListing gen st data ts seller n in
  let s2 := applyBuyListing gen (fst (fst s1)) (listingData (gen n)) ts' buyer
              silent (snd (fst s1)) in
  exists o l',
    snd s2 = Returned o /\ conflict o = false /\
    listings (fst (fst s2)) = l' :: listings st /\
    l_id l' = gen n /\ l_price l' = d_price data /\
    l_sellerId l' = seller /\ l_sold l' = 1 /\
    l_active l' = negb (l_qty l' <=? 1) /\
    exists right, rights (fst (fst s2)) = right :: rights st /\
                  r_listingId right = gen n /\ r_buyerId right = buyer /\
                  r_sellerId right = seller /\ r_status right = owned.
Proof.
  intros Hq Hne Hb Hp. cbv zeta.
  unfold applyCreateListing. cbn [fst snd]. unfold applyBuyListing.
  proj. cbn [findRef d_listingId listingData l_id l_active].
  rewrite String.eqb_refl. cbn [andb]. rewrite Hb.
  cbn [l_qty l_sold l_price l_sellerId].
  set (qty := if d_qty data =? 0 then 1 else d_qty data).
  assert (Hqty : 1 <= qty)
    by (unfold qty; destruct (d_qty data =? 0) eqn:E;
        [lia | apply Z.eqb_neq in E; lia]).
  replace (qty =? 0) with false by (symmetry; apply Z.eqb_neq; lia).
  replace (qty - 0 <=? 0) with false by (symmetry; apply Z.leb_gt; lia).
  replace (u_balance bu <? d_price data) with false
    by (symmetry; apply Z.ltb_ge; lia).
  replace (seller =? buyer)%string with false
    by (symmetry; now apply String.eqb_neq).
  cbn [fst snd]. proj. cbn [update].
  do 2 eexists. split; [reflexivity|]. split; [reflexivity|].
  split; [reflexivity|].
  match goal with
  | |- context [sellOne ?l] =>
      destruct (sellOne_fields l) as (Hi & Hpr & Hse & Hqt & Hso & Hac)
  end.
  rewrite Hi, Hpr, Hse, Hqt, Hso, Hac.
  cbn [l_id l_price l_sellerId l_qty l_sold l_active]. fold qty.
  repeat split; try reflexivity.
  eexists. repeat split; reflexivity.
Qed.
End Listings.

(** ** Accounts *)

Section Accounts.
Variable gen : nat -> string.

(** X12: a name is registered once: whether or not a [register_user]
    succeeded, a [register_user] that follows it with the same name is
    answered with a conflict and changes nothing. *)
Theorem register_same_name_twice_is_refused
    (st : State) (data data' : Data) (ts ts' : Z) (silent silent' : bool)
    (n : nat) :
  d_name data' = d_name data ->
  let s1 := applyRegisterUser gen st data ts silent n in
  exists o,
    applyRegisterUser gen (fst (fst s1)) data' ts' silent' (snd (fst s1))
    = (fst (fst s1), snd (fst s1), Returned o) /\ conflict o = true.
Proof.
  intros Hn. cbv zeta.
  remember (applyRegisterUser gen st data ts silent n) as s1 eqn:E.
  unfold applyRegisterUser in E.
  destruct (existsb _ (users st)) eqn:Ex; subst s1; cbn [fst snd].
  - unfold applyRegisterUser. rewrite Hn, Ex.
    eexists. split; reflexivity.
  - unfold applyRegisterUser. proj. rewrite Hn, existsb_app.
    cbn [existsb u_name]. rewrite String.eqb_refl, orb_true_r.
    cbn [orb]. eexists. split; reflexivity.
Qed.

Lemma findRef_update_found {A : Type} (p : A -> bool) f k (l : list A) x :
  (forall y, p (f y) = p y) ->
  findRef p l = Some (k, x) -> findRef p (update k f l) = Some (k, f x).
Proof.
  intros Hp Hf. rewrite (findRef_update p f k l Hp), Hf.
  now rewrite Nat.eqb_refl.
Qed.

(** X13: the morning bonus is paid once per calendar day: after a
    [morning_claim] that succeeded, a further [morning_claim] of the same
    user whose timestamp is a valid time of the same UTC day is answered
    with a conflict and changes nothing. *)
Theorem morning_claim_once_per_day
    (st : State) (ts ts' : Z) (uid : string) (silent silent' : bool)
    (n : nat) (o : Outcome) :
  let s1 := applyMorningClaim gen st ts uid silent n in
  snd s1 = Returned o -> conflict o = false ->
  - 8640000000000000 <= ts' <= 8640000000000000 ->
  ts' / 86400000 = ts / 86400000 ->
  exists o',
    applyMorningClaim gen (fst (fst s1)) ts' uid silent' (snd (fst s1))
    = (fst (fst s1), snd (fst s1), Returned o') /\ conflict o' = true.
Proof.
  cbv zeta.
  remember (applyMorningClaim gen st ts uid silent n) as s1 eqn:E.
  unfold applyMorningClaim in E.
  destruct (findRef (hasId uid) (users st)) as [[i user]|] eqn:Hf;
    [|subst s1; intros H; inversion H; subst; discriminate].
  destruct (_ || _);
    [subst s1; intros H; discriminate|].
  destruct (match u_lastMorningDate user with
            | Some d => d =? ts / 86400000
            | None => false
            end);
    [subst s1; intros H; inversion H; subst; discriminate|].
  intros _ _ Hr Hd. subst s1. cbn [fst snd].
  unfold applyMorningClaim. proj.
  match goal with
  | |- context [update i ?f (users st)] =>
      rewrite (findRef_update_found (hasId uid) f i (users st) user
                 (fun y => eq_refl) Hf)
  end.
  replace ((ts' <? - 8640000000000000) || (8640000000000000 <? ts'))
    with false
    by (symmetry; apply orb_false_iff; split; apply Z.ltb_ge; lia).
  cbn [u_lastMorningDate addBalance setStreak].
  rewrite Hd, Z.eqb_refl. eexists. split; reflexivity.
Qed.

(** X14: the morning bonus is bounded: a [morning_claim] that succeeds
    credits its user with [1000 + 100 * streak], where the new streak is at
    most 30 (and at least 1 when the old streak was not negative), records
    the day of the claim, and touches no other user. *)
Theorem morning_claim_bonus_is_bounded
    (st : State) (ts : Z) (uid : string) (silent : bool) (n : nat)
    (o : Outcome) (i : nat) (user : User) :
  let s1 := applyMorningClaim gen st ts uid silent n in
  snd s1 = Returned o -> conflict o = false ->
  findRef (hasId uid) (users st) = Some (i, user) ->
  exists u',
    nth_error (users (fst (fst s1))) i = Some u' /\
    u_balance u' = u_balance user + 1000 + 100 * u_streakCount u' /\
    u_streakCount u' <= 30 /\
    (0 <= u_streakCount user -> 1 <= u_streakCount u') /\
    u_balance u' <= u_balance user + 4000 /\
    u_lastMorningDate u' = Some (ts / 86400000) /\
    userKey u' = userKey user /\
    forall k, k <> i ->
      nth_error (users (fst (fst s1))) k = nth_error (users st) k.
Proof.
  cbv zeta.
  remember (applyMorningClaim gen st ts uid silent n) as s1 eqn:E.
  unfold applyMorningClaim in E. intros Hret Hc Hf. rewrite Hf in E.
  destruct (_ || _); [subst s1; discriminate|].
  destruct (match u_lastMorningDate user with
            | Some d => d =? ts / 86400000
            | None => false
            end);
    [subst s1; inversion Hret; subst; discriminate|].
  subst s1. cbn [fst snd]. proj.
  apply findRef_Some in Hf as [Hf _].
  rewrite nth_error_update, Nat.eqb_refl, Hf. cbn [option_map].
  eexists. split; [reflexivity|].
  cbn [u_balance u_streakCount u_lastMorningDate addBalance setStreak
       userKey u_id u_name u_passHash].
  set (streak := match u_lastMorningDate user with
                 | Some d => if ts / 86400000 - d =? 1
                             then Z.min (u_streakCount user + 1) 30 else 1
                 | None => 1
                 end).
  assert (Hs : streak <= 30 /\ (0 <= u_streakCount user -> 1 <= streak))
    by (unfold streak; destruct (u_lastMorningDate user) as [d|];
        [destruct (ts / 86400000 - d =? 1)|]; lia).
  repeat split; try lia; try tauto.
  intros k Hk. rewrite nth_error_update.
  apply Nat.eqb_neq in Hk. now rewrite Hk.
Qed.

Lemma move_balance_pointwise (us : list User) (f t : nat) (a : Z) k u :
  nth_error us k = Some u ->
  nth_error (update t (addBalance a) (update f (addBalance (- a)) us)) k =
  Some (setBalance (u_balance u - credit (Some f) k a
                    + credit (Some t) k a) u).
Proof.
  intros Hk. rewrite !nth_error_update, Hk. unfold credit.
  destruct (Nat.eqb k t), (Nat.eqb k f); cbn [option_map];
    f_equal; destruct u; unfold addBalance, setBalance; cbn;
    f_equal; lia.
Qed.

(** X15: a transfer moves its amount and nothing else: when sender and
    recipient exist and the sender's balance covers the amount,
    [applyTransfer] succeeds, debits the sender and credits the recipient
    by the amount, and leaves every other user, the listings and the rights
    as they were; a transfer to oneself changes no balance at all. *)
Theorem transfer_effect
    (st : State) (data : Data) (ts : Z) (uid : string) (silent : bool)
    (n : nat) (f : nat) (fu : User) (t : nat) (tu : User) :
  findRef (hasId uid) (users st) = Some (f, fu) ->
  findRef (hasId (d_toId data)) (users st) = Some (t, tu) ->
  d_amount data <= u_balance fu ->
  let s := applyTransfer gen st data ts uid silent n in
  exists o,
    snd s = Returned o /\ conflict o = false /\
    (forall k u, nth_error (users st) k = Some u ->
       nth_error (users (fst (fst s))) k =
       Some (setBalance (u_balance u - credit (Some f) k (d_amount data)
                         + credit (Some t) k (d_amount data)) u)) /\
    (f = t -> users (fst (fst s)) = users st) /\
    List.length (users (fst (fst s))) = List.length (users st) /\
    listings (fst (fst s)) = listings st /\
    rights (fst (fst s)) = rights st /\
    vTick (fst (fst s)) = vTick st + 1.
Proof.
  intros Hf Ht Ha. cbv zeta. unfold applyTransfer. rewrite Hf, Ht.
  replace (u_balance fu <? d_amount data) with false
    by (symmetry; apply Z.ltb_ge; lia).
  cbn [fst snd]. proj.
  eexists. split; [reflexivity|]. split; [reflexivity|].
  pose proof (move_balance_pointwise (users st) f t (d_amount data))
    as Hpt.
  split; [exact Hpt|].
  split.
  { intros ->. apply nth_error_ext. intros k.
    destruct (nth_error (users st) k) as [u|] eqn:Hk.
    - rewrite (Hpt k u Hk). f_equal. unfold credit.
      destruct (Nat.eqb k t); destruct u; unfold setBalance; cbn;
        f_equal; lia.
    - rewrite !nth_error_update, Hk. now destruct (Nat.eqb k t). }
  split; [now rewrite !length_update|].
  repeat split; reflexivity.
Qed.

(** Closes a case of [roulette_pays_from_the_pot] once the balances of
    player and house after the entry fee are known. *)
Ltac exists_payout :=
  do 2 eexists; split; [reflexivity|]; split; [reflexivity|];
  split; [reflexivity|];
  repeat first
    [ rewrite balanceAt_update
    | rewrite nth_error_update
    | rewrite Nat.eqb_refl
    | match goal with H : Nat.eqb _ _ = false |- _ => rewrite H end
    | match goal with H : nth_error _ _ = Some _ |- _ => rewrite H end
    | match goal with H : balanceAt _ _ = _ |- _ => rewrite H end ];
  cbn [option_map u_balance addBalance setBalance];
  repeat split; intros; try discriminate; lia.

Lemma drawPrize_bounds (roll : Q) :
  match drawPrize roll 0 prizes with
  | Some v => 0 <= v <= 700
  | None => True
  end.
Proof.
  unfold prizes. cbn [drawPrize].
  repeat match goal with
         | |- context [if Qltb ?a ?b then _ else _] => destruct (Qltb a b)
         end; try lia; exact I.
Qed.

(** X16: the roulette pays out of the pot and never more: for a player
    other than the house account with at least the entry fee of 100, and a
    house balance that is not negative, [applyRoulette] succeeds with a
    payout [p] between 0 and the pot (house balance plus the fee), the
    whole pot when the roll is below 0.01 and at most 700 otherwise; the
    player ends with [balance - 100 + p], the house with [balance + 100 -
    p], which is not negative. *)
Theorem roulette_pays_from_the_pot
    (st : State) (data : Data) (ts : Z) (uid : string) (silent : bool)
    (n : nat) (i : nat) (user : User) (j : nat) (house : User) :
  findRef (hasId uid) (users st) = Some (i, user) ->
  findRef isJackpot (users st) = Some (j, house) ->
  i <> j ->
  100 <= u_balance user ->
  0 <= u_balance house ->
  let s := applyRoulette gen st data ts uid silent n in
  exists o p,
    snd s = Returned o /\ conflict o = false /\ payout o = Some p /\
    0 <= p <= u_balance house + 100 /\
    (Qltb (d_roll data) 0.01%Q = true -> p = u_balance house + 100) /\
    (Qltb (d_roll data) 0.01%Q = false -> p <= 700) /\
    balanceAt i (users (fst (fst s))) = u_balance user - 100 + p /\
    balanceAt j (users (fst (fst s))) = u_balance house + 100 - p.
Proof.
  intros Hi Hj Hij Hfee Hpot. cbv zeta. unfold applyRoulette.
  rewrite Hi, Hj.
  replace (u_balance user <? 100) with false
    by (symmetry; apply Z.ltb_ge; lia).
  apply findRef_Some in Hi as [Hi _], Hj as [Hj _].
  assert (Eij : Nat.eqb i j = false) by now apply Nat.eqb_neq.
  assert (Eji : Nat.eqb j i = false) by (apply Nat.eqb_neq; congruence).
  set (us1 := update j (addBalance 100)
                (update i (addBalance (- 100)) (users st))).
  assert (Bj : balanceAt j us1 = u_balance house + 100).
  { unfold us1. rewrite balanceAt_update, Nat.eqb_refl.
    rewrite nth_error_update, Eji, Hj. reflexivity. }
  assert (Bi : balanceAt i us1 = u_balance user - 100).
  { unfold us1. rewrite balanceAt_update, Eij.
    rewrite balanceAt_update, Nat.eqb_refl, Hi. cbn. lia. }
  assert (Ni : exists u1, nth_error us1 i = Some u1
                          /\ u_balance u1 = u_balance user - 100).
  { unfold balanceAt in Bi. unfold us1 in *.
    rewrite !nth_error_update, Eij, Nat.eqb_refl, Hi in *.
    cbn [option_map] in *. eexists. split; [reflexivity | exact Bi]. }
  destruct Ni as [u1 [Ni Hu1]].
  assert (Nj : exists h1, nth_error us1 j = Some h1
                          /\ u_balance h1 = u_balance house + 100).
  { unfold balanceAt in Bj. unfold us1 in *.
    rewrite !nth_error_update, Eji, Nat.eqb_refl, Hj in *.
    cbn [option_map] in *. eexists. split; [reflexivity | exact Bj]. }
  destruct Nj as [h1 [Nj Hh1]].
  destruct (Qltb (d_roll data) 0.01) eqn:Er.
  - rewrite Bj.
    replace (u_balance house + 100 >? 0) with true
      by (symmetry; apply Z.gtb_lt; lia).
    cbn [fst snd]. proj.
    exists_payout.
  - pose proof (drawPrize_bounds (d_roll data)) as Hd.
    set (p := match drawPrize (d_roll data) 0 prizes with
              | Some v => Z.min (balanceAt j us1) v
              | None => 0
              end).
    assert (Hp : 0 <= p <= u_balance house + 100 /\ p <= 700).
    { unfold p. rewrite Bj.
      destruct (drawPrize (d_roll data) 0 prizes); lia. }
    destruct (p >? 0) eqn:Ep; cbn [fst snd]; proj.
    + exists_payout.
    + rewrite Z.gtb_ltb in Ep. apply Z.ltb_ge in Ep.
      exists_payout.
Qed.

Lemma restock_fields l :
  listingKey (restock l) = listingKey l /\
  l_sold (restock l) = Z.max 0 (l_sold l - 1) /\
  l_active (restock l)
  = if Z.max 0 (l_sold l - 1) <? l_qty l then true else l_active l.
Proof.
  unfold restock. cbn [l_sold l_qty setSold].
  destruct (Z.max 0 (l_sold l - 1) <? l_qty l); repeat split; reflexivity.
Qed.

(** X17: the cancellation the buyer confirms: when the right is in status
    [seller_cancel_requested] and its listing, seller and buyer exist, and
    the seller's balance covers [9 * price / 10], the buyer's
    [buyer_finalize] succeeds; it moves that refund from the seller to the
    buyer and touches no other balance, takes every right of that id off
    the rights, lowers [sold] of the listing by one (not below zero) and
    sets it active when stock is left, and raises [vTick] by one. *)
Theorem buyer_finalize_cancels_with_refund
    (st : State) (data : Data) (ts : Z) (silent : bool) (n : nat)
    (k : nat) (r : Right) (li : nat) (l : Listing)
    (s : nat) (su : User) (b : nat) (bu : User) :
  findRef (hasRightId (d_rightId data)) (rights st) = Some (k, r) ->
  r_status r = seller_cancel_requested ->
  findRef (fun x => (l_id x =? r_listingId r)%string) (listings st)
    = Some (li, l) ->
  findRef (hasId (r_sellerId r)) (users st) = Some (s, su) ->
  findRef (hasId (r_buyerId r)) (users st) = Some (b, bu) ->
  9 * l_price l / 10 <= u_balance su ->
  let refund := 9 * l_price l / 10 in
  let res := applyBuyerFinalize gen st data ts (r_buyerId r) silent n in
  exists o,
    snd res = Returned o /\ conflict o = false /\
    (forall i u, nth_error (users st) i = Some u ->
       nth_error (users (fst (fst res))) i =
       Some (setBalance (u_balance u - credit (Some s) i refund
                         + credit (Some b) i refund) u)) /\
    rights (fst (fst res))
      = filter (fun x => negb (hasRightId (d_rightId data) x)) (rights st) /\
    Forall (fun x => r_id x <> d_rightId data) (rights (fst (fst res))) /\
    nth_error (listings (fst (fst res))) li = Some (restock l) /\
    l_sold (restock l) = Z.max 0 (l_sold l - 1) /\
    l_active (restock l)
      = (if Z.max 0 (l_sold l - 1) <? l_qty l then true else l_active l) /\
    (forall i, i <> li ->
       nth_error (listings (fst (fst res))) i = nth_error (listings st) i) /\
    vTick (fst (fst res)) = vTick st + 1.
Proof.
  intros Hr Hs Hl Hsu Hbu Hbal. cbv zeta. unfold applyBuyerFinalize.
  rewrite Hr, Hs, String.eqb_refl. cbn [negb status_eqb].
  rewrite Hl, Hsu, Hbu.
  replace (u_balance su <? 9 * l_price l / 10) with false
    by (symmetry; apply Z.ltb_ge; lia).
  cbn [fst snd]. proj.
  apply findRef_Some in Hl as [Hl _].
  destruct (restock_fields l) as (_ & Hsold & Hact).
  eexists. split; [reflexivity|]. split; [reflexivity|].
  split; [intros i u Hi; now apply move_balance_pointwise|].
  split; [reflexivity|].
  split.
  { apply Forall_forall. intros x Hx. apply filter_In in Hx as [_ Hx].
    apply negb_true_iff in Hx. unfold hasRightId in Hx.
    now apply String.eqb_neq in Hx. }
  split; [now rewrite nth_error_update, Nat.eqb_refl, Hl|].
  split; [exact Hsold|]. split; [exact Hact|].
  split; [|reflexivity].
  intros i Hi. rewrite nth_error_update. apply Nat.eqb_neq in Hi.
  now rewrite Hi.
Qed.

(** X18: a seller's refund is capped by the price: when the right is in
    one of the statuses [buyer_rejected], [seller_cancel_requested] and
    [seller_reported] and its listing, seller and buyer exist,
    [seller_refund] by the seller moves [min amount price] when the
    payload's amount is positive and the full price otherwise, provided
    the seller's balance covers it; it takes the right off, restocks the
    listing, and reports the listing's id as deleted although the listing
    stays. *)
Theorem seller_refund_is_capped_by_the_price
    (st : State) (data : Data) (ts : Z) (silent : bool) (n : nat)
    (k : nat) (r : Right) (li : nat) (l : Listing)
    (s : nat) (su : User) (b : nat) (bu : User) :
  findRef (hasRightId (d_rightId data)) (rights st) = Some (k, r) ->
  In (r_status r) [buyer_rejected; seller_cancel_requested; seller_reported] ->
  findRef (fun x => (l_id x =? r_listingId r)%string) (listings st)
    = Some (li, l) ->
  findRef (hasId (r_sellerId r)) (users st) = Some (s, su) ->
  findRef (hasId (r_buyerId r)) (users st) = Some (b, bu) ->
  let refund := if d_amount data >? 0 then Z.min (d_amount data) (l_price l)
                else l_price l in
  refund <= u_balance su ->
  let res := applySellerRefund gen st data ts (r_sellerId r) silent n in
  exists o,
    snd res = Returned o /\ conflict o = false /\
    refund <= l_price l /\
    (forall i u, nth_error (users st) i = Some u ->
       nth_error (users (fst (fst res))) i =
       Some (setBalance (u_balance u - credit (Some s) i refund
                         + credit (Some b) i refund) u)) /\
    rights (fst (fst res))
      = filter (fun x => negb (hasRightId (d_rightId data) x)) (rights st) /\
    nth_error (listings (fst (fst res))) li = Some (restock l) /\
    List.length (listings (fst (fst res))) = List.length (listings st) /\
    deletedListingId o = Some (l_id l) /\
    vTick (fst (fst res)) = vTick st + 1.
Proof.
  intros Hr Hs Hl Hsu Hbu refund Hbal. cbv zeta. unfold applySellerRefund.
  rewrite Hr, String.eqb_refl. cbn [negb].
  replace (status_eqb (r_status r) buyer_rejected
           || status_eqb (r_status r) seller_cancel_requested
           || status_eqb (r_status r) seller_reported) with true
    by (simpl in Hs; destruct Hs as [H|[H|[H|[]]]]; rewrite <- H;
        reflexivity).
  cbn [negb]. rewrite Hl, Hsu, Hbu. fold refund.
  replace (u_balance su <? refund) with false
    by (symmetry; apply Z.ltb_ge; lia).
  cbn [fst snd]. proj.
  apply findRef_Some in Hl as [Hl _].
  eexists. split; [reflexivity|]. split; [reflexivity|].
  split; [unfold refund; destruct (d_amount data >? 0); lia|].
  split; [intros i u Hi; now apply move_balance_pointwise|].
  split; [reflexivity|].
  split; [now rewrite nth_error_update, Nat.eqb_refl, Hl|].
  split; [apply length_update|].
  split; reflexivity.
Qed.
End Accounts.

(** ** The dispatch order and the reports of a pass *)

Section Dispatch.
Variable gen : nat -> string.




Lemma mergeStep_reports r n op :
  exists extra,
    newConflicts (fst (mergeStep gen r n op)) = newConflicts r ++ extra /\
    (List.length extra <= 1)%nat /\
    Forall (fun c => c = conflictOf op (c_type c) (c_message c)) extra.
Proof.
  unfold mergeStep.
  destruct (applyOperation gen (state r) op n) as [[st n'] [o|msg]];
    cbn [fst newConflicts].
  - destruct (conflict o).
    + eexists. split; [reflexivity|]. split; [simpl; lia|].
      repeat constructor.
    + exists []. rewrite app_nil_r. split; [reflexivity|].
      split; [simpl; lia | constructor].
  - eexists. split; [reflexivity|]. split; [simpl; lia|].
    repeat constructor.
Qed.

Lemma mergeLoop_reports ops : forall r n,
  exists extra,
    newConflicts (fst (mergeLoop gen r n ops)) = newConflicts r ++ extra /\
    (List.length extra <= List.length ops)%nat /\
    Forall (fun c => exists op, In op ops
                       /\ c = conflictOf op (c_type c) (c_message c)) extra.
Proof.
  induction ops as [|op ops IH]; intros r n; simpl.
  - exists []. rewrite app_nil_r. split; [reflexivity|].
    split; [simpl; lia | constructor].
  - destruct (mergeStep_reports r n op) as (e1 & H1 & L1 & F1).
    destruct (mergeStep gen r n op) as [r' n']. cbn [fst] in H1.
    destruct (IH r' n') as (e2 & H2 & L2 & F2).
    exists (e1 ++ e2). rewrite H2, H1, app_assoc.
    split; [reflexivity|]. split; [rewrite length_app; lia|].
    apply Forall_app. split.
    + eapply Forall_impl; [|exact F1]. intros c Hc. exists op. auto.
    + eapply Forall_impl; [|exact F2]. intros c [o [Ho Hc]].
      exists o. auto.
Qed.

(** X20: the conflicts of a pass: every conflict a merge pass reports
    carries the id, timestamp and user of an operation of the batch that
    was not in the log, and there are at most as many conflicts as
    operations dispatched. *)
Theorem reported_conflicts_name_dispatched_operations
    (now now' : Z) (current : Snapshot) (ops : list Operation) (n : nat) :
  let r := mergeOperations gen now now' current ops n in
  (List.length (newConflicts r) <= List.length (batchOrder current ops))%nat /\
  Forall (fun c => exists op,
            In op ops /\
            ~ In (op_id op) (map p_id (s_processedOps current)) /\
            c_operationId c = op_id op /\
            c_timestamp c = op_timestamp op /\
            c_userId c = op_userId op)
         (newConflicts r).
Proof.
  cbv zeta. rewrite mergeOperations_eq. unfold prune. cbn [newConflicts].
  destruct (mergeLoop_reports (batchOrder current ops)
              (initialResult current) n) as (extra & H & L & F).
  rewrite H. cbn [initialResult newConflicts app].
  split; [exact L|].
  eapply Forall_impl; [|exact F]. intros c [op [Hin Hc]].
  apply batchOrder_In in Hin as [Hin Hlog].
  exists op. rewrite Hc. repeat split; assumption.
Qed.
End Dispatch.

(** ** The version counter and the notifications *)

Section Version.
Variable gen : nat -> string.

Lemma applyOperation_bumps st op n st' n' c :
  applyOperation gen st op n = (st', n', c) ->
  vTick st' = vTick st + bumps op c.
Proof.
  unfold_handlers. unfold logTx.
  handler_cases; intros H; inversion H; subst; unfold bumps;
    cbn [conflict orb];
    repeat match goal with
           | E : (op_type op =? _)%string = true |- _ =>
               apply String.eqb_eq in E; rewrite E
           end;
    cbn [conflict orb String.eqb Ascii.eqb Bool.eqb vTick bumpVTick setUsers
         setListings setRights setNotifications];
    lia.
Qed.

(** X21: what [vTick] counts: an operation raises [vTick] by one when it
    succeeds and is not a [send_message], and leaves it as it is when it
    is answered with a conflict, when its handler throws, and when it is a
    [send_message]. *)
Theorem vTick_counts_successful_ledger_operations
    (st : State) (op : Operation) (n : nat) :
  vTick (fst (fst (applyOperation gen st op n)))
  = vTick st + bumps op (snd (applyOperation gen st op n)).
Proof.
  destruct (applyOperation gen st op n) as [[st' n'] c] eqn:E.
  exact (applyOperation_bumps st op n st' n' c E).
Qed.

Lemma bumps_bounds op c : 0 <= bumps op c <= 1.
Proof.
  unfold bumps. destruct c as [o|msg]; [|lia].
  destruct (conflict o || _); lia.
Qed.

Lemma mergeLoop_vTick_upper ops : forall r n,
  vTick (state (fst (mergeLoop gen r n ops)))
  <= vTick (state r) + Z.of_nat (List.length ops).
Proof.
  induction ops as [|op ops IH]; intros r n; [simpl; lia|].
  cbn [mergeLoop].
  pose proof (mergeStep_state gen r n op) as Hs.
  destruct (mergeStep gen r n op) as [r' n']. cbn [fst] in Hs.
  specialize (IH r' n'). rewrite Hs in IH.
  destruct (applyOperation gen (state r) op n) as [[st' n''] c] eqn:E.
  pose proof (applyOperation_bumps _ _ _ _ _ _ E) as Hb.
  pose proof (bumps_bounds op c). cbn [fst] in IH.
  change (List.length (op :: ops)) with (S (List.length ops)). lia.
Qed.

(** X22: [vTick] over a merge pass: it does not decrease, and it rises by
    at most the number of operations the pass dispatches; a pass whose
    batch holds only operations already in the log leaves it unchanged. *)
Theorem merge_moves_vTick_within_bounds
    (now now' : Z) (current : Snapshot) (ops : list Operation) (n : nat) :
  let r := mergeOperations gen now now' current ops n in
  vTick (s_state current) <= vTick (state r)
    <= vTick (s_state current)
       + Z.of_nat (List.length (batchOrder current ops)) /\
  (batchOrder current ops = [] -> vTick (state r) = vTick (s_state current)).
Proof.
  cbv zeta. split.
  - split; [apply mergeOperations_vTick|].
    rewrite mergeOperations_eq. unfold prune.
    cbn [state vTick setNotifications].
    apply (mergeLoop_vTick_upper (batchOrder current ops)
             (initialResult current) n).
  - intros He. rewrite mergeOperations_eq, He. reflexivity.
Qed.

Lemma applyOperation_isolation st op n st' n' c :
  applyOperation gen st op n = (st', n', c) ->
  if (op_type op =? "send_message")%string
  then users st' = users st /\ txs st' = txs st /\
       listings st' = listings st /\ rights st' = rights st /\
       vTick st' = vTick st
  else notifications st' = notifications st.
Proof.
  unfold_handlers. unfold logTx.
  destruct (op_type op =? "send_message")%string eqn:Em.
  - apply String.eqb_eq in Em. rewrite Em.
    cbn [String.eqb Ascii.eqb Bool.eqb].
    handler_cases; intros H; inversion H; subst; repeat split; reflexivity.
  - handler_cases; intros H; inversion H; subst; try reflexivity;
      congruence.
Qed.

(** X23: messages and ledger are kept apart: a [send_message] changes no
    user, transaction, listing or right, and every other operation leaves
    the notifications as they were. *)
Theorem messages_and_ledger_are_separate
    (st : State) (op : Operation) (n : nat) :
  let st' := fst (fst (applyOperation gen st op n)) in
  if (op_type op =? "send_message")%string
  then users st' = users st /\ txs st' = txs st /\
       listings st' = listings st /\ rights st' = rights st /\
       vTick st' = vTick st
  else notifications st' = notifications st.
Proof.
  cbv zeta.
  destruct (applyOperation gen st op n) as [[st' n'] c] eqn:E.
  exact (applyOperation_isolation st op n st' n' c E).
Qed.
End Version.

(** ** The storage keys *)

Lemma split_at_bar (a a' b b' : string) :
  noBar a = true -> noBar a' = true ->
  (a ++ "|" ++ b)%string = (a' ++ "|" ++ b')%string -> a = a' /\ b = b'.
Proof.
  revert a'. induction a as [|c a IH]; intros [|c' a'] Ha Ha' H;
    cbn [String.append noBar] in *.
  - inversion H. auto.
  - inversion H; subst c'. rewrite Ascii.eqb_refl in Ha'. discriminate.
  - inversion H; subst c. rewrite Ascii.eqb_refl in Ha. discriminate.
  - inversion H; subst c'.
    apply andb_true_iff in Ha as [_ Ha], Ha' as [_ Ha'].
    destruct (IH a' Ha Ha' H2) as [-> ->]. auto.
Qed.

(** X24: the storage keys keep rooms apart: for room names without the
    separator "|", two room/key pairs with the same state key (or the same
    users key) are the same pair; and a state key never equals a users key,
    so the two documents of a room can share one store.  Room names with
    the separator can collide: room "a|b" with key "c" and room "a" with
    key "b|c" are stored under one key. *)
Theorem storage_keys_separate_rooms
    (room key room' key' : string) :
  noBar room = true -> noBar room' = true ->
  (kvKey room key = kvKey room' key' -> room = room' /\ key = key') /\
  (usersKey room key = usersKey room' key' -> room = room' /\ key = key') /\
  kvKey room key <> usersKey room' key' /\
  kvKey "a|b" "c" = kvKey "a" "b|c".
Proof.
  intros Hr Hr'. unfold kvKey, usersKey.
  split; [|split; [|split]].
  - intros H. cbn [String.append] in H. inversion H.
    now apply (split_at_bar room room' key key').
  - intros H. cbn [String.append] in H. inversion H.
    now apply (split_at_bar room room' key key').
  - intros H. cbn [String.append] in H. discriminate H.
  - reflexivity.
Qed.

(** ** The further properties on sample inputs *)

Lemma silent_batch_logs_no_transaction_witness :
  let r := mergeOperations counterIds 10 10 twoUsers
             [silentTransferOp "t1" "a" "b" 100 5] 0 in
  map u_balance (users (state r)) = [900; 100] /\
  txs (state r) = txs (s_state twoUsers) /\ newTxs r = [].
Proof.
  cbv zeta. split; [vm_compute; reflexivity|].
  apply (silent_batch_logs_no_transaction counterIds 10 10 twoUsers
           [silentTransferOp "t1" "a" "b" 100 5] 0).
  repeat constructor.
Defined.

Lemma merge_keeps_user_names_unique_witness :
  let r := mergeOperations counterIds 10 10 twoUsers
             [registerOp "o1" "alice" 1; registerOp "o2" "carol" 2] 0 in
  map u_name (users (state r)) = ["alice"; "bob"; "carol"] /\
  NoDup (map u_name (users (state r))).
Proof.
  cbv zeta. split; [vm_compute; reflexivity|].
  apply (merge_keeps_user_names_unique counterIds 10 10 twoUsers).
  cbn. repeat constructor; cbn; intuition discriminate.
Defined.

Lemma finalized_right_is_terminal_witness :
  exists o,
    applyOperation counterIds (escrowRoom finalized)
      (rightOp "x1" "seller_refund" "s" "R1" 5) 0
    = (escrowRoom finalized, 0%nat, Returned o) /\ conflict o = true.
Proof.
  apply (finalized_right_is_terminal counterIds (escrowRoom finalized)
           (rightOp "x1" "seller_refund" "s" "R1" 5) 0
           (rightData "R1" "" 0) 0 (sampleRight finalized)).
  - cbn. tauto.
  - reflexivity.
  - reflexivity.
  - reflexivity.
Defined.

Lemma request_execute_finalize_composes_witness :
  let data := rightData "R1" "exec" 0 in
  let s1 := applyBuyerRequest counterIds (escrowRoom owned) data 5 "b"
              false 0 in
  let s2 := applySellerRespond counterIds (fst (fst s1)) data 6 "s" false
              (snd (fst s1)) in
  let s3 := applyBuyerFinalize counterIds (fst (fst s2)) data 7 "b" false
              (snd (fst s2)) in
  map r_status (rights (fst (fst s3))) = [finalized] /\
  map r_executed (rights (fst (fst s3))) = [true] /\
  vTick (fst (fst s3)) = 3.
Proof.
  cbv zeta.
  destruct (request_execute_finalize_composes counterIds (escrowRoom owned)
              (rightData "R1" "exec" 0) 5 6 7 false 0 0 (sampleRight owned)
              eq_refl eq_refl eq_refl) as (_ & Hr & _ & _ & Hv & _).
  cbn [r_buyerId r_sellerId sampleRight] in Hr, Hv.
  rewrite Hr, Hv. repeat split; reflexivity.
Defined.

Lemma buyer_reject_succeeds_once_witness :
  let data := rightData "R1" "" 0 in
  let s1 := applyBuyerReject counterIds (escrowRoom seller_reported) data 5
              "b" false 0 in
  map r_status (rights (fst (fst s1))) = [buyer_rejected] /\
  exists o',
    applyBuyerReject counterIds (fst (fst s1)) data 6 "b" false (snd (fst s1))
    = (fst (fst s1), snd (fst s1), Returned o') /\ conflict o' = true.
Proof.
  cbv zeta. split; [vm_compute; reflexivity|].
  eapply (buyer_reject_succeeds_once counterIds (escrowRoom seller_reported)
            (rightData "R1" "" 0) 5 6 "b" "b" false false 0);
    reflexivity.
Defined.

Lemma created_listing_can_be_bought_witness :
  let s1 := applyCreateListing counterIds (s_state market)
              (createData "shield" 200 2) 5 "s" 0 in
  let s2 := applyBuyListing counterIds (fst (fst s1)) (listingData "id0") 6
              "b" false (snd (fst s1)) in
  exists o, snd s2 = Returned o /\ conflict o = false /\
            map l_sold (listings (fst (fst s2))) = [1; 0].
Proof.
  cbv zeta.
  destruct (created_listing_can_be_bought counterIds (s_state market)
              (createData "shield" 200 2) 5 6 "s" "b" false 0
              0 (sampleUser "b" "buyer" 1000))
    as (o & l' & Ho & Hc & _);
    [cbn; lia | discriminate | reflexivity | cbn; lia |].
  exists o. split; [exact Ho|]. split; [exact Hc|].
  vm_compute. reflexivity.
Defined.

Lemma register_same_name_twice_is_refused_witness :
  let s1 := applyRegisterUser counterIds emptyState (nameData "alice") 1
              false 0 in
  map u_name (users (fst (fst s1))) = ["alice"] /\
  exists o,
    applyRegisterUser counterIds (fst (fst s1)) (nameData "alice") 2 false
      (snd (fst s1))
    = (fst (fst s1), snd (fst s1), Returned o) /\ conflict o = true.
Proof.
  cbv zeta. split; [vm_compute; reflexivity|].
  apply (register_same_name_twice_is_refused counterIds emptyState
           (nameData "alice") (nameData "alice") 1 2 false false 0).
  reflexivity.
Defined.

Lemma morning_claim_once_per_day_witness :
  let s1 := applyMorningClaim counterIds (s_state twoUsers) 5 "a" false 0 in
  map u_balance (users (fst (fst s1))) = [2100; 0] /\
  exists o',
    applyMorningClaim counterIds (fst (fst s1)) 6 "a" false (snd (fst s1))
    = (fst (fst s1), snd (fst s1), Returned o') /\ conflict o' = true.
Proof.
  cbv zeta. split; [vm_compute; reflexivity|].
  eapply (morning_claim_once_per_day counterIds (s_state twoUsers) 5 6 "a"
            false false 0);
    [reflexivity | reflexivity | lia | reflexivity].
Defined.

Lemma morning_claim_bonus_is_bounded_witness :
  let s1 := applyMorningClaim counterIds (s_state twoUsers) 5 "a" false 0 in
  exists u',
    nth_error (users (fst (fst s1))) 0 = Some u' /\
    u_balance u' = 2100 /\ u_streakCount u' = 1.
Proof.
  cbv zeta.
  destruct (morning_claim_bonus_is_bounded counterIds (s_state twoUsers) 5
              "a" false 0 _ 0 (sampleUser "a" "alice" 1000)
              eq_refl eq_refl eq_refl) as (u' & Hu & _).
  exists u'. split; [exact Hu|].
  vm_compute in Hu. inversion Hu; subst u'. split; reflexivity.
Defined.

Lemma transfer_effect_witness :
  let s := applyTransfer counterIds (s_state twoUsers)
             (transferData "b" 100) 5 "a" false 0 in
  exists o, snd s = Returned o /\ conflict o = false /\
            map u_balance (users (fst (fst s))) = [900; 100].
Proof.
  cbv zeta.
  destruct (transfer_effect counterIds (s_state twoUsers)
              (transferData "b" 100) 5 "a" false 0
              0 (sampleUser "a" "alice" 1000) 1 (sampleUser "b" "bob" 0)
              eq_refl eq_refl) as (o & Ho & Hc & _); [cbn; lia|].
  exists o. split; [exact Ho|]. split; [exact Hc|].
  vm_compute. reflexivity.
Defined.

Lemma roulette_pays_from_the_pot_witness :
  let s := applyRoulette counterIds (s_state market) (rollData 0.7%Q) 5 "b"
             false 0 in
  exists o p, snd s = Returned o /\ payout o = Some p /\ 0 <= p <= 100 /\
              map u_balance (users (fst (fst s))) = [1000; 0; 0].
Proof.
  cbv zeta.
  destruct (roulette_pays_from_the_pot counterIds (s_state market)
              (rollData 0.7%Q) 5 "b" false 0
              0 (sampleUser "b" "buyer" 1000) 2 (sampleUser "h" jackpotName 0)
              eq_refl eq_refl) as (o & p & Ho & _ & Hp & Hb & _);
    [discriminate | cbn; lia | cbn; lia |].
  exists o, p. split; [exact Ho|]. split; [exact Hp|].
  split; [exact Hb|]. vm_compute. reflexivity.
Defined.

Lemma buyer_finalize_cancels_with_refund_witness :
  let res := applyBuyerFinalize counterIds
               (escrowRoom seller_cancel_requested) (rightData "R1" "" 0) 5
               "b" false 0 in
  exists o, snd res = Returned o /\ conflict o = false /\
            map u_balance (users (fst (fst res))) = [1090; 910] /\
            rights (fst (fst res)) = [] /\
            map (fun l => (l_sold l, l_active l)) (listings (fst (fst res)))
            = [(0, true)].
Proof.
  cbv zeta.
  destruct (buyer_finalize_cancels_with_refund counterIds
              (escrowRoom seller_cancel_requested) (rightData "R1" "" 0) 5
              false 0 0 (sampleRight seller_cancel_requested) 0 soldListing
              1 (sampleUser "s" "seller" 1000) 0 (sampleUser "b" "buyer" 1000)
              eq_refl eq_refl eq_refl eq_refl eq_refl)
    as (o & Ho & Hc & _); [vm_compute; discriminate|].
  exists o. split; [exact Ho|]. split; [exact Hc|].
  vm_compute. repeat split; reflexivity.
Defined.

Lemma seller_refund_is_capped_by_the_price_witness :
  let res := applySellerRefund counterIds (escrowRoom buyer_rejected)
               (rightData "R1" "" 250) 5 "s" false 0 in
  exists o, snd res = Returned o /\ conflict o = false /\
            map u_balance (users (fst (fst res))) = [1100; 900] /\
            deletedListingId o = Some "L1" /\
            map l_id (listings (fst (fst res))) = ["L1"].
Proof.
  cbv zeta.
  destruct (seller_refund_is_capped_by_the_price counterIds
              (escrowRoom buyer_rejected) (rightData "R1" "" 250) 5
              false 0 0 (sampleRight buyer_rejected) 0 soldListing
              1 (sampleUser "s" "seller" 1000) 0 (sampleUser "b" "buyer" 1000)
              eq_refl)
    as (o & Ho & Hc & _ & _ & _ & _ & _ & Hd & _);
    [cbn; tauto | reflexivity | reflexivity | reflexivity
    | vm_compute; discriminate |].
  exists o. split; [exact Ho|]. split; [exact Hc|].
  split; [vm_compute; reflexivity|]. split; [exact Hd|].
  vm_compute. reflexivity.
Defined.

Lemma storage_keys_separate_rooms_witness :
  (kvKey "lobby" "k1" = kvKey "lobby" "k1" -> "lobby" = "lobby" /\ "k1" = "k1")
  /\ kvKey "lobby" "k1" <> usersKey "lobby" "k1".
Proof.
  destruct (storage_keys_separate_rooms "lobby" "k1" "lobby" "k1"
              eq_refl eq_refl) as (H1 & _ & H3 & _).
  split; assumption.
Defined.

(** ** The request handler *)

Lemma kvPut_same k d kv : kvPut k d kv k = Some d.
Proof. unfold kvPut. now rewrite String.eqb_refl. Qed.

Lemma kvPut_other k k' d kv : k' <> k -> kvPut k d kv k' = kv k'.
Proof.
  intros H. unfold kvPut. apply String.eqb_neq in H. now rewrite H.
Qed.

Lemma usersKey_kvKey room key :
  usersKey room key = ("users:" ++ kvKey room key)%string.
Proof. reflexivity. Qed.

Lemma kvKey_not_users room key k :
  kvKey room key <> ("users:" ++ k)%string.
Proof. unfold kvKey. cbn [String.append]. discriminate. Qed.

Lemma users_prefix_inj k k' :
  ("users:" ++ k)%string = ("users:" ++ k')%string -> k = k'.
Proof. cbn [String.append]. intros H. now inversion H. Qed.

Lemma usersStoreGet_put_same k d env :
  usersStoreGet (usersStorePut k d env) k = Some d.
Proof.
  unfold usersStoreGet, usersStorePut.
  destruct (USERS_KV env); cbn [USERS_KV STATE_KV]; apply kvPut_same.
Qed.

Lemma usersStoreGet_put_other k k' d env :
  k' <> k -> usersStoreGet (usersStorePut k d env) k' = usersStoreGet env k'.
Proof.
  intros H. unfold usersStoreGet, usersStorePut.
  destruct (USERS_KV env); cbn [USERS_KV STATE_KV]; now apply kvPut_other.
Qed.

Lemma usersStoreGet_stateKvPut k k' d env :
  k' <> k -> usersStoreGet (stateKvPut k d env) k' = usersStoreGet env k'.
Proof.
  intros H. unfold usersStoreGet, stateKvPut. cbn [USERS_KV STATE_KV].
  destruct (USERS_KV env); [reflexivity | now apply kvPut_other].
Qed.

Lemma STATE_KV_usersStorePut k k' d env :
  k' <> k -> STATE_KV (usersStorePut k d env) k' = STATE_KV env k'.
Proof.
  intros H. unfold usersStorePut.
  destruct (USERS_KV env); cbn [STATE_KV];
    [reflexivity | now apply kvPut_other].
Qed.

(** What a successful [PUT] leaves in the two namespaces. *)
Lemma saved_documents k d us lu env :
  let env' :=
    usersStorePut ("users:" ++ k)%string (UsersDoc us lu)
      (stateKvPut k (StateDoc d) env) in
  (forall room key, k = kvKey room key ->
     STATE_KV env' k = Some (StateDoc d)) /\
  usersStoreGet env' ("users:" ++ k)%string = Some (UsersDoc us lu) /\
  (forall k', k' <> k -> k' <> ("users:" ++ k)%string ->
     STATE_KV env' k' = STATE_KV env k' /\
     usersStoreGet env' k' = usersStoreGet env k').
Proof.
  cbv zeta. split; [|split].
  - intros room key ->.
    rewrite STATE_KV_usersStorePut by apply kvKey_not_users.
    unfold stateKvPut. cbn [STATE_KV]. apply kvPut_same.
  - apply usersStoreGet_put_same.
  - intros k' H1 H2. split.
    + rewrite STATE_KV_usersStorePut by assumption.
      unfold stateKvPut. cbn [STATE_KV]. now apply kvPut_other.
    + rewrite usersStoreGet_put_other by assumption.
      now apply usersStoreGet_stateKvPut.
Qed.

Lemma StateDoc_after_put k ku d us lu env k' s :
  STATE_KV (usersStorePut ku (UsersDoc us lu) (stateKvPut k d env)) k'
  = Some (StateDoc s) ->
  k' <> k -> STATE_KV env k' = Some (StateDoc s).
Proof.
  unfold usersStorePut, stateKvPut. cbn [USERS_KV STATE_KV].
  destruct (USERS_KV env); cbn [STATE_KV]; intros H Hne.
  - now rewrite kvPut_other in H.
  - unfold kvPut at 1 in H. destruct (k' =? ku)%string; [discriminate|].
    now rewrite kvPut_other in H.
Qed.

Section EndpointFacts.
Variable gen : nat -> string.

(** The shape of a [PUT] that reaches the merge. *)
Lemma statePut_merges now now' now'' n env room key ops current :
  (STATE_KV env (kvKey room key) = Some (StateDoc current) \/
   (STATE_KV env (kvKey room key) = None /\ current = emptySnapshot)) ->
  let saved := toSave now'' (mergeOperations gen now now' current ops n) in
  statePut gen now now' now'' n env room key (Some ops)
  = (usersStorePut (usersKey room key)
       (UsersDoc (users (s_state saved)) now'')
       (stateKvPut (kvKey room key) (StateDoc saved) env),
     mkResponse 200
       (MergeBody (s_state saved) (map idOrSelf (s_processedOps saved))
          (newConflicts (mergeOperations gen now now' current ops n))
          now'')).
Proof.
  intros [H | [H ->]]; cbv zeta; unfold statePut; rewrite H; reflexivity.
Qed.

Lemma statePut_cases now now' now'' n env room key operations :
  (fst (statePut gen now now' now'' n env room key operations) = env /\
   servedState
     (Responded (snd (statePut gen now now' now'' n env room key operations)))
   = None) \/
  exists ops current,
    operations = Some ops /\
    (STATE_KV env (kvKey room key) = Some (StateDoc current) \/
     (STATE_KV env (kvKey room key) = None /\ current = emptySnapshot)).
Proof.
  destruct operations as [ops|].
  - destruct (STATE_KV env (kvKey room key)) as [[current|us lu]|] eqn:E.
    + right. exists ops, current. auto.
    + left. unfold statePut. rewrite E. split; reflexivity.
    + right. exists ops, emptySnapshot. auto.
  - left. split; reflexivity.
Qed.

Lemma stateGet_served env room key t st :
  Consistent gen env ->
  servedState (Responded (stateGet env room key t)) = Some st ->
  exists s, Reachable gen (fun _ => True) emptySnapshot s /\ s_state s = st.
Proof.
  intros HC. unfold stateGet. rewrite usersKey_kvKey.
  destruct (STATE_KV env (kvKey room key)) as [[s|us l]|] eqn:E.
  - destruct (HC _ _ E) as [HR HU]. rewrite HU.
    replace (setUsers (users (s_state s)) (s_state s)) with (s_state s)
      by now destruct (s_state s).
    cbn [docLastUpdate s_lastUpdate s_state s_processedOps s_conflicts].
    destruct (match t with Some t0 => _ | None => false end);
      [discriminate|].
    cbn [servedState]. intros H. inversion H. now exists s.
  - destruct (usersStoreGet env _) as [[?|? ?]|];
      cbn [docLastUpdate];
      destruct (match t with Some t0 => _ | None => false end);
      discriminate.
  - destruct (usersStoreGet env _) as [[?|? ?]|]; discriminate.
Qed.

Lemma statePut_consistent now now' now'' n env room key operations :
  Consistent gen env ->
  Consistent gen
    (fst (statePut gen now now' now'' n env room key operations)).
Proof.
  intros HC.
  destruct (statePut_cases now now' now'' n env room key operations)
    as [[-> _] | (ops & current & -> & Hcur)]; [exact HC|].
  rewrite (statePut_merges now now' now'' n env room key ops current Hcur).
  cbn [fst]. rewrite usersKey_kvKey.
  set (saved := toSave now'' (mergeOperations gen now now' current ops n)).
  destruct (saved_documents (kvKey room key) saved
              (users (s_state saved)) now'' env) as (H1 & H2 & H3).
  assert (HR : Reachable gen (fun _ => True) emptySnapshot saved).
  { apply reach_merge; [|apply Forall_forall; auto].
    destruct Hcur as [H | [_ ->]]; [apply (HC _ _ H) | apply reach_start]. }
  intros k s Hk.
  destruct (String.eqb_spec k (kvKey room key)) as [-> | Hne].
  - rewrite (H1 room key eq_refl) in Hk. inversion Hk; subst s.
    split; [exact HR | exact H2].
  - apply StateDoc_after_put in Hk; [|exact Hne].
    destruct (HC _ _ Hk) as [HR' HU]. split; [exact HR'|].
    rewrite usersStoreGet_put_other.
    + rewrite usersStoreGet_stateKvPut; [exact HU|].
      intros H. symmetry in H. exact (kvKey_not_users _ _ _ H).
    + intros H. apply users_prefix_inj in H. contradiction.
Qed.

Lemma fetch_consistent now now' now'' n req env :
  Consistent gen env ->
  Consistent gen (fst (fetch gen now now' now'' n req env)).
Proof.
  intros HC. unfold fetch.
  repeat match goal with
         | |- context [if ?b then _ else _] => destruct b
         end; cbn [fst]; try exact HC.
  now apply statePut_consistent.
Qed.

Lemma serve_consistent calls env :
  Consistent gen env -> Consistent gen (serve gen env calls).
Proof.
  revert env. induction calls as [|c calls IH]; intros env HC; [exact HC|].
  cbn [serve fold_left]. apply IH. unfold call. now apply fetch_consistent.
Qed.

Lemma emptyEnv_consistent dedicated : Consistent gen (emptyEnv dedicated).
Proof. intros k s H. discriminate H. Qed.

(** The answer to a request depends on the two documents of its room
    only. *)
Lemma fetch_answer_ext now now' now'' n req env env' :
  let room := orEmpty (rq_room req) in
  let key := orEmpty (rq_key req) in
  STATE_KV env' (kvKey room key) = STATE_KV env (kvKey room key) ->
  usersStoreGet env' (usersKey room key)
  = usersStoreGet env (usersKey room key) ->
  snd (fetch gen now now' now'' n req env')
  = snd (fetch gen now now' now'' n req env).
Proof.
  cbv zeta. intros HS HU. unfold fetch.
  repeat match goal with
         | |- context [if ?b then _ else _] => destruct b
         end; cbn [snd]; try reflexivity.
  - unfold stateGet. now rewrite HS, HU.
  - unfold statePut. rewrite HS.
    destruct (rq_operations req); [|reflexivity].
    destruct (STATE_KV env _) as [[?|? ?]|]; reflexivity.
Qed.

Lemma fetch_frame now now' now'' n req env k :
  k <> kvKey (orEmpty (rq_room req)) (orEmpty (rq_key req)) ->
  k <> usersKey (orEmpty (rq_room req)) (orEmpty (rq_key req)) ->
  STATE_KV (fst (fetch gen now now' now'' n req env)) k = STATE_KV env k /\
  usersStoreGet (fst (fetch gen now now' now'' n req env)) k
  = usersStoreGet env k.
Proof.
  intros H1 H2. unfold fetch.
  repeat match goal with
         | |- context [if ?b then _ else _] => destruct b
         end; cbn [fst]; try (split; reflexivity).
  destruct (statePut_cases now now' now'' n env
              (orEmpty (rq_room req)) (orEmpty (rq_key req))
              (rq_operations req))
    as [[-> _] | (ops & current & -> & Hcur)]; [split; reflexivity|].
  rewrite (statePut_merges now now' now'' n env _ _ ops current Hcur).
  cbn [fst]. rewrite usersKey_kvKey in *.
  now apply saved_documents.
Qed.

Lemma request_on_state_route method room key lastSync operations
    now now' now'' n env :
  room <> "" -> key <> "" ->
  fetch gen now now' now'' n
    (mkRequest method "/state" (Some room) (Some key) lastSync operations)
    env
  = if (method =? "OPTIONS")%string
    then (env, Responded (mkResponse 200 NoBody))
    else if (method =? "GET")%string
    then (env, Responded (stateGet env room key lastSync))
    else if (method =? "PUT")%string
    then (fst (statePut gen now now' now'' n env room key operations),
          Responded
            (snd (statePut gen now now' now'' n env room key operations)))
    else (env, Responded (mkResponse 405 (ErrorBody "method not allowed"))).
Proof.
  intros Hr Hk. unfold fetch.
  cbn [rq_method rq_pathname rq_room rq_key rq_lastSync rq_operations
       orEmpty].
  apply String.eqb_neq in Hr, Hk. rewrite Hr, Hk. reflexivity.
Qed.

(** X25: a successful [PUT] is read back by the next [GET]: when the state
    key of a room holds a saved state or nothing, a [PUT] of an operations
    array answers 200 with the merged state, and a [GET] on a room/key pair
    with the same state key (the same pair, or a pair that collides with it
    through the separator) answers 204 when its [lastSync] is not before
    the [lastUpdate] of the [PUT], and otherwise 200 with exactly the state,
    [lastUpdate], processed log and conflicts the [PUT] saved; the [GET]
    leaves the bindings as they are. *)
Theorem put_then_get_returns_the_saved_state
    (now now' now'' : Z) (n : nat) (a b c : Z) (m : nat) (env : Env)
    (room key room' key' : string) (ops : list Operation) (t : Z)
    (current : Snapshot) :
  room <> "" -> key <> "" -> room' <> "" -> key' <> "" ->
  kvKey room' key' = kvKey room key ->
  (STATE_KV env (kvKey room key) = Some (StateDoc current) \/
   (STATE_KV env (kvKey room key) = None /\ current = emptySnapshot)) ->
  let put := fetch gen now now' now'' n (putRequest room key ops) env in
  let get := fetch gen a b c m (getRequest room' key' t) (fst put) in
  let merged := mergeOperations gen now now' current ops n in
  snd put
  = Responded
      (mkResponse 200
         (MergeBody (state merged) (map idOrSelf (processedOps merged))
            (newConflicts merged) now'')) /\
  snd get
  = Responded
      (if now'' <=? t then mkResponse 204 NoBody
       else mkResponse 200
              (StateBody (Some (state merged)) now'' (processedOps merged)
                 (conflicts merged))) /\
  fst get = fst put.
Proof.
  intros Hr Hk Hr' Hk' Hkeys Hcur. cbv zeta.
  unfold putRequest, getRequest.
  rewrite !request_on_state_route by assumption.
  cbn [String.eqb Ascii.eqb Bool.eqb fst snd].
  rewrite (statePut_merges now now' now'' n env room key ops current Hcur).
  cbn [fst snd].
  split; [reflexivity|]. split; [|reflexivity].
  unfold stateGet. rewrite !usersKey_kvKey, Hkeys.
  generalize (mergeOperations gen now now' current ops n) as merged.
  intros merged.
  destruct (saved_documents (kvKey room key) (toSave now'' merged)
              (users (s_state (toSave now'' merged))) now'' env)
    as (H1 & H2 & _).
  rewrite (H1 room key eq_refl), H2.
  cbn [docLastUpdate toSave s_lastUpdate s_state s_processedOps
       s_conflicts].
  replace (setUsers (users (state merged)) (state merged))
    with (state merged) by now destruct (state merged).
  now destruct (now'' <=? t).
Qed.

(** X26: starting from empty namespaces, with or without a dedicated
    namespace for the users, every state that the handler serves after any
    sequence of calls, in the answer to a [GET] or to a [PUT], is the state
    of a snapshot reached from the empty snapshot by merge passes. *)
Theorem served_states_are_reachable
    (dedicated : bool) (calls : list Call) (c : Call) (st : State) :
  servedState (snd (call gen c (serve gen (emptyEnv dedicated) calls)))
  = Some st ->
  exists s, Reachable gen (fun _ => True) emptySnapshot s /\ s_state s = st.
Proof.
  pose proof (serve_consistent calls _ (emptyEnv_consistent dedicated))
    as HC.
  revert HC. generalize (serve gen (emptyEnv dedicated) calls) as env.
  intros env HC. unfold call, fetch.
  repeat match goal with
         | |- context [if ?b then _ else _] => destruct b
         end; cbn [snd]; try (cbn [servedState]; discriminate).
  - now apply stateGet_served.
  - destruct (statePut_cases (c_now c) (c_now' c) (c_now'' c) (c_pos c) env
                (orEmpty (rq_room (c_req c))) (orEmpty (rq_key (c_req c)))
                (rq_operations (c_req c)))
      as [[_ Hno] | (ops & current & -> & Hcur)].
    + rewrite Hno. discriminate.
    + rewrite (statePut_merges _ _ _ _ env _ _ ops current Hcur).
      cbn [snd servedState]. intros H. injection H as <-.
      exists (toSave (c_now'' c)
                (mergeOperations gen (c_now c) (c_now' c) current ops
                   (c_pos c))).
      split; [|reflexivity].
      apply reach_merge; [|apply Forall_forall; auto].
      destruct Hcur as [Hc | [_ ->]]; [apply (HC _ _ Hc) | apply reach_start].
Qed.

(** X27: the handler writes nothing but the two documents of the room of a
    [PUT]: a request that is not a [PUT] on [/state] leaves the bindings as
    they are, and after any request every key other than the state key and
    the users key of its room holds what it held. *)
Theorem fetch_writes_only_the_room_of_a_put
    (now now' now'' : Z) (n : nat) (req : Request) (env : Env) :
  let env' := fst (fetch gen now now' now'' n req env) in
  let room := orEmpty (rq_room req) in
  let key := orEmpty (rq_key req) in
  ((rq_method req =? "PUT")%string && (rq_pathname req =? "/state")%string
   = false -> env' = env) /\
  (forall k, k <> kvKey room key -> k <> usersKey room key ->
     STATE_KV env' k = STATE_KV env k /\
     usersStoreGet env' k = usersStoreGet env k).
Proof.
  cbv zeta. split.
  - unfold fetch.
    destruct (rq_method req =? "OPTIONS")%string; [reflexivity|].
    destruct (rq_pathname req =? "/state")%string.
    + destruct (_ || _); [reflexivity|].
      destruct (rq_method req =? "GET")%string; [reflexivity|].
      destruct (rq_method req =? "PUT")%string; [discriminate|reflexivity].
    + repeat match goal with
             | |- context [if ?b then _ else _] => destruct b
             end; reflexivity.
  - intros k. apply fetch_frame.
Qed.

(** X28: rooms whose names do not contain the separator are isolated: a
    [PUT] on one room/key pair leaves the answer to any request on a
    different pair as it would have been without it. *)
Theorem put_leaves_other_rooms_alone
    (now now' now'' : Z) (n : nat) (a b c : Z) (m : nat) (env : Env)
    (room key room' key' : string) (req req' : Request) :
  noBar room = true -> noBar room' = true ->
  room <> room' \/ key <> key' ->
  rq_room req = Some room -> rq_key req = Some key ->
  rq_room req' = Some room' -> rq_key req' = Some key' ->
  snd (fetch gen a b c m req' (fst (fetch gen now now' now'' n req env)))
  = snd (fetch gen a b c m req' env).
Proof.
  intros Hn Hn' Hdiff Hr Hk Hr' Hk'.
  assert (Hkeys : kvKey room' key' <> kvKey room key).
  { intros H. unfold kvKey in H. cbn [String.append] in H. inversion H.
    destruct (split_at_bar room' room key' key Hn' Hn) as [-> ->];
      [assumption | tauto]. }
  assert (Hframe : forall k, k <> kvKey room key -> k <> usersKey room key ->
            STATE_KV (fst (fetch gen now now' now'' n req env)) k
            = STATE_KV env k /\
            usersStoreGet (fst (fetch gen now now' now'' n req env)) k
            = usersStoreGet env k).
  { intros k H1 H2. apply fetch_frame; rewrite Hr, Hk; assumption. }
  apply fetch_answer_ext; rewrite Hr', Hk'; cbn [orEmpty];
    apply Hframe.
  - exact Hkeys.
  - rewrite usersKey_kvKey. apply kvKey_not_users.
  - rewrite usersKey_kvKey. intros H. symmetry in H.
    exact (kvKey_not_users _ _ _ H).
  - rewrite !usersKey_kvKey. intros H. apply users_prefix_inj in H.
    contradiction.
Qed.
End EndpointFacts.

Lemma put_then_get_returns_the_saved_state_witness :
  let put := fetch counterIds 10 10 10 0 (firstPut "a|b" "c")
               (emptyEnv false) in
  let get := fetch counterIds 20 20 20 0 (getRequest "a" "b|c" 0)
               (fst put) in
  option_map (fun st => map u_name (users st)) (servedState (snd get))
  = Some ["alice"].
Proof.
  cbv zeta.
  destruct (put_then_get_returns_the_saved_state counterIds 10 10 10 0
              20 20 20 0 (emptyEnv false) "a|b" "c" "a" "b|c"
              [registerOp "o1" "alice" 1] 0 emptySnapshot)
    as (_ & Hget & _);
    [discriminate | discriminate | discriminate | discriminate
    | reflexivity | right; split; reflexivity |].
  unfold firstPut. rewrite Hget. vm_compute. reflexivity.
Defined.

Lemma served_states_are_reachable_witness :
  exists s,
    Reachable counterIds (fun _ => True) emptySnapshot s /\
    map u_name (users (s_state s)) = ["alice"].
Proof.
  edestruct (served_states_are_reachable counterIds true
               [mkCall 10 10 10 0 (firstPut "lobby" "k1")]
               (mkCall 20 20 20 0 (getRequest "lobby" "k1" 0)))
    as (s & HR & Hs); [vm_compute; reflexivity|].
  exists s. split; [exact HR|]. rewrite Hs. reflexivity.
Defined.

Lemma put_leaves_other_rooms_alone_witness :
  snd (fetch counterIds 20 20 20 0 (getRequest "hall" "k1" 0)
         (fst (fetch counterIds 10 10 10 0 (firstPut "lobby" "k1")
                 (emptyEnv false))))
  = Responded (mkResponse 204 NoBody).
Proof.
  rewrite (put_leaves_other_rooms_alone counterIds 10 10 10 0 20 20 20 0
             (emptyEnv false) "lobby" "k1" "hall" "k1"
             (firstPut "lobby" "k1") (getRequest "hall" "k1" 0)
             eq_refl eq_refl);
    [reflexivity | left; discriminate | reflexivity | reflexivity
    | reflexivity | reflexivity].
Defined.
